(** * flixopt: the modelling layer of [flixopt/features.py] and [flixopt/elements.py]

    A shallow embedding of the rules that turn flows, buses, on/off
    states, investments, segments and share ledgers into linear
    constraints, together with the properties those constraints have.

    Numbers are exact rationals ([Q]); Python exceptions are values of
    [exn]; code that builds a model threads an explicit state. *)

From stdpp Require Import base gmap strings pretty.
From Stdlib Require Import QArith Qabs Qminmax Lqa Lia List.
Import ListNotations.

(** ** Python exceptions and results *)

Inductive exn : Type :=
| AssertionError (msg : string)
| TypeError (msg : string)
| ValueError (msg : string)
| AttributeError (msg : string)
| IndexError (msg : string)
| PyException (msg : string).

Inductive Result (A : Type) : Type :=
| Ok (a : A)
| Raise (e : exn).
Arguments Ok {A} a.
Arguments Raise {A} e.

Definition is_ok {A} (r : Result A) : bool :=
  match r with Ok _ => true | Raise _ => false end.

Definition raises {A} (r : Result A) : Prop :=
  match r with Ok _ => False | Raise _ => True end.

(** A computation over a mutable object of type [S]: the state is
    returned also when an exception is raised, as a Python object keeps
    the mutations made before the [raise]. *)
Definition M (S A : Type) : Type := S -> Result A * S.

Definition ret {S A} (a : A) : M S A := fun s => (Ok a, s).
Definition throw {S A} (e : exn) : M S A := fun s => (Raise e, s).
Definition bind {S A B} (m : M S A) (k : A -> M S B) : M S B :=
  fun s => match m s with
           | (Ok a, s') => k a s'
           | (Raise e, s') => (Raise e, s')
           end.
Definition modify {S} (f : S -> S) : M S unit := fun s => (Ok tt, f s).
Definition gets {S A} (f : S -> A) : M S A := fun s => (Ok (f s), s).
Definition lift {S A} (r : Result A) : M S A := fun s => (r, s).
Definition assert_ {S} (b : bool) (msg : string) : M S unit :=
  if b then ret tt else throw (AssertionError msg).

Declare Scope py_scope.
Delimit Scope py_scope with py.
Notation "x <- m ;; k" := (bind m (fun x => k))
  (at level 100, m at next level, right associativity) : py_scope.
Notation "m ;;; k" := (bind m (fun _ => k))
  (at level 100, right associativity) : py_scope.

(** ** Numeric data ([core.Numeric]: a scalar or a one-dimensional array) *)

Inductive Numeric : Type :=
| Skalar (q : Q)
| NArray (l : list Q).

Definition np_isscalar (x : Numeric) : bool :=
  match x with Skalar _ => true | NArray _ => false end.

Definition numeric_len (x : Numeric) : nat :=
  match x with Skalar _ => 1%nat | NArray l => length l end.

(** Element [r] of a numeric under numpy's broadcasting: a scalar (or an
    array of length one) is the same at every position. *)
Definition bnth (x : Numeric) (r : nat) : Q :=
  match x with
  | Skalar q => q
  | NArray [q] => q
  | NArray l => nth r l 0%Q
  end.

Definition np_map (f : Q -> Q) (x : Numeric) : Numeric :=
  match x with
  | Skalar q => Skalar (f q)
  | NArray l => NArray (List.map f l)
  end.

(** [c * x], [c + x] and [np.maximum(x, c)] for a Python scalar [c]. *)
Definition np_scale (c : Q) (x : Numeric) : Numeric := np_map (Qmult c) x.
Definition np_shift (c : Q) (x : Numeric) : Numeric := np_map (Qplus c) x.
Definition np_maximum (c : Q) (x : Numeric) : Numeric := np_map (Qmax c) x.

Fixpoint zip_with (f : Q -> Q -> Q) (a b : list Q) : list Q :=
  match a, b with
  | x :: a', y :: b' => f x y :: zip_with f a' b'
  | _, _ => []
  end.

(** A binary numpy operation: shapes must agree, or one side has a
    single element; anything else is numpy's broadcast [ValueError]. *)
Definition np_broadcast2 (f : Q -> Q -> Q) (x y : Numeric) : Result Numeric :=
  match x, y with
  | Skalar a, Skalar b => Ok (Skalar (f a b))
  | Skalar a, NArray l => Ok (NArray (List.map (f a) l))
  | NArray l, Skalar b => Ok (NArray (List.map (fun a => f a b) l))
  | NArray [a], NArray l => Ok (NArray (List.map (f a) l))
  | NArray l, NArray [b] => Ok (NArray (List.map (fun a => f a b) l))
  | NArray l1, NArray l2 =>
      if Nat.eqb (length l1) (length l2) then Ok (NArray (zip_with f l1 l2))
      else Raise (ValueError "operands could not be broadcast together")
  end.

Definition np_multiply : Numeric -> Numeric -> Result Numeric := np_broadcast2 Qmult.

(** Python's [a < b] on numbers. *)
Definition Qltb (a b : Q) : bool := negb (Qle_bool b a).

Definition Qsum (l : list Q) : Q := fold_right Qplus 0%Q l.

Definition np_sum (x : Numeric) : Q :=
  match x with Skalar q => q | NArray l => Qsum l end.

(** [np.any(x > y)] *)
Definition np_any_gt (x y : Numeric) : Result bool :=
  match np_broadcast2 (fun a b => if Qltb b a then 1%Q else 0%Q) x y with
  | Ok (Skalar q) => Ok (negb (Qeq_bool q 0))
  | Ok (NArray l) => Ok (existsb (fun q => negb (Qeq_bool q 0)) l)
  | Raise e => Raise e
  end.

(** Python slices [a[1:]] and [a[0:-1]]. *)
Definition slice_from1 {A} (l : list A) : list A := tl l.
Definition slice_to_last {A} (l : list A) : list A := removelast l.

(** [core.TimeSeries], as far as this layer reads it: the active data. *)
Record TimeSeries : Type := mkTimeSeries { active_data : Numeric }.
Definition is_array (ts : TimeSeries) : bool := negb (np_isscalar (active_data ts)).
Definition is_scalar (ts : TimeSeries) : bool := np_isscalar (active_data ts).

(** ** The symbolic primitives ([math_modeling], [structure]) *)

(** Modelled from the spec: the class [Variable]/[VariableTS] (here
    [Variable_], as the plain name is reserved) of
    [math_modeling.py], which is not part of the sources at hand. A
    variable is identified by its label; it is a scalar (length 1) or
    time-indexed, has optional bounds, a binary flag, an optional fixed
    value and optional values of the previous horizon. *)
Record Variable_ : Type := mkVariable {
  var_label : string;
  var_length : nat;
  lower_bound : option Numeric;
  upper_bound : option Numeric;
  is_binary : bool;
  fixed_value : option Numeric;
  previous_values : option Numeric
}.

Inductive EqType : Type := eq_ | ineq.

(** Modelled from the spec: one term of an equation, a variable times
    coefficient(s), optionally restricted to an index subset
    ([indices_of_variable]; a single Python [int] is the one-element
    list) or summed over its indices ([as_sum]). *)
Record Summand : Type := mkSummand {
  s_var : Variable_;
  s_factor : Numeric;
  s_indices : option (list nat);
  s_as_sum : bool
}.

(** Modelled from the spec: the class [Equation] of [math_modeling.py]:
    the terms on the left, the constants added on the right, and the tag
    [eq_] (left = right) or [ineq] (left <= right). *)
Record Equation : Type := mkEquation {
  eq_label : string;
  eq_type : EqType;
  summands : list Summand;
  constants : list Numeric
}.

(** Modelled from the spec: [create_variable(label, owner, length,
    lower_bound, upper_bound, is_binary, fixed_value, previous_values)];
    the label of the variable is the owner's label, two underscores and
    the short label. *)
Definition full_label (owner short : string) : string :=
  String.append owner (String.append "__" short).

Definition new_variable (label owner : string) (length : nat)
    (lb ub : option Numeric) (binary : bool)
    (fixed prev : option Numeric) : Variable_ :=
  mkVariable (full_label owner label) length lb ub binary fixed prev.

(** Modelled from the spec: [create_equation(label, owner, eq_type)],
    [Equation.add_summand] and [Equation.add_constant]. *)
Definition new_equation (label owner : string) (ty : EqType) : Equation :=
  mkEquation (full_label owner label) ty [] [].

Definition add_summand (e : Equation) (v : Variable_) (factor : Numeric)
    (indices : option (list nat)) (as_sum : bool) : Equation :=
  mkEquation (eq_label e) (eq_type e)
             (summands e ++ [mkSummand v factor indices as_sum]) (constants e).

Definition add_constant (e : Equation) (c : Numeric) : Equation :=
  mkEquation (eq_label e) (eq_type e) (summands e) (constants e ++ [c]).

(** *** What an equation says about an assignment of the variables *)

Definition Valuation : Type := string -> nat -> Q.

Definition selected (s : Summand) : list nat :=
  match s_indices s with
  | None => seq 0 (var_length (s_var s))
  | Some l => l
  end.

Definition index_at (l : list nat) (r : nat) : nat :=
  match l with
  | [i] => i
  | _ => nth r l 0%nat
  end.

Definition summand_rows (s : Summand) : nat :=
  if s_as_sum s then 1%nat
  else match selected s with
       | [_] => numeric_len (s_factor s)
       | l => length l
       end.

Definition summand_value (val : Valuation) (s : Summand) (r : nat) : Q :=
  if s_as_sum s then
    Qsum (List.map (fun k => bnth (s_factor s) k * val (var_label (s_var s)) (nth k (selected s) 0%nat))%Q
                   (seq 0 (length (selected s))))
  else (bnth (s_factor s) r * val (var_label (s_var s)) (index_at (selected s) r))%Q.

(** The rows of an equation are those of its longest term; shorter
    terms and the constants are broadcast. *)
Definition eq_rows (e : Equation) : nat :=
  fold_right Nat.max 0%nat (List.map summand_rows (summands e)).

Definition lhs (val : Valuation) (e : Equation) (r : nat) : Q :=
  Qsum (List.map (fun s => summand_value val s r) (summands e)).

Definition rhs (e : Equation) (r : nat) : Q :=
  Qsum (List.map (fun c => bnth c r) (constants e)).

Definition row_holds (val : Valuation) (e : Equation) (r : nat) : Prop :=
  match eq_type e with
  | eq_ => (lhs val e r == rhs e r)%Q
  | ineq => (lhs val e r <= rhs e r)%Q
  end.

Definition eq_holds (val : Valuation) (e : Equation) : Prop :=
  forall r, (r < eq_rows e)%nat -> row_holds val e r.

Definition row_check (val : Valuation) (e : Equation) (r : nat) : bool :=
  match eq_type e with
  | eq_ => Qeq_bool (lhs val e r) (rhs e r)
  | ineq => Qle_bool (lhs val e r) (rhs e r)
  end.

Definition eq_check (val : Valuation) (e : Equation) : bool :=
  forallb (row_check val e) (seq 0 (eq_rows e)).

(** *** What a variable's declaration says about an assignment *)

Definition opt_bound (b : option Numeric) (rel : Q -> Q -> Prop) (i : nat) (x : Q) : Prop :=
  match b with
  | None => True
  | Some n => rel (bnth n i) x
  end.

Definition var_ok (val : Valuation) (v : Variable_) : Prop :=
  forall i, (i < var_length v)%nat ->
    opt_bound (lower_bound v) Qle i (val (var_label v) i) /\
    opt_bound (upper_bound v) (fun u x => x <= u)%Q i (val (var_label v) i) /\
    opt_bound (fixed_value v) Qeq i (val (var_label v) i) /\
    (is_binary v = true ->
       (val (var_label v) i == 0 \/ val (var_label v) i == 1)%Q).

Definition opt_bound_check (b : option Numeric) (rel : Q -> Q -> bool) (i : nat) (x : Q) : bool :=
  match b with
  | None => true
  | Some n => rel (bnth n i) x
  end.

Definition var_check (val : Valuation) (v : Variable_) : bool :=
  forallb (fun i =>
    opt_bound_check (lower_bound v) Qle_bool i (val (var_label v) i) &&
    opt_bound_check (upper_bound v) (fun u x => Qle_bool x u) i (val (var_label v) i) &&
    opt_bound_check (fixed_value v) Qeq_bool i (val (var_label v) i) &&
    (negb (is_binary v) ||
       Qeq_bool (val (var_label v) i) 0 || Qeq_bool (val (var_label v) i) 1))
   (seq 0 (var_length v)).

(** ** The horizon and the model under construction *)

(** Modelled from the spec: what this layer reads of [SystemModel]
    ([structure.py]): the steps, their durations and the durations of
    the previous horizon. *)
Record SystemModel : Type := mkSystemModel {
  nr_of_time_steps : nat;
  indices : list nat;
  dt_in_hours : list Q;
  dt_in_hours_total : Q;
  previous_dt_in_hours : Numeric
}.

Definition horizon_ok (sm : SystemModel) : Prop :=
  indices sm = seq 0 (nr_of_time_steps sm) /\
  length (dt_in_hours sm) = nr_of_time_steps sm /\
  dt_in_hours_total sm = Qsum (dt_in_hours sm).

(** A registration in the effect ledger:
    [add_share_to_operation], [add_share_to_invest] (with the effect
    values) or [add_share_to_penalty]. *)
Inductive ShareTarget : Type := to_operation | to_invest | to_penalty.

Definition EffectValues : Type := list (string * Numeric).

Record ShareCall : Type := mkShareCall {
  sc_target : ShareTarget;
  sc_name : string;
  sc_element : string;
  sc_effect_values : EffectValues;
  sc_factor : Numeric;
  sc_variable : option Variable_
}.

(** What a run of [do_modeling] leaves behind: the variables and the
    equations created, the ledger registrations and the warnings
    logged, each in the order of the calls. *)
Record Built : Type := mkBuilt {
  variables : list Variable_;
  eqs : list Equation;
  share_calls : list ShareCall;
  warnings : list string
}.

Definition empty_built : Built := mkBuilt [] [] [] [].

Definition create_variable (label owner : string) (length : nat)
    (lb ub : option Numeric) (binary : bool)
    (fixed prev : option Numeric) : M Built Variable_ :=
  fun b =>
    let v := new_variable label owner length lb ub binary fixed prev in
    (Ok v, mkBuilt (variables b ++ [v]) (eqs b) (share_calls b) (warnings b)).

(** An equation is registered with its owner when it is created and
    filled afterwards; here it is filled first and [emit]ted in the
    order of creation. When an exception interrupts the filling, the
    half-filled equation is left out of the state; where the state
    after an exception is spoken of, the equation is [emit]ted empty
    and filled in place with [amend_last]. *)
Definition emit (e : Equation) : M Built unit :=
  modify (fun b => mkBuilt (variables b) (eqs b ++ [e]) (share_calls b) (warnings b)).

(** [eq.add_summand(...)] on the equation that was created last: the
    registered equation is changed in place. *)
Definition amend_last (f : Equation -> Equation) : M Built unit :=
  modify (fun b => mkBuilt (variables b)
                     (alter f (Nat.pred (length (eqs b))) (eqs b))
                     (share_calls b) (warnings b)).

Definition add_share_call (c : ShareCall) : M Built unit :=
  modify (fun b => mkBuilt (variables b) (eqs b) (share_calls b ++ [c]) (warnings b)).

Definition logger_warning (msg : string) : M Built unit :=
  modify (fun b => mkBuilt (variables b) (eqs b) (share_calls b) (warnings b ++ [msg])).

Definition feasible (val : Valuation) (b : Built) : Prop :=
  Forall (var_ok val) (variables b) /\ Forall (eq_holds val) (eqs b).

Definition feasible_check (val : Valuation) (b : Built) : bool :=
  forallb (var_check val) (variables b) && forallb (eq_check val) (eqs b).

(** ** Configuration and parameter records *)

(** Modelled from the spec: [CONFIG.modeling] ([config.py]): the
    tolerance, the default large size and the warning threshold for
    binary bounds. *)
Record Config : Type := mkConfig {
  EPSILON : Q;
  BIG : Q;
  BIG_BINARY_BOUND : Q
}.

(** Modelled from the spec: the fields of [interface.InvestParameters]
    and [interface.OnOffParameters] this layer reads; the [use_*]
    properties are taken as given. *)
Record InvestParameters : Type := mkInvestParameters {
  fixed_size : option Q;
  optional : bool;
  minimum_size : Q;
  maximum_size : Q;
  fix_effects : EffectValues;
  divest_effects : EffectValues;
  specific_effects : EffectValues;
  effects_in_segments : option (list (Q * Q) * list (string * list (Q * Q)))
}.

Record OnOffParameters : Type := mkOnOffParameters {
  on_hours_total_min : option Q;
  on_hours_total_max : option Q;
  use_off : bool;
  use_consecutive_on_hours : bool;
  consecutive_on_hours_min : option TimeSeries;
  consecutive_on_hours_max : option TimeSeries;
  use_consecutive_off_hours : bool;
  consecutive_off_hours_min : option TimeSeries;
  consecutive_off_hours_max : option TimeSeries;
  use_switch_on : bool;
  switch_on_total_max : option Q;
  effects_per_switch_on : EffectValues;
  effects_per_running_hour : EffectValues
}.

Definition is_some {A} (o : option A) : bool :=
  match o with Some _ => true | None => false end.

(** ** [features.py]: [OnOffModel] *)

Record OnOffModel : Type := mkOnOffModel {
  oo_element : string;
  oo_label : string;
  on : option Variable_;
  total_on_hours : option Variable_;
  consecutive_on_hours : option Variable_;
  consecutive_off_hours : option Variable_;
  off : option Variable_;
  switch_on : option Variable_;
  switch_off : option Variable_;
  nr_switch_on : option Variable_;
  _on_off_parameters : OnOffParameters;
  _defining_variables : list Variable_;
  _defining_bounds : list (Numeric * Numeric)
}.

(** The label under which an [OnOffModel] creates its variables and
    equations. *)
Definition oo_owner (self : OnOffModel) : string :=
  full_label (oo_element self) (oo_label self).

(** [OnOffModel.__init__]: no lower bound stays below [EPSILON]. *)
Definition OnOffModel_init (cfg : Config) (element : string)
    (on_off_parameters : OnOffParameters)
    (defining_variables : list Variable_)
    (defining_bounds : list (Numeric * Numeric))
    (label : string) : Result OnOffModel :=
  let bounds := List.map (fun '(lb, ub) => (np_maximum (EPSILON cfg) lb, ub)) defining_bounds in
  if Nat.eqb (length defining_variables) (length defining_bounds) then
    Ok (mkOnOffModel element label None None None None None None None None
                     on_off_parameters defining_variables bounds)
  else Raise (AssertionError "Every defining Variable needs bounds to Model OnOff").

(** [np.isclose(x, 0, atol=epsilon)]: the relative term vanishes at 0. *)
Definition np_isclose0 (epsilon x : Q) : bool := Qle_bool (Qabs x) epsilon.

Definition not_close_int (epsilon x : Q) : Q :=
  if np_isclose0 epsilon x then 0%Q else 1%Q.

(** [np.array(list)] of scalars (one dimension) or of arrays of one
    length (two dimensions). *)
Inductive NdArray : Type :=
| Arr1 (l : list Q)
| Arr2 (rows : list (list Q)).

Fixpoint all_skalar (l : list Numeric) : option (list Q) :=
  match l with
  | [] => Some []
  | Skalar q :: r => option_map (cons q) (all_skalar r)
  | NArray _ :: _ => None
  end.

Fixpoint all_array (n : nat) (l : list Numeric) : option (list (list Q)) :=
  match l with
  | [] => Some []
  | NArray a :: r =>
      if Nat.eqb (length a) n then option_map (cons a) (all_array n r) else None
  | Skalar _ :: _ => None
  end.

Definition np_array (l : list Numeric) : Result NdArray :=
  match l with
  | [] => Ok (Arr1 [])
  | Skalar _ :: _ =>
      match all_skalar l with
      | Some qs => Ok (Arr1 qs)
      | None => Raise (ValueError "inhomogeneous shape")
      end
  | NArray a :: _ =>
      match all_array (length a) l with
      | Some rows => Ok (Arr2 rows)
      | None => Raise (ValueError "inhomogeneous shape")
      end
  end.

(** [np.any(~np.isclose(rows, 0, atol=epsilon), axis=0).astype(int)] *)
Definition any_not_close_axis0 (epsilon : Q) (rows : list (list Q)) : list Q :=
  List.map (fun j =>
              if existsb (fun row => negb (np_isclose0 epsilon (nth j row 0%Q))) rows
              then 1%Q else 0%Q)
           (seq 0 (length (hd [] rows))).

Fixpoint keep_some {A} (l : list (option A)) : list A :=
  match l with
  | [] => []
  | Some a :: r => a :: keep_some r
  | None :: r => keep_some r
  end.

(** [OnOffModel._previous_on_values] *)
Definition _previous_on_values (self : OnOffModel) (epsilon : Q) : Result Numeric :=
  let previous_values := keep_some (List.map previous_values (_defining_variables self)) in
  match previous_values with
  | [] => Ok (NArray [0%Q])
  | _ =>
      match np_array previous_values with
      | Raise e => Raise e
      | Ok (Arr2 rows) => Ok (NArray (any_not_close_axis0 epsilon rows))
      | Ok (Arr1 l) => Ok (NArray (List.map (not_close_int epsilon) l))
      end
  end.

(** Python's [a[-n:]]: the last [n] elements, and all of [a] for [n = 0]. *)
Definition py_last_n {A} (n : nat) (l : list A) : list A :=
  if Nat.eqb n 0 then l else skipn (length l - n) l.

(** Python's [a[-1]] and [a[0]]. *)
Definition py_last (l : list Q) : Result Q :=
  match l with
  | [] => Raise (IndexError "index -1 is out of bounds")
  | _ => Ok (last l 0%Q)
  end.

Definition py_first {A} (l : list A) : Result A :=
  match l with
  | [] => Raise (IndexError "index 0 is out of bounds")
  | x :: _ => Ok x
  end.

(** [zero_indices[-1] + 1 if zero_indices.size > 0 else len(binary_values)] *)
Definition length_of_last_duration (epsilon : Q) (binary_values : list Q) : nat :=
  match filter (fun i => np_isclose0 epsilon (nth i binary_values 0%Q))
               (seq 0 (length binary_values)) with
  | [] => length binary_values
  | z => S (last z 0%nat)
  end.

(** [OnOffModel.get_consecutive_duration] *)
Definition get_consecutive_duration (cfg : Config)
    (binary_values : option Numeric) (dt_in_hours : Numeric) : Result Q :=
  match binary_values, dt_in_hours with
  | None, _ => Raise (TypeError "ufunc 'isfinite' not supported for the input types")
  | Some (Skalar b), Skalar dt => Ok (b * dt)%Q
  | Some (Skalar b), NArray dts =>
      match py_last dts with
      | Ok dt => Ok (b * dt)%Q
      | Raise e => Raise e
      end
  | Some (NArray bs), Skalar dt =>
      let n := length_of_last_duration (EPSILON cfg) bs in
      Ok (Qsum (List.map (fun b => b * dt)%Q (py_last_n n bs)))
  | Some (NArray bs), NArray dts =>
      let n := length_of_last_duration (EPSILON cfg) bs in
      if Nat.ltb (length dts) n then
        Raise (TypeError "the length of the last duration is longer than the dt_in_hours")
      else
        match np_multiply (NArray (py_last_n n bs)) (NArray (py_last_n n dts)) with
        | Ok x => Ok (np_sum x)
        | Raise e => Raise e
        end
  end.

Definition need {S A} (o : option A) (e : exn) : M S A :=
  match o with Some a => ret a | None => throw e end.

Definition py_nth (l : list Q) (i : nat) : Result Q :=
  match nth_error l i with
  | Some x => Ok x
  | None => Raise (IndexError "index out of bounds")
  end.

(** [np.max(x)] *)
Definition np_max (x : Numeric) : Result Q :=
  match x with
  | Skalar q => Ok q
  | NArray [] => Raise (ValueError "zero-size array to reduction operation maximum")
  | NArray (q :: l) => Ok (fold_left Qmax l q)
  end.

Definition np_add : Numeric -> Numeric -> Result Numeric := np_broadcast2 Qplus.

(** [for variable in variables: eq.add_summand(variable, factor, time_indices)] *)
Definition add_summands (e : Equation) (vs : list Variable_) (factor : Numeric)
    (time_indices : list nat) : Equation :=
  fold_left (fun e v => add_summand e v factor (Some time_indices) false) vs e.

(** [absolute_maximum += bounds[1]] over the defining bounds. *)
Fixpoint sum_upper_bounds (acc : Numeric) (bounds : list (Numeric * Numeric)) : Result Numeric :=
  match bounds with
  | [] => Ok acc
  | (_, ub) :: rest =>
      match np_add acc ub with
      | Ok acc' => sum_upper_bounds acc' rest
      | Raise e => Raise e
      end
  end.

(** [OnOffModel._add_on_constraints] *)
Definition _add_on_constraints (cfg : Config) (self : OnOffModel)
    (system_model : SystemModel) (time_indices : list nat) : M Built unit :=
  (on <- need (on self) (AssertionError "On variable must be defined to add constraints") ;;
   let nr_of_defining_variables := length (_defining_variables self) in
   assert_ (Nat.ltb 0 nr_of_defining_variables) "Achtung: mindestens 1 Flow notwendig" ;;;
   let eq_on_1 := new_equation "On_Constraint_1" (oo_owner self) ineq in
   let eq_on_2 := new_equation "On_Constraint_2" (oo_owner self) ineq in
   match _defining_variables self, _defining_bounds self with
   | [variable], (lower_bound, upper_bound) :: _ =>
       let eq_on_1 := add_summand eq_on_1 variable (Skalar (-1)) (Some time_indices) false in
       let eq_on_1 := add_summand eq_on_1 on (np_maximum (EPSILON cfg) lower_bound)
                                  (Some time_indices) false in
       let eq_on_2 := add_summand eq_on_2 variable (Skalar 1) (Some time_indices) false in
       let eq_on_2 := add_summand eq_on_2 on (np_scale (-1) upper_bound)
                                  (Some time_indices) false in
       emit eq_on_1 ;;; emit eq_on_2 ;;;
       m <- lift (np_max upper_bound) ;;
       if Qltb (BIG_BINARY_BOUND cfg) m
       then logger_warning "a binary definition was created with a big upper bound"
       else ret tt
   | [_], [] => throw (IndexError "list index out of range")
   | variables, bounds =>
       let eq_on_1 := add_summands eq_on_1 variables (Skalar (-1)) time_indices in
       let eq_on_1 := add_summand eq_on_1 on (Skalar (EPSILON cfg)) (Some time_indices) false in
       let n := inject_Z (Z.of_nat nr_of_defining_variables) in
       let eq_on_2 := add_summands eq_on_2
                        (firstn (length bounds) variables) (Skalar (1 / n)) time_indices in
       absolute_maximum <- lift (sum_upper_bounds (Skalar 0)
                                   (firstn (length variables) bounds)) ;;
       let upper_bound := np_map (fun x => x / n)%Q absolute_maximum in
       let eq_on_2 := add_summand eq_on_2 on (np_scale (-1) upper_bound)
                                  (Some time_indices) false in
       emit eq_on_1 ;;; emit eq_on_2 ;;;
       m <- lift (np_max upper_bound) ;;
       if Qltb (BIG_BINARY_BOUND cfg) m
       then logger_warning "a binary definition was created with a big upper bound"
       else ret tt
   end)%py.

(** [OnOffModel._add_off_constraints] *)
Definition _add_off_constraints (self : OnOffModel)
    (system_model : SystemModel) (time_indices : list nat) : M Built unit :=
  (off <- need (off self) (AssertionError "Off variable must be defined to add constraints") ;;
   on <- need (on self) (TypeError "no variable given") ;;
   let eq_off := new_equation "var_off" (oo_owner self) eq_ in
   let eq_off := add_summand eq_off off (Skalar 1) (Some time_indices) false in
   let eq_off := add_summand eq_off on (Skalar 1) (Some time_indices) false in
   let eq_off := add_constant eq_off (Skalar 1) in
   emit eq_off)%py.

(** [ts.active_data[0] if ts.is_array else ts.active_data] *)
Definition first_step (ts : TimeSeries) : Result Q :=
  match active_data ts with
  | Skalar q => Ok q
  | NArray l => py_first l
  end.

(** [OnOffModel._get_duration_in_hours] *)
Definition _get_duration_in_hours (cfg : Config) (self : OnOffModel)
    (variable_label : string) (binary_variable : option Variable_)
    (minimum_duration maximum_duration : option TimeSeries)
    (system_model : SystemModel) (time_indices : list nat) : M Built Variable_ :=
  (binary_variable <- need binary_variable
     (AttributeError "'NoneType' object has no attribute 'previous_values'") ;;
   previous_duration <- lift (get_consecutive_duration cfg
                                (previous_values binary_variable)
                                (previous_dt_in_hours system_model)) ;;
   let mega := (dt_in_hours_total system_model + previous_duration)%Q in
   match maximum_duration with
   | Some maximum_duration =>
       first_step_max <- lift (first_step maximum_duration) ;;
       dt0 <- lift (py_first (dt_in_hours system_model)) ;;
       if Qltb first_step_max (previous_duration + dt0)
       then logger_warning "the maximum duration forces the binary to 0 in the first time step"
       else ret tt
   | None => ret tt
   end ;;;
   duration_in_hours <- create_variable variable_label (oo_owner self)
       (nr_of_time_steps system_model)
       (Some (Skalar 0))
       (Some (match maximum_duration with
              | Some maximum_duration => active_data maximum_duration
              | None => Skalar mega
              end))
       false None (Some (Skalar previous_duration)) ;;
   let label_prefix := var_label duration_in_hours in
   (* 1) duration(t) - On(t) * BIG <= 0 *)
   let constraint_1 := new_equation (String.append label_prefix "_constraint_1") (oo_owner self) ineq in
   let constraint_1 := add_summand constraint_1 duration_in_hours (Skalar 1) None false in
   let constraint_1 := add_summand constraint_1 binary_variable (Skalar (-1 * mega)) None false in
   emit constraint_1 ;;;
   (* 2a) duration(t) - duration(t-1) <= dt(t) *)
   let constraint_2a := new_equation (String.append label_prefix "_constraint_2a") (oo_owner self) ineq in
   let constraint_2a := add_summand constraint_2a duration_in_hours (Skalar 1)
                          (Some (slice_from1 time_indices)) false in
   let constraint_2a := add_summand constraint_2a duration_in_hours (Skalar (-1))
                          (Some (slice_to_last time_indices)) false in
   let constraint_2a := add_constant constraint_2a
                          (NArray (slice_from1 (dt_in_hours system_model))) in
   emit constraint_2a ;;;
   (* 2b) -duration(t) + duration(t-1) + On(t) * BIG <= -dt(t) + BIG *)
   let constraint_2b := new_equation (String.append label_prefix "_constraint_2b") (oo_owner self) ineq in
   let constraint_2b := add_summand constraint_2b duration_in_hours (Skalar (-1))
                          (Some (slice_from1 time_indices)) false in
   let constraint_2b := add_summand constraint_2b duration_in_hours (Skalar 1)
                          (Some (slice_to_last time_indices)) false in
   let constraint_2b := add_summand constraint_2b binary_variable (Skalar mega)
                          (Some (slice_from1 time_indices)) false in
   let constraint_2b := add_constant constraint_2b
       (np_shift mega (np_scale (-1) (NArray (slice_from1 (dt_in_hours system_model))))) in
   emit constraint_2b ;;;
   (* 3) minimum duration before a switch-off step *)
   match minimum_duration with
   | Some minimum_duration =>
       let minimum_duration_used :=
         match active_data minimum_duration with
         | Skalar q => Skalar q
         | NArray l => NArray (slice_to_last l)
         end in
       let eq_min_duration := new_equation (String.append label_prefix "_minimum_duration")
                                           (oo_owner self) ineq in
       let eq_min_duration := add_summand eq_min_duration duration_in_hours (Skalar (-1))
                                (Some (slice_to_last time_indices)) false in
       let eq_min_duration := add_summand eq_min_duration binary_variable
                                (np_scale (-1) minimum_duration_used)
                                (Some (slice_from1 time_indices)) false in
       let eq_min_duration := add_summand eq_min_duration binary_variable
                                minimum_duration_used
                                (Some (slice_to_last time_indices)) false in
       emit eq_min_duration ;;;
       first_step_min <- lift (first_step minimum_duration) ;;
       if Qltb 0 previous_duration && Qltb previous_duration first_step_min then
         t0 <- lift (py_first time_indices) ;;
         let eq_min_duration_inital :=
           new_equation (String.append label_prefix "_minimum_duration_inital")
                        (oo_owner self) eq_ in
         let eq_min_duration_inital :=
           add_summand eq_min_duration_inital binary_variable (Skalar 1) (Some [t0]) false in
         let eq_min_duration_inital := add_constant eq_min_duration_inital (Skalar 1) in
         emit eq_min_duration_inital
       else ret tt
   | None => ret tt
   end ;;;
   (* 4) first index: duration(t=0) = (dt(0) + previous duration) * On(0) *)
   first_index <- lift (py_first time_indices) ;;
   dt_first <- lift (py_nth (dt_in_hours system_model) first_index) ;;
   let eq_first := new_equation (String.append label_prefix "_initial") (oo_owner self) eq_ in
   let eq_first := add_summand eq_first duration_in_hours (Skalar 1) (Some [first_index]) false in
   let eq_first := add_summand eq_first binary_variable
                     (Skalar (-1 * (dt_first + previous_duration))) (Some [first_index]) false in
   emit eq_first ;;;
   ret duration_in_hours)%py.

(** [variable.previous_values[-1]] *)
Definition previous_last (v : Variable_) : Result Q :=
  match previous_values v with
  | None => Raise (TypeError "'NoneType' object is not subscriptable")
  | Some (Skalar _) => Raise (IndexError "invalid index to scalar variable")
  | Some (NArray l) => py_last l
  end.

(** [OnOffModel._add_switch_constraints] *)
Definition _add_switch_constraints (self : OnOffModel)
    (system_model : SystemModel) : M Built unit :=
  (switch_on <- need (switch_on self)
     (AssertionError "Switch On Variable must be defined to add constraints") ;;
   switch_off <- need (switch_off self)
     (AssertionError "Switch Off Variable must be defined to add constraints") ;;
   nr_switch_on <- need (nr_switch_on self)
     (AssertionError "Nr of Switch On Variable must be defined to add constraints") ;;
   on <- need (on self)
     (AssertionError "On Variable must be defined to add constraints") ;;
   (* SwitchOn(t) - SwitchOff(t) = On(t) - On(t-1) *)
   let eq_switch := new_equation "Switch" (oo_owner self) eq_ in
   let eq_switch := add_summand eq_switch switch_on (Skalar 1)
                      (Some (slice_from1 (indices system_model))) false in
   let eq_switch := add_summand eq_switch switch_off (Skalar (-1))
                      (Some (slice_from1 (indices system_model))) false in
   let eq_switch := add_summand eq_switch on (Skalar (-1))
                      (Some (slice_from1 (indices system_model))) false in
   let eq_switch := add_summand eq_switch on (Skalar 1)
                      (Some (slice_to_last (indices system_model))) false in
   emit eq_switch ;;;
   (* SwitchOn(t=0) - SwitchOff(t=0) = On(t=0) - On(t=-1) *)
   let eq_initial_switch := new_equation "Initial_Switch" (oo_owner self) eq_ in
   let eq_initial_switch := add_summand eq_initial_switch switch_on (Skalar 1) (Some [0%nat]) false in
   let eq_initial_switch := add_summand eq_initial_switch switch_off (Skalar (-1)) (Some [0%nat]) false in
   let eq_initial_switch := add_summand eq_initial_switch on (Skalar (-1)) (Some [0%nat]) false in
   on_before <- lift (previous_last on) ;;
   let eq_initial_switch := add_constant eq_initial_switch (Skalar (-1 * on_before)) in
   emit eq_initial_switch ;;;
   (* SwitchOn(t) + SwitchOff(t) <= 1.1 *)
   let eq_switch_on_or_off := new_equation "Switch_On_or_Off" (oo_owner self) ineq in
   let eq_switch_on_or_off := add_summand eq_switch_on_or_off switch_on (Skalar 1) None false in
   let eq_switch_on_or_off := add_summand eq_switch_on_or_off switch_off (Skalar 1) None false in
   let eq_switch_on_or_off := add_constant eq_switch_on_or_off (Skalar (11 # 10)) in
   emit eq_switch_on_or_off ;;;
   (* nrSwitchOn = sum(SwitchOn(t)) *)
   let eq_nr_switch_on := new_equation "NrSwitchOn" (oo_owner self) eq_ in
   let eq_nr_switch_on := add_summand eq_nr_switch_on nr_switch_on (Skalar 1) None false in
   let eq_nr_switch_on := add_summand eq_nr_switch_on switch_on (Skalar (-1)) None true in
   emit eq_nr_switch_on)%py.

Definition effects_nonempty (e : EffectValues) : bool :=
  match e with [] => false | _ => true end.

(** [OnOffModel._create_shares] *)
Definition OnOffModel_create_shares (self : OnOffModel)
    (system_model : SystemModel) : M Built unit :=
  (let effects_per_switch_on := effects_per_switch_on (_on_off_parameters self) in
   (if effects_nonempty effects_per_switch_on then
      add_share_call (mkShareCall to_operation "switch_on_effects" (oo_element self)
                        effects_per_switch_on (Skalar 1) (switch_on self))
    else ret tt) ;;;
   let effects_per_running_hour := effects_per_running_hour (_on_off_parameters self) in
   if effects_nonempty effects_per_running_hour then
     add_share_call (mkShareCall to_operation "running_hour_effects" (oo_element self)
                       effects_per_running_hour (NArray (dt_in_hours system_model))
                       (on self))
   else ret tt)%py.

Definition with_on (self : OnOffModel) (v : Variable_) (h : Variable_) : OnOffModel :=
  mkOnOffModel (oo_element self) (oo_label self) (Some v) (Some h)
    (consecutive_on_hours self) (consecutive_off_hours self) (off self)
    (switch_on self) (switch_off self) (nr_switch_on self)
    (_on_off_parameters self) (_defining_variables self) (_defining_bounds self).

Definition with_off (self : OnOffModel) (v : Variable_) : OnOffModel :=
  mkOnOffModel (oo_element self) (oo_label self) (on self) (total_on_hours self)
    (consecutive_on_hours self) (consecutive_off_hours self) (Some v)
    (switch_on self) (switch_off self) (nr_switch_on self)
    (_on_off_parameters self) (_defining_variables self) (_defining_bounds self).

Definition with_consecutive_on_hours (self : OnOffModel) (v : Variable_) : OnOffModel :=
  mkOnOffModel (oo_element self) (oo_label self) (on self) (total_on_hours self)
    (Some v) (consecutive_off_hours self) (off self)
    (switch_on self) (switch_off self) (nr_switch_on self)
    (_on_off_parameters self) (_defining_variables self) (_defining_bounds self).

Definition with_consecutive_off_hours (self : OnOffModel) (v : Variable_) : OnOffModel :=
  mkOnOffModel (oo_element self) (oo_label self) (on self) (total_on_hours self)
    (consecutive_on_hours self) (Some v) (off self)
    (switch_on self) (switch_off self) (nr_switch_on self)
    (_on_off_parameters self) (_defining_variables self) (_defining_bounds self).

Definition with_switches (self : OnOffModel) (son soff nr : Variable_) : OnOffModel :=
  mkOnOffModel (oo_element self) (oo_label self) (on self) (total_on_hours self)
    (consecutive_on_hours self) (consecutive_off_hours self) (off self)
    (Some son) (Some soff) (Some nr)
    (_on_off_parameters self) (_defining_variables self) (_defining_bounds self).

Definition opt_skalar (o : option Q) : option Numeric := option_map Skalar o.

(** [OnOffModel.do_modeling] *)
Definition OnOffModel_do_modeling (cfg : Config) (self : OnOffModel)
    (system_model : SystemModel) : M Built OnOffModel :=
  (let p := _on_off_parameters self in
   let T := nr_of_time_steps system_model in
   previous_on <- lift (_previous_on_values self (EPSILON cfg)) ;;
   on_ <- create_variable "on" (oo_owner self) T None None true None (Some previous_on) ;;
   total_on_hours <- create_variable "totalOnHours" (oo_owner self) 1
                       (opt_skalar (on_hours_total_min p))
                       (opt_skalar (on_hours_total_max p)) false None None ;;
   let self := with_on self on_ total_on_hours in
   let eq_total_on := new_equation "totalOnHours" (oo_owner self) eq_ in
   let eq_total_on := add_summand eq_total_on on_ (NArray (dt_in_hours system_model)) None true in
   let eq_total_on := add_summand eq_total_on total_on_hours (Skalar (-1)) None false in
   emit eq_total_on ;;;
   _add_on_constraints cfg self system_model (indices system_model) ;;;
   self <- (if use_off p then
              previous_on <- lift (_previous_on_values self (EPSILON cfg)) ;;
              off <- create_variable "off" (oo_owner self) T None None true None
                       (Some (np_map (fun x => 1 - x)%Q previous_on)) ;;
              let self := with_off self off in
              _add_off_constraints self system_model (indices system_model) ;;;
              ret self
            else ret self) ;;
   self <- (if use_consecutive_on_hours p then
              d <- _get_duration_in_hours cfg self "consecutiveOnHours" (on self)
                     (consecutive_on_hours_min p) (consecutive_on_hours_max p)
                     system_model (indices system_model) ;;
              ret (with_consecutive_on_hours self d)
            else ret self) ;;
   self <- (if use_consecutive_off_hours p then
              d <- _get_duration_in_hours cfg self "consecutiveOffHours" (off self)
                     (consecutive_off_hours_min p) (consecutive_off_hours_max p)
                     system_model (indices system_model) ;;
              ret (with_consecutive_off_hours self d)
            else ret self) ;;
   self <- (if use_switch_on p then
              switch_on <- create_variable "switchOn" (oo_owner self) T None None true None None ;;
              switch_off <- create_variable "switchOff" (oo_owner self) T None None true None None ;;
              nr_switch_on <- create_variable "nrSwitchOn" (oo_owner self) 1 None
                                (opt_skalar (switch_on_total_max p)) false None None ;;
              let self := with_switches self switch_on switch_off nr_switch_on in
              _add_switch_constraints self system_model ;;;
              ret self
            else ret self) ;;
   OnOffModel_create_shares self system_model ;;;
   ret self)%py.

(** ** [features.py]: the piecewise segment encoding *)

(** Modelled from the spec: [isinstance(v, VariableTS)]; a variable is
    a scalar (length 1) or time-indexed. *)
Definition is_VariableTS (v : Variable_) : bool := negb (Nat.eqb (var_length v) 1).

Record SegmentModel : Type := mkSegmentModel {
  seg_element : string;
  _segment_index : nat;
  _seg_as_time_series : bool;
  sample_points : list (Variable_ * (Numeric * Numeric));
  in_segment : option Variable_;
  lambda0 : option Variable_;
  lambda1 : option Variable_
}.

Definition seg_owner (self : SegmentModel) : string :=
  full_label (seg_element self) (String.append "Segment_" (pretty (_segment_index self))).

(** [SegmentModel.__init__] *)
Definition SegmentModel_init (element : string) (segment_index : nat)
    (sample_points : list (Variable_ * (Numeric * Numeric)))
    (as_time_series : bool) : SegmentModel :=
  mkSegmentModel element segment_index as_time_series sample_points None None None.

(** [SegmentModel.do_modeling] *)
Definition SegmentModel_do_modeling (self : SegmentModel) (system_model : SystemModel)
  : M Built SegmentModel :=
  (let length := if _seg_as_time_series self then nr_of_time_steps system_model else 1%nat in
   in_segment <- create_variable "inSegment" (seg_owner self) length None None true None None ;;
   lambda0 <- create_variable "lambda0" (seg_owner self) length
                (Some (Skalar 0)) (Some (Skalar 1)) false None None ;;
   lambda1 <- create_variable "lambda1" (seg_owner self) length
                (Some (Skalar 0)) (Some (Skalar 1)) false None None ;;
   let equation := new_equation "inSegment" (seg_owner self) eq_ in
   let equation := add_summand equation in_segment (Skalar (-1)) None false in
   let equation := add_summand equation lambda0 (Skalar 1) None false in
   let equation := add_summand equation lambda1 (Skalar 1) None false in
   emit equation ;;;
   ret (mkSegmentModel (seg_element self) (_segment_index self) (_seg_as_time_series self)
                       (sample_points self) (Some in_segment) (Some lambda0) (Some lambda1)))%py.

(** [can_be_outside_segments]: [None], a [bool] or a variable. *)
Inductive CanBeOutside : Type :=
| OutsideNone
| OutsideBool (b : bool)
| OutsideVariable (v : Variable_).

Record MultipleSegmentsModel : Type := mkMultipleSegmentsModel {
  ms_element : string;
  ms_label : string;
  outside_segments : option Variable_;
  _ms_as_time_series : bool;
  _can_be_outside_segments : CanBeOutside;
  _sample_points : list (Variable_ * list (Numeric * Numeric));
  _segment_models : list SegmentModel
}.

Definition ms_owner (self : MultipleSegmentsModel) : string :=
  full_label (ms_element self) (ms_label self).

(** [MultipleSegmentsModel.__init__] *)
Definition MultipleSegmentsModel_init (element : string)
    (sample_points : list (Variable_ * list (Numeric * Numeric)))
    (can_be_outside_segments : CanBeOutside)
    (as_time_series : bool) (label : string) : MultipleSegmentsModel :=
  mkMultipleSegmentsModel element label None as_time_series
                          can_be_outside_segments sample_points [].

(** [len(next(iter(self._sample_points.values())))] *)
Definition _nr_of_segments (self : MultipleSegmentsModel) : Result nat :=
  match _sample_points self with
  | [] => Raise (PyException "StopIteration")
  | (_, values) :: _ => Ok (length values)
  end.

(** [{key: values[i] for key, values in self._sample_points.items()}] *)
Fixpoint restructure (i : nat) (points : list (Variable_ * list (Numeric * Numeric)))
  : Result (list (Variable_ * (Numeric * Numeric))) :=
  match points with
  | [] => Ok []
  | (key, values) :: rest =>
      match nth_error values i, restructure i rest with
      | Some p, Ok r => Ok ((key, p) :: r)
      | None, _ => Raise (IndexError "list index out of range")
      | _, Raise e => Raise e
      end
  end.

Fixpoint restructure_all (idxs : list nat) (points : list (Variable_ * list (Numeric * Numeric)))
  : Result (list (list (Variable_ * (Numeric * Numeric)))) :=
  match idxs with
  | [] => Ok []
  | i :: rest =>
      match restructure i points, restructure_all rest points with
      | Ok d, Ok r => Ok (d :: r)
      | Raise e, _ => Raise e
      | _, Raise e => Raise e
      end
  end.

(** [for segment_model in self._segment_models: segment_model.do_modeling(system_model)] *)
Fixpoint model_segments (segs : list SegmentModel) (system_model : SystemModel)
  : M Built (list SegmentModel) :=
  match segs with
  | [] => ret []
  | s :: rest =>
      (s' <- SegmentModel_do_modeling s system_model ;;
       rest' <- model_segments rest system_model ;;
       ret (s' :: rest'))%py
  end.

(** [segment_model.sample_points[variable]]: a dictionary keyed by the
    variable, whose identity is its label. *)
Definition points_of (seg : SegmentModel) (variable : Variable_) : Result (Numeric * Numeric) :=
  match find (fun kv => String.eqb (var_label (fst kv)) (var_label variable)) (sample_points seg) with
  | Some (_, p) => Ok p
  | None => Raise (PyException "KeyError")
  end.

(** The terms of one [lambda_eq] contributed by the segments. *)
Fixpoint add_lambda_summands (e : Equation) (variable : Variable_) (segs : list SegmentModel)
  : Result Equation :=
  match segs with
  | [] => Ok e
  | seg :: rest =>
      match points_of seg variable, lambda0 seg, lambda1 seg with
      | Ok (p0, p1), Some l0, Some l1 =>
          add_lambda_summands
            (add_summand (add_summand e l0 p0 None false) l1 p1 None false)
            variable rest
      | Raise x, _, _ => Raise x
      | _, _, _ => Raise (TypeError "no variable given")
      end
  end.

(** [for variable in self._sample_points.keys(): ...] *)
Fixpoint lambda_equations (owner : string) (keys : list Variable_) (segs : list SegmentModel)
  : M Built unit :=
  match keys with
  | [] => ret tt
  | variable :: rest =>
      (let lambda_eq := new_equation (String.append "lambda_" (var_label variable)) owner eq_ in
       let lambda_eq := add_summand lambda_eq variable (Skalar (-1)) None false in
       lambda_eq <- lift (add_lambda_summands lambda_eq variable segs) ;;
       emit lambda_eq ;;;
       lambda_equations owner rest segs)%py
  end.

Fixpoint add_in_segments (e : Equation) (segs : list SegmentModel) : Result Equation :=
  match segs with
  | [] => Ok e
  | seg :: rest =>
      match in_segment seg with
      | Some v => add_in_segments (add_summand e v (Skalar 1) None false) rest
      | None => Raise (TypeError "no variable given")
      end
  end.

Fixpoint enumerate_from {A} (i : nat) (l : list A) : list (nat * A) :=
  match l with
  | [] => []
  | x :: r => (i, x) :: enumerate_from (S i) r
  end.

(** [MultipleSegmentsModel.do_modeling] *)
Definition MultipleSegmentsModel_do_modeling (self : MultipleSegmentsModel)
    (system_model : SystemModel) : M Built MultipleSegmentsModel :=
  (n <- lift (_nr_of_segments self) ;;
   restructured_variables_with_segments <-
     lift (restructure_all (seq 0 n) (_sample_points self)) ;;
   let segment_models :=
     List.map (fun '(i, sample_points) =>
                 SegmentModel_init (ms_element self) i sample_points (_ms_as_time_series self))
              (enumerate_from 0 restructured_variables_with_segments) in
   segment_models <- model_segments segment_models system_model ;;
   lambda_equations (ms_owner self) (List.map fst (_sample_points self)) segment_models ;;;
   let in_single_segment := new_equation "in_single_Segment" (ms_owner self) eq_ in
   in_single_segment <- lift (add_in_segments in_single_segment segment_models) ;;
   match _can_be_outside_segments self with
   | OutsideVariable v =>
       emit (add_summand in_single_segment v (Skalar (-1)) None false) ;;;
       ret (mkMultipleSegmentsModel (ms_element self) (ms_label self) (Some v)
              (_ms_as_time_series self) (_can_be_outside_segments self)
              (_sample_points self) segment_models)
   | OutsideBool true =>
       let length := if _ms_as_time_series self then nr_of_time_steps system_model else 1%nat in
       v <- create_variable "outside_segments" (ms_owner self) length None None true None None ;;
       emit (add_summand in_single_segment v (Skalar (-1)) None false) ;;;
       ret (mkMultipleSegmentsModel (ms_element self) (ms_label self) (Some v)
              (_ms_as_time_series self) (_can_be_outside_segments self)
              (_sample_points self) segment_models)
   | _ =>
       emit (add_constant in_single_segment (Skalar 1)) ;;;
       ret (mkMultipleSegmentsModel (ms_element self) (ms_label self) None
              (_ms_as_time_series self) (_can_be_outside_segments self)
              (_sample_points self) segment_models)
   end)%py.

(** ** [features.py]: the share ledger *)

Record SingleShareModel : Type := mkSingleShareModel {
  ss_label : string;
  single_share : Variable_;
  single_equation : Equation
}.

(** [SingleShareModel.__init__]; [Variable(label_full, 1, label)] and
    [VariableTS(label_full, length, label)] are unbounded variables of
    the given length. *)
Definition SingleShareModel_init (element name : string)
    (variable : option Variable_) (factor : Numeric) (share_as_sum : bool)
  : Result SingleShareModel :=
  let label_full := full_label element name in
  let fresh n := mkVariable label_full n None None false None None in
  let finish single_share :=
    let single_equation := new_equation label_full label_full eq_ in
    let single_equation := add_summand single_equation single_share (Skalar (-1)) None false in
    let single_equation :=
      match variable with
      | None =>
          add_constant single_equation
            (if share_as_sum then Skalar (-1 * np_sum factor) else np_scale (-1) factor)
      | Some v => add_summand single_equation v factor None share_as_sum
      end in
    Ok (mkSingleShareModel name single_share single_equation) in
  match variable with
  | Some v =>
      if Nat.eqb (var_length v) 1 && share_as_sum then
        Raise (AssertionError "A Variable with the length 1 cannot be summed up!")
      else if share_as_sum || Nat.eqb (var_length v) 1 then finish (fresh 1%nat)
      else finish (fresh (var_length v))
  | None =>
      if share_as_sum || np_isscalar factor then finish (fresh 1%nat)
      else Raise (PyException "This case is not yet covered for a SingleShareModel")
  end.

Record ShareAllocationModel : Type := mkShareAllocationModel {
  sa_element : string;
  sa_label : string;
  sum_TS : option Variable_;
  sum_ : option Variable_;
  shares : gmap string Variable_;
  _eq_time_series : option Equation;
  _eq_sum : option Equation;
  _shares_are_time_series : bool;
  _total_max : option Q;
  _total_min : option Q;
  _max_per_hour : option Numeric;
  _min_per_hour : option Numeric;
  sub_models : list SingleShareModel
}.

(** [ShareAllocationModel.__init__] *)
Definition ShareAllocationModel_init (element label : string)
    (shares_are_time_series : bool) (total_max total_min : option Q)
    (max_per_hour min_per_hour : option Numeric) : Result ShareAllocationModel :=
  if negb shares_are_time_series && (is_some max_per_hour || is_some min_per_hour) then
    Raise (AssertionError
      "Both max_per_hour and min_per_hour cannot be used when shares_are_time_series is False")
  else
    Ok (mkShareAllocationModel element label None None ∅ None None
          shares_are_time_series total_max total_min max_per_hour min_per_hour []).

Definition sa_owner (self : ShareAllocationModel) : string :=
  full_label (sa_element self) (sa_label self).

Definition opt_times_dt (o : option Numeric) (dt : list Q) : Result (option Numeric) :=
  match o with
  | None => Ok None
  | Some x =>
      match np_multiply x (NArray dt) with
      | Ok y => Ok (Some y)
      | Raise e => Raise e
      end
  end.

(** [ShareAllocationModel.do_modeling]: its variables and equations are
    kept in the ledger itself. *)
Definition ShareAllocationModel_do_modeling (self : ShareAllocationModel)
    (system_model : SystemModel) : Result ShareAllocationModel :=
  let owner := sa_owner self in
  let sum_v := new_variable (String.append (sa_label self) "_sum") owner 1
                 (opt_skalar (_total_min self)) (opt_skalar (_total_max self))
                 false None None in
  let eq_sum := new_equation (String.append (sa_label self) "_sum") owner eq_ in
  let eq_sum := add_summand eq_sum sum_v (Skalar (-1)) None false in
  if _shares_are_time_series self then
    match opt_times_dt (_min_per_hour self) (dt_in_hours system_model),
          opt_times_dt (_max_per_hour self) (dt_in_hours system_model) with
    | Ok lb_ts, Ok ub_ts =>
        let sum_ts := new_variable (String.append (sa_label self) "_sum_TS") owner
                        (nr_of_time_steps system_model) lb_ts ub_ts false None None in
        let eq_time_series :=
          new_equation (String.append (sa_label self) "_time_series") owner eq_ in
        let eq_time_series := add_summand eq_time_series sum_ts (Skalar (-1)) None false in
        let eq_sum := add_summand eq_sum sum_ts (Skalar 1) None true in
        Ok (mkShareAllocationModel (sa_element self) (sa_label self)
              (Some sum_ts) (Some sum_v) (shares self)
              (Some eq_time_series) (Some eq_sum)
              (_shares_are_time_series self) (_total_max self) (_total_min self)
              (_max_per_hour self) (_min_per_hour self) (sub_models self))
    | Raise e, _ => Raise e
    | _, Raise e => Raise e
    end
  else
    Ok (mkShareAllocationModel (sa_element self) (sa_label self)
          (sum_TS self) (Some sum_v) (shares self)
          (_eq_time_series self) (Some eq_sum)
          (_shares_are_time_series self) (_total_max self) (_total_min self)
          (_max_per_hour self) (_min_per_hour self) (sub_models self)).

(** The equation a share is added to: [self._eq_sum] if the share is
    summed or the ledger holds scalars, else [self._eq_time_series]. *)
Definition targets_sum (self : ShareAllocationModel) (share_as_sum : bool) : bool :=
  share_as_sum || negb (_shares_are_time_series self).

Definition target_eq (self : ShareAllocationModel) (share_as_sum : bool) : option Equation :=
  if targets_sum self share_as_sum then _eq_sum self else _eq_time_series self.

Definition set_target_eq (share_as_sum : bool) (e : Equation) (self : ShareAllocationModel)
  : ShareAllocationModel :=
  mkShareAllocationModel (sa_element self) (sa_label self) (sum_TS self) (sum_ self)
    (shares self)
    (if targets_sum self share_as_sum then _eq_time_series self else Some e)
    (if targets_sum self share_as_sum then Some e else _eq_sum self)
    (_shares_are_time_series self) (_total_max self) (_total_min self)
    (_max_per_hour self) (_min_per_hour self) (sub_models self).

Definition append_sub_model (m : SingleShareModel) (self : ShareAllocationModel)
  : ShareAllocationModel :=
  mkShareAllocationModel (sa_element self) (sa_label self) (sum_TS self) (sum_ self)
    (shares self) (_eq_time_series self) (_eq_sum self)
    (_shares_are_time_series self) (_total_max self) (_total_min self)
    (_max_per_hour self) (_min_per_hour self) (sub_models self ++ [m]).

Definition set_share (name : string) (v : Variable_) (self : ShareAllocationModel)
  : ShareAllocationModel :=
  mkShareAllocationModel (sa_element self) (sa_label self) (sum_TS self) (sum_ self)
    (<[name := v]> (shares self)) (_eq_time_series self) (_eq_sum self)
    (_shares_are_time_series self) (_total_max self) (_total_min self)
    (_max_per_hour self) (_min_per_hour self) (sub_models self).

(** [ShareAllocationModel.add_share]: the ledger is the mutable state. *)
Definition add_share (system_model : SystemModel) (name_of_share : string)
    (variable : option Variable_) (factor : Numeric) (share_as_sum : bool)
  : M ShareAllocationModel unit :=
  (target <- gets (fun self => target_eq self share_as_sum) ;;
   element <- gets sa_element ;;
   new_share <- lift (SingleShareModel_init element name_of_share variable factor share_as_sum) ;;
   target <- need target (AttributeError "'NoneType' object has no attribute 'add_summand'") ;;
   modify (set_target_eq share_as_sum
             (add_summand target (single_share new_share) (Skalar 1) None false)) ;;;
   modify (append_sub_model new_share) ;;;
   present <- gets (fun self => is_some (shares self !! ss_label new_share)) ;;
   assert_ (negb present) "A Share with the label was already present" ;;;
   modify (set_share (ss_label new_share) (single_share new_share)))%py.

(** ** [features.py]: [SegmentedSharesModel] and [InvestmentModel] *)

Record SegmentedSharesModel : Type := mkSegmentedSharesModel {
  sg_element : string;
  sg_label : string;
  sg_can_be_outside_segments : CanBeOutside;
  _variable_segments : Variable_ * list (Numeric * Numeric);
  _share_segments : list (string * list (Numeric * Numeric));
  _shares : option (list (string * Variable_));
  _segments_model : option MultipleSegmentsModel;
  _as_tme_series : bool
}.

(** [SegmentedSharesModel.__init__] *)
Definition SegmentedSharesModel_init (element : string)
    (variable_segments : Variable_ * list (Numeric * Numeric))
    (share_segments : list (string * list (Numeric * Numeric)))
    (can_be_outside_segments : CanBeOutside) (label : string)
  : Result SegmentedSharesModel :=
  match share_segments with
  | [] => Raise (IndexError "list index out of range")
  | (_, first) :: _ =>
      if Nat.eqb (length (snd variable_segments)) (length first) then
        Ok (mkSegmentedSharesModel element label can_be_outside_segments
              variable_segments share_segments None None
              (is_VariableTS (fst variable_segments)))
      else Raise (AssertionError
             "Segment length of variable_segments and share_segments must be equal")
  end.

Definition sg_owner (self : SegmentedSharesModel) : string :=
  full_label (sg_element self) (sg_label self).

(** [{effect: create_variable(f'{effect.label}_segmented', self, length) ...}] *)
Fixpoint create_share_variables (owner : string) (length : nat)
    (effects : list (string * list (Numeric * Numeric)))
  : M Built (list (string * Variable_)) :=
  match effects with
  | [] => ret []
  | (effect, _) :: rest =>
      (v <- create_variable (String.append effect "_segmented") owner length
              None None false None None ;;
       r <- create_share_variables owner length rest ;;
       ret ((effect, v) :: r))%py
  end.

Fixpoint add_segment_shares (target : ShareTarget) (element : string)
    (shares : list (string * Variable_)) : M Built unit :=
  match shares with
  | [] => ret tt
  | (effect, variable) :: rest =>
      (add_share_call (mkShareCall target "segmented_effects" element
                         [(effect, Skalar 1)] (Skalar 1) (Some variable)) ;;;
       add_segment_shares target element rest)%py
  end.

(** [SegmentedSharesModel.do_modeling] *)
Definition SegmentedSharesModel_do_modeling (self : SegmentedSharesModel)
    (system_model : SystemModel) : M Built SegmentedSharesModel :=
  (let length := if _as_tme_series self then nr_of_time_steps system_model else 1%nat in
   shares <- create_share_variables (sg_owner self) length (_share_segments self) ;;
   let segments :=
     List.map (fun '((effect, v), (_, segment)) => (v, segment))
              (combine shares (_share_segments self))
     ++ [_variable_segments self] in
   let segments_model :=
     MultipleSegmentsModel_init (sg_element self) segments
       (sg_can_be_outside_segments self) (_as_tme_series self) "MultipleSegments" in
   segments_model <- MultipleSegmentsModel_do_modeling segments_model system_model ;;
   add_segment_shares (if _as_tme_series self then to_operation else to_invest)
                      (sg_element self) shares ;;;
   ret (mkSegmentedSharesModel (sg_element self) (sg_label self)
          (sg_can_be_outside_segments self) (_variable_segments self)
          (_share_segments self) (Some shares) (Some segments_model)
          (_as_tme_series self)))%py.

Record InvestmentModel : Type := mkInvestmentModel {
  im_element : string;
  im_label : string;
  im_size : option Variable_;
  is_invested : option Variable_;
  _segments : option SegmentedSharesModel;
  _on_variable : option Variable_;
  _defining_variable : Variable_;
  _relative_bounds_of_defining_variable : Numeric * Numeric;
  _fixed_relative_profile : option Numeric;
  _invest_parameters : InvestParameters
}.

(** [InvestmentModel.__init__] *)
Definition InvestmentModel_init (element : string) (invest_parameters : InvestParameters)
    (defining_variable : Variable_)
    (relative_bounds_of_defining_variable : Numeric * Numeric)
    (fixed_relative_profile : option Numeric) (label : string)
    (on_variable : option Variable_) : InvestmentModel :=
  mkInvestmentModel element label None None None on_variable defining_variable
    relative_bounds_of_defining_variable fixed_relative_profile invest_parameters.

Definition im_owner (self : InvestmentModel) : string :=
  full_label (im_element self) (im_label self).

(** Python's truth value of [invest_parameters.fixed_size]. *)
Definition fixed_size_truthy (p : InvestParameters) : option Q :=
  match fixed_size p with
  | Some q => if Qeq_bool q 0 then None else Some q
  | None => None
  end.

(** [add_summand] with a variable that may still be [None]. *)
Definition add_summand_opt (e : Equation) (v : option Variable_) (factor : Numeric)
  : Result Equation :=
  match v with
  | Some v => Ok (add_summand e v factor None false)
  | None => Raise (TypeError "no variable given")
  end.

(** [InvestmentModel._create_bounds_for_optional_investment] *)
Definition _create_bounds_for_optional_investment (cfg : Config) (self : InvestmentModel)
  : M Built unit :=
  (let p := _invest_parameters self in
   match fixed_size_truthy p with
   | Some fixed =>
       let eq_is_invested := new_equation "is_invested" (im_owner self) eq_ in
       eq_is_invested <- lift (add_summand_opt eq_is_invested (im_size self) (Skalar (-1))) ;;
       eq_is_invested <- lift (add_summand_opt eq_is_invested (is_invested self) (Skalar fixed)) ;;
       emit eq_is_invested
   | None =>
       let eq_is_invested_ub := new_equation "is_invested_ub" (im_owner self) ineq in
       eq_is_invested_ub <- lift (add_summand_opt eq_is_invested_ub (im_size self) (Skalar 1)) ;;
       eq_is_invested_ub <- lift (add_summand_opt eq_is_invested_ub (is_invested self)
                                    (Skalar (-1 * maximum_size p))) ;;
       emit eq_is_invested_ub ;;;
       let eq_is_invested_lb := new_equation "is_invested_lb" (im_owner self) ineq in
       eq_is_invested_lb <- lift (add_summand_opt eq_is_invested_lb (im_size self) (Skalar (-1))) ;;
       eq_is_invested_lb <- lift (add_summand_opt eq_is_invested_lb (is_invested self)
                                    (Skalar (Qmax (EPSILON cfg) (minimum_size p)))) ;;
       emit eq_is_invested_lb
   end)%py.

(** [InvestmentModel._create_bounds_for_defining_variable] *)
Definition _create_bounds_for_defining_variable (self : InvestmentModel) : M Built unit :=
  (let label := var_label (_defining_variable self) in
   match _fixed_relative_profile self with
   | Some profile =>
       let eq_fixed := new_equation (String.append "fixed_" label) (im_owner self) eq_ in
       let eq_fixed := add_summand eq_fixed (_defining_variable self) (Skalar 1) None false in
       eq_fixed <- lift (add_summand_opt eq_fixed (im_size self) (np_scale (-1) profile)) ;;
       emit eq_fixed
   | None =>
       let '(relative_minimum, relative_maximum) := _relative_bounds_of_defining_variable self in
       let eq_upper := new_equation (String.append "ub_" label) (im_owner self) ineq in
       let eq_upper := add_summand eq_upper (_defining_variable self) (Skalar 1) None false in
       eq_upper <- lift (add_summand_opt eq_upper (im_size self) (np_scale (-1) relative_maximum)) ;;
       emit eq_upper ;;;
       let eq_lower := new_equation (String.append "lb_" label) (im_owner self) ineq in
       match _on_variable self with
       | None =>
           let eq_lower := add_summand eq_lower (_defining_variable self) (Skalar (-1)) None false in
           eq_lower <- lift (add_summand_opt eq_lower (im_size self) relative_minimum) ;;
           emit eq_lower
       | Some on_variable =>
           let mega := np_scale (maximum_size (_invest_parameters self)) relative_maximum in
           let eq_lower := add_summand eq_lower (_defining_variable self) (Skalar (-1)) None false in
           let eq_lower := add_summand eq_lower on_variable mega None false in
           eq_lower <- lift (add_summand_opt eq_lower (im_size self) relative_minimum) ;;
           emit (add_constant eq_lower mega)
       end
   end)%py.

Definition with_segments (self : InvestmentModel) (s : SegmentedSharesModel) : InvestmentModel :=
  mkInvestmentModel (im_element self) (im_label self) (im_size self) (is_invested self)
    (Some s) (_on_variable self) (_defining_variable self)
    (_relative_bounds_of_defining_variable self) (_fixed_relative_profile self)
    (_invest_parameters self).

(** [InvestmentModel._create_shares] *)
Definition InvestmentModel_create_shares (self : InvestmentModel)
    (system_model : SystemModel) : M Built InvestmentModel :=
  (let invest_parameters := _invest_parameters self in
   (* fix_effects *)
   let fix_effects := fix_effects invest_parameters in
   (if effects_nonempty fix_effects then
      let variable_is_invested :=
        if optional invest_parameters then is_invested self else None in
      add_share_call (mkShareCall to_invest "fix_effects" (im_element self)
                        fix_effects (Skalar 1) variable_is_invested)
    else ret tt) ;;;
   (* divest_effects *)
   let divest_effects := divest_effects invest_parameters in
   (if effects_nonempty divest_effects then
      if optional invest_parameters then
        add_share_call (mkShareCall to_invest "divest_effects" (im_element self)
                          divest_effects (Skalar 1) None) ;;;
        add_share_call (mkShareCall to_invest "divest_cancellation_effects" (im_element self)
                          divest_effects (Skalar (-1)) (is_invested self))
      else ret tt
    else ret tt) ;;;
   (* specific_effects *)
   let specific_effects := specific_effects invest_parameters in
   (if effects_nonempty specific_effects then
      add_share_call (mkShareCall to_invest "specific_effects" (im_element self)
                        specific_effects (Skalar 1) (im_size self))
    else ret tt) ;;;
   (* segmented effects *)
   match effects_in_segments invest_parameters with
   | Some (variable_points, share_points) =>
       size <- need (im_size self) (TypeError "no variable given") ;;
       segments <- lift (SegmentedSharesModel_init (im_element self)
                           (size, List.map (fun '(a, b) => (Skalar a, Skalar b)) variable_points)
                           (List.map (fun '(effect, pts) =>
                                        (effect, List.map (fun '(a, b) => (Skalar a, Skalar b)) pts))
                                     share_points)
                           (match is_invested self with
                            | Some v => OutsideVariable v
                            | None => OutsideNone
                            end)
                           "SegmentedShares") ;;
       segments <- SegmentedSharesModel_do_modeling segments system_model ;;
       ret (with_segments self segments)
   | None => ret self
   end)%py.

(** [InvestmentModel.do_modeling] *)
Definition InvestmentModel_do_modeling (cfg : Config) (self : InvestmentModel)
    (system_model : SystemModel) : M Built InvestmentModel :=
  (let invest_parameters := _invest_parameters self in
   size <- match fixed_size_truthy invest_parameters, optional invest_parameters with
           | Some fixed, false =>
               create_variable "size" (im_owner self) 1 None None false
                               (Some (Skalar fixed)) None
           | _, _ =>
               let lower_bound :=
                 if optional invest_parameters then 0%Q
                 else minimum_size invest_parameters in
               create_variable "size" (im_owner self) 1
                               (Some (Skalar lower_bound))
                               (Some (Skalar (maximum_size invest_parameters)))
                               false None None
           end ;;
   is_inv <- (if optional invest_parameters then
                v <- create_variable "isInvested" (im_owner self) 1 None None true None None ;;
                ret (Some v)
              else ret None) ;;
   let self :=
     mkInvestmentModel (im_element self) (im_label self) (Some size) is_inv
       (_segments self) (_on_variable self) (_defining_variable self)
       (_relative_bounds_of_defining_variable self) (_fixed_relative_profile self)
       (_invest_parameters self) in
   (if optional invest_parameters then _create_bounds_for_optional_investment cfg self
    else ret tt) ;;;
   _create_bounds_for_defining_variable self ;;;
   InvestmentModel_create_shares self system_model)%py.

(** ** [elements.py]: flows and buses *)

Inductive FlowSize : Type :=
| SizeSkalar (q : Q)
| SizeInvest (p : InvestParameters).

Record FlowModel : Type := mkFlowModel {
  flow_rate : option Variable_;
  sum_flow_hours : option Variable_;
  fm_on : option OnOffModel;
  fm_investment : option InvestmentModel
}.

Record Flow : Type := mkFlow {
  flow_label : string;
  flow_bus : string;
  size : FlowSize;
  relative_minimum : Numeric;
  relative_maximum : Numeric;
  fixed_relative_profile : option Numeric;
  load_factor_min : option Q;
  load_factor_max : option Q;
  effects_per_flow_hour : EffectValues;
  flow_hours_total_max : option Q;
  flow_hours_total_min : option Q;
  on_off_parameters : option OnOffParameters;
  previous_flow_rate : option Numeric;
  comp : option string;
  model : option FlowModel
}.

(** [Flow.label_full] *)
Definition Flow_label_full (f : Flow) : string :=
  let comp_label := match comp f with None => "unknownComp" | Some c => c end in
  String.append comp_label (String.append "__" (flow_label f)).

(** Python's truth value of the [size] argument: [None] and the number
    zero are false, an [InvestParameters] object is true. *)
Definition size_truthy (s : option FlowSize) : bool :=
  match s with
  | None => false
  | Some (SizeSkalar q) => negb (Qeq_bool q 0)
  | Some (SizeInvest _) => true
  end.

(** [size or CONFIG.modeling.BIG] *)
Definition size_or_default (cfg : Config) (s : option FlowSize) : FlowSize :=
  match s with
  | Some x => if size_truthy s then x else SizeSkalar (BIG cfg)
  | None => SizeSkalar (BIG cfg)
  end.

Definition size_is_BIG (cfg : Config) (s : FlowSize) : bool :=
  match s with
  | SizeSkalar q => Qeq_bool q (BIG cfg)
  | SizeInvest _ => false
  end.

(** [Flow.is_input_in_comp], [self in self.comp.inputs], as far as it
    can fail: a flow that belongs to no component has no [comp.inputs]
    to look into. The components are referred to by their labels, the
    truth value is not read here. *)
Definition Flow_is_input_in_comp (self : Flow) : Result unit :=
  match comp self with
  | None => Raise (AttributeError "'NoneType' object has no attribute 'inputs'")
  | Some _ => Ok tt
  end.

(** [Flow.infos]: the entries of the element, then [is_input_in_comp]. *)
Definition Flow_infos (self : Flow) : Result unit := Flow_is_input_in_comp self.

(** Modelled from the spec: formatting an element, [f'{self}'], prints
    its [infos()]. *)
Definition Flow_format (self : Flow) : Result unit := Flow_infos self.

(** [Flow._plausibility_checks]; the state is the log of warnings. The
    message of the warning formats [{self}], so it is built, and can
    fail, before anything is logged. *)
Definition Flow_plausibility_checks (cfg : Config) (self : Flow) : M (list string) unit :=
  (gt <- lift (np_any_gt (relative_minimum self) (relative_maximum self)) ;;
   if gt : bool then
     throw (PyException (String.append (Flow_label_full self)
              ": Take care, that relative_minimum <= relative_maximum!"))
   else if size_is_BIG cfg (size self) && is_some (fixed_relative_profile self) then
     lift (Flow_format self) ;;;
     modify (fun log => log ++ ["Flow has no size assigned, but a fixed_relative_profile"])
   else ret tt)%py.

(** [Flow.__init__] *)
Definition Flow_init (cfg : Config) (label bus : string)
    (size : option FlowSize)
    (fixed_relative_profile : option Numeric)
    (relative_minimum relative_maximum : Numeric)
    (effects_per_flow_hour : option EffectValues)
    (on_off_parameters : option OnOffParameters)
    (flow_hours_total_max flow_hours_total_min : option Q)
    (load_factor_min load_factor_max : option Q)
    (previous_flow_rate : option Numeric) : M (list string) Flow :=
  (let self :=
     mkFlow label bus (size_or_default cfg size)
            relative_minimum relative_maximum fixed_relative_profile
            load_factor_min load_factor_max
            (match effects_per_flow_hour with Some e => e | None => [] end)
            flow_hours_total_max flow_hours_total_min
            on_off_parameters previous_flow_rate None None in
   Flow_plausibility_checks cfg self ;;;
   ret self)%py.

Record Bus : Type := mkBus {
  bus_label : string;
  excess_penalty_per_flow_hour : option TimeSeries;
  inputs : list Flow;
  outputs : list Flow
}.

(** [Bus.with_excess] *)
Definition with_excess (b : Bus) : bool :=
  match excess_penalty_per_flow_hour b with None => false | Some _ => true end.

Record BusModel : Type := mkBusModel {
  excess_input : option Variable_;
  excess_output : option Variable_
}.

(** [flow.model.flow_rate], as an argument of [add_summand]. *)
Definition flow_rate_of (f : Flow) : Result Variable_ :=
  match model f with
  | None => Raise (AttributeError "'NoneType' object has no attribute 'flow_rate'")
  | Some m =>
      match flow_rate m with
      | None => Raise (TypeError "no variable given")
      | Some v => Ok v
      end
  end.

(** [for flow in flows: eq.add_summand(flow.model.flow_rate, factor)],
    on the equation created last. *)
Fixpoint add_flow_rates (flows : list Flow) (factor : Q) : M Built unit :=
  match flows with
  | [] => ret tt
  | f :: rest =>
      (v <- lift (flow_rate_of f) ;;
       amend_last (fun e => add_summand e v (Skalar factor) None false) ;;;
       add_flow_rates rest factor)%py
  end.

(** [BusModel.do_modeling]: the balance is registered when it is
    created and filled in place, so what has been filled stays when a
    later step raises. *)
Definition BusModel_do_modeling (element : Bus) (system_model : SystemModel)
  : M Built BusModel :=
  (let owner := bus_label element in
   emit (new_equation "busBalance" owner eq_) ;;;
   add_flow_rates (inputs element) 1 ;;;
   add_flow_rates (outputs element) (-1) ;;;
   match excess_penalty_per_flow_hour element with
   | Some penalty =>
       excess_penalty <- lift (np_multiply (NArray (dt_in_hours system_model))
                                           (active_data penalty)) ;;
       excess_input <- create_variable "excess_input" owner
                         (nr_of_time_steps system_model)
                         (Some (Skalar 0)) None false None None ;;
       excess_output <- create_variable "excess_output" owner
                          (nr_of_time_steps system_model)
                          (Some (Skalar 0)) None false None None ;;
       amend_last (fun e => add_summand e excess_output (Skalar (-1)) None false) ;;;
       amend_last (fun e => add_summand e excess_input (Skalar 1) None false) ;;;
       add_share_call (mkShareCall to_penalty
                         (String.append owner "__excess_input") owner []
                         excess_penalty (Some excess_input)) ;;;
       add_share_call (mkShareCall to_penalty
                         (String.append owner "__excess_output") owner []
                         excess_penalty (Some excess_output)) ;;;
       ret (mkBusModel (Some excess_input) (Some excess_output))
   | None => ret (mkBusModel None None)
   end)%py.

(** [x * c] for a Python scalar [c]. *)
Definition np_times (x : Numeric) (c : Q) : Numeric := np_map (fun a => a * c)%Q x.

(** Modelled from the spec: [transform_data] turns the raw values of a
    flow into per-step series once, before any modelling; the record
    holds the data itself, so [x.active_data] is the field [x]. *)
Definition relative_flow_rate_bounds (element : Flow) : Numeric * Numeric :=
  match fixed_relative_profile element with
  | None => (relative_minimum element, relative_maximum element)
  | Some fixed_profile => (fixed_profile, fixed_profile)
  end.

(** [FlowModel.absolute_flow_rate_bounds] *)
Definition absolute_flow_rate_bounds (element : Flow) : Numeric * Numeric :=
  let '(rel_min, rel_max) := relative_flow_rate_bounds element in
  match size element with
  | SizeSkalar size => (np_times rel_min size, np_times rel_max size)
  | SizeInvest size =>
      match fixed_size size with
      | Some fixed => (np_times rel_min fixed, np_times rel_max fixed)
      | None => (np_times rel_min (minimum_size size), np_times rel_max (maximum_size size))
      end
  end.

(** [FlowModel._create_bounds_for_load_factor] *)
Definition _create_bounds_for_load_factor (element : Flow) (sum_flow_hours : Variable_)
    (investment : option InvestmentModel) (system_model : SystemModel) : M Built unit :=
  (let owner := Flow_label_full element in
   match load_factor_max element with
   | Some load_factor_max =>
       let flow_hours_per_size_max := (dt_in_hours_total system_model * load_factor_max)%Q in
       let eq_load_factor_max := new_equation "load_factor_max" owner ineq in
       let eq_load_factor_max := add_summand eq_load_factor_max sum_flow_hours (Skalar 1) None false in
       match investment, size element with
       | Some inv, _ =>
           e <- lift (add_summand_opt eq_load_factor_max (im_size inv)
                        (Skalar (-1 * flow_hours_per_size_max))) ;;
           emit e
       | None, SizeSkalar size =>
           emit (add_constant eq_load_factor_max (Skalar (size * flow_hours_per_size_max)))
       | None, SizeInvest _ => throw (TypeError "unsupported operand type(s) for *")
       end
   | None => ret tt
   end ;;;
   match load_factor_min element with
   | Some load_factor_min =>
       let flow_hours_per_size_min := (dt_in_hours_total system_model * load_factor_min)%Q in
       let eq_load_factor_min := new_equation "load_factor_min" owner ineq in
       let eq_load_factor_min := add_summand eq_load_factor_min sum_flow_hours (Skalar (-1)) None false in
       match investment, size element with
       | Some inv, _ =>
           e <- lift (add_summand_opt eq_load_factor_min (im_size inv)
                        (Skalar flow_hours_per_size_min)) ;;
           emit e
       | None, SizeSkalar size =>
           emit (add_constant eq_load_factor_min
                   (Skalar (-1 * size * flow_hours_per_size_min)))
       | None, SizeInvest _ => throw (TypeError "unsupported operand type(s) for *")
       end
   | None => ret tt
   end)%py.

(** [FlowModel._create_shares] *)
Definition FlowModel_create_shares (element : Flow) (flow_rate : Variable_)
    (system_model : SystemModel) : M Built unit :=
  if effects_nonempty (effects_per_flow_hour element) then
    add_share_call (mkShareCall to_operation "effects_per_flow_hour" (Flow_label_full element)
                      (effects_per_flow_hour element)
                      (NArray (dt_in_hours system_model)) (Some flow_rate))
  else ret tt.

(** [FlowModel.do_modeling] *)
Definition FlowModel_do_modeling (cfg : Config) (element : Flow)
    (system_model : SystemModel) : M Built FlowModel :=
  (let owner := Flow_label_full element in
   let bounds := absolute_flow_rate_bounds element in
   flow_rate <- create_variable "flow_rate" owner (nr_of_time_steps system_model)
                  (match on_off_parameters element with
                   | None => Some (fst bounds)
                   | Some _ => Some (Skalar 0)
                   end)
                  (match on_off_parameters element with
                   | None => Some (snd bounds)
                   | Some _ => None
                   end)
                  false None (previous_flow_rate element) ;;
   (* OnOff *)
   on_model <- match on_off_parameters element with
               | Some parameters =>
                   m <- lift (OnOffModel_init cfg owner parameters [flow_rate] [bounds] "OnOff") ;;
                   m <- OnOffModel_do_modeling cfg m system_model ;;
                   ret (Some m)
               | None => ret None
               end ;;
   (* Investment *)
   investment <- match size element with
                 | SizeInvest parameters =>
                     let m := InvestmentModel_init owner parameters flow_rate
                                (relative_flow_rate_bounds element)
                                (fixed_relative_profile element) "Investment"
                                (match on_model with
                                 | Some m => on m
                                 | None => None
                                 end) in
                     m <- InvestmentModel_do_modeling cfg m system_model ;;
                     ret (Some m)
                 | SizeSkalar _ => ret None
                 end ;;
   (* sumFlowHours *)
   sum_flow_hours <- create_variable "sumFlowHours" owner 1
                       (opt_skalar (flow_hours_total_min element))
                       (opt_skalar (flow_hours_total_max element)) false None None ;;
   let eq_sum_flow_hours := new_equation "sumFlowHours" owner eq_ in
   let eq_sum_flow_hours := add_summand eq_sum_flow_hours flow_rate
                              (NArray (dt_in_hours system_model)) None true in
   let eq_sum_flow_hours := add_summand eq_sum_flow_hours sum_flow_hours (Skalar (-1)) None false in
   emit eq_sum_flow_hours ;;;
   _create_bounds_for_load_factor element sum_flow_hours investment system_model ;;;
   FlowModel_create_shares element flow_rate system_model ;;;
   ret (mkFlowModel (Some flow_rate) (Some sum_flow_hours) on_model investment))%py.

(** [features.PreventSimultaneousUsageModel]: [__init__] checks its
    variables, [do_modeling] writes [sum(on_i(t)) <= 1.1]. *)
Definition PreventSimultaneousUsageModel_init (vs : list Variable_) : Result (list Variable_) :=
  if Nat.leb 2 (length vs) then
    if forallb is_binary vs then Ok vs
    else Raise (AssertionError "Variable must be binary for use in PreventSimultaneousUsageModel")
  else Raise (AssertionError "Model PreventSimultaneousUsageModel must get at least two variables").

Definition PreventSimultaneousUsageModel_do_modeling (element : string)
    (vs : list Variable_) : M Built unit :=
  let owner := full_label element "PreventSimultaneousUsage" in
  let e := new_equation "prevent_simultaneous_use" owner ineq in
  let e := fold_left (fun e v => add_summand e v (Skalar 1) None false) vs e in
  emit (add_constant e (Skalar (11 # 10))).

(** A component; the flows of [prevent_simultaneous_flows] are flow
    objects of the component, referred to here by their labels. *)
Record Component : Type := mkComponent {
  comp_label : string;
  comp_inputs : list Flow;
  comp_outputs : list Flow;
  comp_on_off_parameters : option OnOffParameters;
  prevent_simultaneous_flows : list string
}.

Record ComponentModel : Type := mkComponentModel {
  cm_flows : list Flow;
  cm_on : option OnOffModel
}.

(** [OnOffParameters()] with its defaults. *)
Definition default_on_off_parameters : OnOffParameters :=
  mkOnOffParameters None None false false None None false None None false None [] [].

Definition with_on_off_parameters (f : Flow) (p : OnOffParameters) : Flow :=
  mkFlow (flow_label f) (flow_bus f) (size f) (relative_minimum f) (relative_maximum f)
         (fixed_relative_profile f) (load_factor_min f) (load_factor_max f)
         (effects_per_flow_hour f) (flow_hours_total_max f) (flow_hours_total_min f)
         (Some p) (previous_flow_rate f) (comp f) (model f).

Definition with_model (f : Flow) (m : FlowModel) : Flow :=
  mkFlow (flow_label f) (flow_bus f) (size f) (relative_minimum f) (relative_maximum f)
         (fixed_relative_profile f) (load_factor_min f) (load_factor_max f)
         (effects_per_flow_hour f) (flow_hours_total_max f) (flow_hours_total_min f)
         (on_off_parameters f) (previous_flow_rate f) (comp f) (Some m).

(** [if flow.on_off_parameters is None: flow.on_off_parameters = OnOffParameters()] *)
Definition ensure_on_off (f : Flow) : Flow :=
  match on_off_parameters f with
  | None => with_on_off_parameters f default_on_off_parameters
  | Some _ => f
  end.

Definition label_in (labels : list string) (f : Flow) : bool :=
  existsb (String.eqb (flow_label f)) labels.

(** [flow.create_model()] and [sub_model.do_modeling(system_model)] for
    every flow, in order. *)
Fixpoint model_flows (cfg : Config) (flows : list Flow) (system_model : SystemModel)
  : M Built (list Flow) :=
  match flows with
  | [] => ret []
  | f :: rest =>
      (m <- FlowModel_do_modeling cfg f system_model ;;
       rest' <- model_flows cfg rest system_model ;;
       ret (with_model f m :: rest'))%py
  end.

Fixpoint collect {A B} (f : A -> Result B) (l : list A) : Result (list B) :=
  match l with
  | [] => Ok []
  | a :: rest =>
      match f a, collect f rest with
      | Ok b, Ok r => Ok (b :: r)
      | Raise e, _ => Raise e
      | _, Raise e => Raise e
      end
  end.

(** [flow.model._on.on] *)
Definition flow_on_variable (f : Flow) : Result Variable_ :=
  match model f with
  | None => Raise (AttributeError "'NoneType' object has no attribute '_on'")
  | Some m =>
      match fm_on m with
      | None => Raise (AttributeError "'NoneType' object has no attribute 'on'")
      | Some o =>
          match on o with
          | Some v => Ok v
          | None => Raise (AttributeError "'NoneType' object has no attribute 'is_binary'")
          end
      end
  end.

Definition find_flow (flows : list Flow) (label : string) : Result Flow :=
  match find (fun f => String.eqb (flow_label f) label) flows with
  | Some f => Ok f
  | None => Raise (AttributeError "'NoneType' object has no attribute '_on'")
  end.

(** [ComponentModel.do_modeling] *)
Definition ComponentModel_do_modeling (cfg : Config) (element : Component)
    (system_model : SystemModel) : M Built ComponentModel :=
  (let all_flows := comp_inputs element ++ comp_outputs element in
   let all_flows :=
     if is_some (comp_on_off_parameters element) then List.map ensure_on_off all_flows
     else all_flows in
   let all_flows :=
     List.map (fun f => if label_in (prevent_simultaneous_flows element) f
                        then ensure_on_off f else f) all_flows in
   all_flows <- model_flows cfg all_flows system_model ;;
   on_model <- match comp_on_off_parameters element with
               | Some parameters =>
                   flow_rates <- lift (collect flow_rate_of all_flows) ;;
                   let bounds := List.map absolute_flow_rate_bounds all_flows in
                   m <- lift (OnOffModel_init cfg (comp_label element) parameters
                                flow_rates bounds "OnOff") ;;
                   m <- OnOffModel_do_modeling cfg m system_model ;;
                   ret (Some m)
               | None => ret None
               end ;;
   match prevent_simultaneous_flows element with
   | [] => ret tt
   | labels =>
       flows <- lift (collect (find_flow all_flows) labels) ;;
       on_variables <- lift (collect flow_on_variable flows) ;;
       vs <- lift (PreventSimultaneousUsageModel_init on_variables) ;;
       PreventSimultaneousUsageModel_do_modeling (comp_label element) vs
   end ;;;
   ret (mkComponentModel all_flows on_model))%py.

(** ** Vocabulary of the statements *)

(** A numeric that fits a horizon of [n] steps: a scalar, or an array
    with one entry per step. *)
Definition fits (n : nat) (x : Numeric) : Prop :=
  match x with
  | Skalar _ => True
  | NArray l => length l = n
  end.

(** What a builder emits, declares and registers when run on its own. *)
Definition emitted {A} (m : M Built A) : list Equation := eqs (snd (m empty_built)).
Definition declared {A} (m : M Built A) : list Variable_ := variables (snd (m empty_built)).
Definition registered {A} (m : M Built A) : list ShareCall := share_calls (snd (m empty_built)).

Definition binary_at (val : Valuation) (v : Variable_) (t : nat) : Prop :=
  (val (var_label v) t == 0 \/ val (var_label v) t == 1)%Q.

(** The two inequalities of the activation of a single defining
    variable [v] with bounds [lb], [ub] by the binary [on_v], over [T]
    steps, as [OnOffModel] (with the lower bound raised in [__init__])
    writes them. *)
Definition on_constraint_1 (cfg : Config) (owner : string) (v on_v : Variable_)
    (lb : Numeric) (T : nat) : Equation :=
  mkEquation (full_label owner "On_Constraint_1") ineq
    [mkSummand v (Skalar (-1)) (Some (seq 0 T)) false;
     mkSummand on_v (np_maximum (EPSILON cfg) (np_maximum (EPSILON cfg) lb))
               (Some (seq 0 T)) false] [].

Definition on_constraint_2 (owner : string) (v on_v : Variable_)
    (ub : Numeric) (T : nat) : Equation :=
  mkEquation (full_label owner "On_Constraint_2") ineq
    [mkSummand v (Skalar 1) (Some (seq 0 T)) false;
     mkSummand on_v (np_scale (-1) ub) (Some (seq 0 T)) false] [].

(** ** Concrete instances *)

Definition cfg0 : Config := mkConfig (1 # 100000) (100000000 # 1) (1000000 # 1).

Definition no_on_off : OnOffParameters :=
  mkOnOffParameters None None false false None None false None None false None [] [].

(** A boiler's heat flow over three hourly steps, switched by [on]. *)
Definition sm3 : SystemModel := mkSystemModel 3 (seq 0 3) [1; 1; 1]%Q 3 (Skalar 1).
Definition heat : Variable_ :=
  new_variable "flow_rate" "Boiler__Q_th" 3 (Some (Skalar 0)) None false None None.
Definition heat_on : Variable_ :=
  new_variable "on" "Boiler__Q_th__OnOff" 3 None None true None (Some (NArray [0%Q])).
Definition heat_hours : Variable_ :=
  new_variable "totalOnHours" "Boiler__Q_th__OnOff" 1 None None false None None.

Definition heat_model (lb ub : Q) : OnOffModel :=
  mkOnOffModel "Boiler__Q_th" "OnOff" (Some heat_on) (Some heat_hours)
    None None None None None None no_on_off [heat]
    [(np_maximum (EPSILON cfg0) (Skalar lb), Skalar ub)].

(** Off, on at the lower bound, on at the upper bound. *)
Definition heat_val : Valuation := fun l t =>
  if String.eqb l "Boiler__Q_th__OnOff__on" then nth t [0; 1; 1]%Q 0%Q
  else if String.eqb l "Boiler__Q_th__flow_rate" then nth t [0; 2; 10]%Q 0%Q
  else 0%Q.

(** On, with the flow at 0. *)
Definition idle_on_val : Valuation := fun l t =>
  if String.eqb l "Boiler__Q_th__OnOff__on" then 1%Q else 0%Q.

(** The flow-rate variables of a list of flows, and their sum at a step. *)
Fixpoint rates (flows : list Flow) : list Variable_ :=
  match flows with
  | [] => []
  | f :: rest =>
      match flow_rate_of f with
      | Ok v => v :: rates rest
      | Raise _ => rates rest
      end
  end.

Definition flow_sum (val : Valuation) (flows : list Flow) (t : nat) : Q :=
  Qsum (List.map (fun v => val (var_label v) t) (rates flows)).

(** A flow whose model has been built for a horizon of [T] steps. *)
Definition flow_modelled (T : nat) (f : Flow) : Prop :=
  exists v, flow_rate_of f = Ok v /\ var_length v = T.

(** A bus with two producers and one consumer over three steps. *)
Definition modelled_flow (label : string) : Flow :=
  mkFlow label "Heat" (SizeSkalar 10) (Skalar 0) (Skalar 1) None None None [] None None
         None None (Some "Plant")
         (Some (mkFlowModel
                  (Some (new_variable "flow_rate" (String.append "Plant__" label) 3
                           (Some (Skalar 0)) (Some (Skalar 10)) false None None))
                  None None None)).

Definition heat_bus : Bus :=
  mkBus "Heat" (Some (mkTimeSeries (Skalar 100000)))
        [modelled_flow "boiler"; modelled_flow "chp"] [modelled_flow "demand"].

Definition heat_bus_val : Valuation := fun l t =>
  if String.eqb l "Plant__boiler__flow_rate" then nth t [4; 0; 5]%Q 0%Q
  else if String.eqb l "Plant__chp__flow_rate" then nth t [2; 3; 5]%Q 0%Q
  else if String.eqb l "Plant__demand__flow_rate" then nth t [6; 4; 9]%Q 0%Q
  else if String.eqb l "Heat__excess_input" then nth t [0; 1; 0]%Q 0%Q
  else if String.eqb l "Heat__excess_output" then nth t [0; 0; 1]%Q 0%Q
  else 0%Q.

(** One segment from (0, 0) to (10, 100) between an input [x] and an
    output [y]. *)
Definition one_segment (element : string) (x y : Variable_)
    (outside : CanBeOutside) (as_time_series : bool) : MultipleSegmentsModel :=
  MultipleSegmentsModel_init element
    [(x, [(Skalar 0, Skalar 10)]); (y, [(Skalar 0, Skalar 100)])]
    outside as_time_series "MultipleSegments".

Definition seg_x : Variable_ :=
  new_variable "flow_rate" "Boiler__Q_fu" 3 (Some (Skalar 0)) (Some (Skalar 10)) false None None.
Definition seg_y : Variable_ :=
  new_variable "flow_rate" "Boiler__Q_th" 3 (Some (Skalar 0)) (Some (Skalar 100)) false None None.

Definition seg_val : Valuation := fun l t =>
  if String.eqb l "Boiler__Q_fu__flow_rate" then 5%Q
  else if String.eqb l "Boiler__Q_th__flow_rate" then 50%Q
  else if String.eqb l "Boiler__Segment_0__inSegment" then 1%Q
  else if String.eqb l "Boiler__Segment_0__lambda0" then (1 # 2)%Q
  else if String.eqb l "Boiler__Segment_0__lambda1" then (1 # 2)%Q
  else 0%Q.

(** The variables and equations of [one_segment], spelled out. *)
Definition seg0_owner (element : string) : string :=
  full_label element (String.append "Segment_" (pretty 0%nat)).

Definition seg0_in (element : string) (L : nat) : Variable_ :=
  new_variable "inSegment" (seg0_owner element) L None None true None None.
Definition seg0_lambda0 (element : string) (L : nat) : Variable_ :=
  new_variable "lambda0" (seg0_owner element) L (Some (Skalar 0)) (Some (Skalar 1)) false None None.
Definition seg0_lambda1 (element : string) (L : nat) : Variable_ :=
  new_variable "lambda1" (seg0_owner element) L (Some (Skalar 0)) (Some (Skalar 1)) false None None.

Definition one_segment_built (element : string) (x y : Variable_) (L : nat) : Built :=
  let owner := full_label element "MultipleSegments" in
  mkBuilt
    [seg0_in element L; seg0_lambda0 element L; seg0_lambda1 element L]
    [mkEquation (full_label (seg0_owner element) "inSegment") eq_
       [mkSummand (seg0_in element L) (Skalar (-1)) None false;
        mkSummand (seg0_lambda0 element L) (Skalar 1) None false;
        mkSummand (seg0_lambda1 element L) (Skalar 1) None false] [];
     mkEquation (full_label owner (String.append "lambda_" (var_label x))) eq_
       [mkSummand x (Skalar (-1)) None false;
        mkSummand (seg0_lambda0 element L) (Skalar 0) None false;
        mkSummand (seg0_lambda1 element L) (Skalar 10) None false] [];
     mkEquation (full_label owner (String.append "lambda_" (var_label y))) eq_
       [mkSummand y (Skalar (-1)) None false;
        mkSummand (seg0_lambda0 element L) (Skalar 0) None false;
        mkSummand (seg0_lambda1 element L) (Skalar 100) None false] [];
     mkEquation (full_label owner "in_single_Segment") eq_
       [mkSummand (seg0_in element L) (Skalar 1) None false] [Skalar 1]]
    [] [].

(** A term over all [L] indices of its variable, not summed. *)
Definition plain_term (L : nat) (s : Summand) : Prop :=
  s_indices s = None /\ s_as_sum s = false /\
  var_length (s_var s) = L /\ fits L (s_factor s).

Definition term_at (val : Valuation) (t : nat) (s : Summand) : Q :=
  (bnth (s_factor s) t * val (var_label (s_var s)) t)%Q.

(** The duration variable and the four equations that
    [_get_duration_in_hours] writes without minimum and maximum
    duration, for a binary [bv], previous duration [p], first step
    duration [dt0] and later step durations [dts]. *)
Definition duration_variable (owner label : string) (T : nat) (mega p : Q) : Variable_ :=
  new_variable label owner T (Some (Skalar 0)) (Some (Skalar mega)) false None
               (Some (Skalar p)).

Definition duration_equations (owner : string) (d bv : Variable_)
    (mega p dt0 : Q) (dts : list Q) : list Equation :=
  let n := length dts in
  [mkEquation (full_label owner (String.append (var_label d) "_constraint_1")) ineq
     [mkSummand d (Skalar 1) None false;
      mkSummand bv (Skalar (-1 * mega)) None false] [];
   mkEquation (full_label owner (String.append (var_label d) "_constraint_2a")) ineq
     [mkSummand d (Skalar 1) (Some (seq 1 n)) false;
      mkSummand d (Skalar (-1)) (Some (seq 0 n)) false] [NArray dts];
   mkEquation (full_label owner (String.append (var_label d) "_constraint_2b")) ineq
     [mkSummand d (Skalar (-1)) (Some (seq 1 n)) false;
      mkSummand d (Skalar 1) (Some (seq 0 n)) false;
      mkSummand bv (Skalar mega) (Some (seq 1 n)) false]
     [np_shift mega (np_scale (-1) (NArray dts))];
   mkEquation (full_label owner (String.append (var_label d) "_initial")) eq_
     [mkSummand d (Skalar 1) (Some [0%nat]) false;
      mkSummand bv (Skalar (-1 * (dt0 + p))) (Some [0%nat]) false] []].

(** The activity sequence of the duration example, and the expected
    consecutive durations. *)
Definition on_example : list Q := [0; 0; 1; 1; 1; 1; 0; 1; 1; 1; 0]%Q.
Definition duration_example : list Q := [0; 0; 1; 2; 3; 4; 0; 1; 2; 3; 0]%Q.

(** Eleven hourly steps after one hourly step of the previous horizon. *)
Definition sm11 : SystemModel :=
  mkSystemModel 11 (seq 0 11) (repeat 1%Q 11) 11 (Skalar 1).

Definition unit_on : Variable_ :=
  new_variable "on" "Boiler__OnOff" 11 None None true None (Some (NArray [0%Q])).

Definition unit_model : OnOffModel :=
  mkOnOffModel "Boiler" "OnOff" (Some unit_on) None None None None None None None
    (mkOnOffParameters None None false true None None false None None false None [] [])
    [] [].

Definition unit_val : Valuation := fun l t =>
  if String.eqb l "Boiler__OnOff__on" then nth t on_example 0%Q
  else if String.eqb l "Boiler__OnOff__consecutiveOnHours" then nth t duration_example 0%Q
  else 0%Q.

(** The four equations that [_add_switch_constraints] writes for [T]
    steps, with [q] the last on-value of the previous horizon. *)
Definition switch_equations (owner : string) (on_v son soff nr : Variable_)
    (T : nat) (q : Q) : list Equation :=
  [mkEquation (full_label owner "Switch") eq_
     [mkSummand son (Skalar 1) (Some (seq 1 (T - 1))) false;
      mkSummand soff (Skalar (-1)) (Some (seq 1 (T - 1))) false;
      mkSummand on_v (Skalar (-1)) (Some (seq 1 (T - 1))) false;
      mkSummand on_v (Skalar 1) (Some (seq 0 (T - 1))) false] [];
   mkEquation (full_label owner "Initial_Switch") eq_
     [mkSummand son (Skalar 1) (Some [0%nat]) false;
      mkSummand soff (Skalar (-1)) (Some [0%nat]) false;
      mkSummand on_v (Skalar (-1)) (Some [0%nat]) false] [Skalar (-1 * q)];
   mkEquation (full_label owner "Switch_On_or_Off") ineq
     [mkSummand son (Skalar 1) None false;
      mkSummand soff (Skalar 1) None false] [Skalar (11 # 10)];
   mkEquation (full_label owner "NrSwitchOn") eq_
     [mkSummand nr (Skalar 1) None false;
      mkSummand son (Skalar (-1)) None true] []].

Definition on_switching : list Q := [0; 1; 1; 0; 1]%Q.
Definition switch_on_expected : list Q := [0; 1; 0; 0; 1]%Q.
Definition switch_off_expected : list Q := [0; 0; 0; 1; 0]%Q.

(** A boiler with switch counting over five hourly steps, built by
    [OnOffModel.do_modeling] as a whole. *)
Definition sm5 : SystemModel := mkSystemModel 5 (seq 0 5) (repeat 1%Q 5) 5 (Skalar 1).

Definition switch_params : OnOffParameters :=
  mkOnOffParameters None None false false None None false None None true None [] [].

Definition switch_flow : Variable_ :=
  new_variable "flow_rate" "Boiler__Q_th" 5 (Some (Skalar 0)) None false None None.

Definition result_or {A} (d : A) (r : Result A) : A :=
  match r with Ok a => a | Raise _ => d end.

Definition switch_model_init : OnOffModel :=
  mkOnOffModel "Boiler" "OnOff" None None None None None None None None
    switch_params [switch_flow] [(np_maximum (EPSILON cfg0) (Skalar 1), Skalar 10)].

Definition switch_built : Result OnOffModel * Built :=
  OnOffModel_do_modeling cfg0 switch_model_init sm5 empty_built.

Definition switch_model : OnOffModel := result_or switch_model_init (fst switch_built).

Definition switch_val : Valuation := fun l t =>
  if String.eqb l "Boiler__OnOff__on" then nth t on_switching 0%Q
  else if String.eqb l "Boiler__Q_th__flow_rate" then nth t [0; 5; 5; 0; 5]%Q 0%Q
  else if String.eqb l "Boiler__OnOff__totalOnHours" then 3%Q
  else if String.eqb l "Boiler__OnOff__switchOn" then nth t switch_on_expected 0%Q
  else if String.eqb l "Boiler__OnOff__switchOff" then nth t switch_off_expected 0%Q
  else if String.eqb l "Boiler__OnOff__nrSwitchOn" then 2%Q
  else 0%Q.

(** The [size] arguments that Python takes for false: [None] and zero. *)
Definition size_none_or_zero (s : option FlowSize) : Prop :=
  s = None \/ exists q, s = Some (SizeSkalar q) /\ (q == 0)%Q.

(** The conditions under which [add_share] fails. *)
Definition sums_scalar (variable : option Variable_) (share_as_sum : bool) : Prop :=
  exists v, variable = Some v /\ var_length v = 1%nat /\ share_as_sum = true.

Definition uncovered_constant (variable : option Variable_) (factor : Numeric)
    (share_as_sum : bool) : Prop :=
  variable = None /\ np_isscalar factor = false /\ share_as_sum = false.

Definition name_taken (self : ShareAllocationModel) (name : string) : Prop :=
  is_some (shares self !! name) = true.

(** A ledger after [do_modeling]: the equations shares are added to exist. *)
Definition ledger_modelled (self : ShareAllocationModel) : Prop :=
  is_some (_eq_sum self) = true /\
  (_shares_are_time_series self = true -> is_some (_eq_time_series self) = true).

(** A ledger of time-indexed cost shares over three steps. *)
Definition cost_ledger : ShareAllocationModel :=
  result_or
    (mkShareAllocationModel "Effects" "costs" None None ∅ None None true None None None None [])
    (match ShareAllocationModel_init "Effects" "costs" true None None None None with
     | Ok s => ShareAllocationModel_do_modeling s sm3
     | Raise e => Raise e
     end).

Definition fuel_flow : Variable_ :=
  new_variable "flow_rate" "Boiler__Q_fu" 3 (Some (Skalar 0)) (Some (Skalar 10)) false None None.

(** The ledger after the share "fuel" has been added once. *)
Definition cost_ledger_with_fuel : ShareAllocationModel :=
  snd (add_share sm3 "fuel" (Some fuel_flow) (Skalar 2) false cost_ledger).

(** A builder that registers nothing in the ledger. *)
Definition calls_kept {A} (m : M Built A) : Prop :=
  forall b, share_calls (snd (m b)) = share_calls b.

(** Modelled from the spec: the value that a registration contributes
    to an effect under an assignment, the effect's value times the
    factor times the variable (times 1 for a share without variable);
    [add_share_to_invest] of [effects.py] is not part of the sources at
    hand. *)
Definition effect_value (values : EffectValues) (effect : string) (t : nat) : Q :=
  match find (fun kv => String.eqb (fst kv) effect) values with
  | Some (_, x) => bnth x t
  | None => 0%Q
  end.

Definition share_value (val : Valuation) (c : ShareCall) (effect : string) (t : nat) : Q :=
  (effect_value (sc_effect_values c) effect t * bnth (sc_factor c) t *
   match sc_variable c with
   | None => 1
   | Some v => val (var_label v) (if Nat.eqb (var_length v) 1 then 0%nat else t)
   end)%Q.

Definition is_divest_share (c : ShareCall) : bool :=
  String.eqb (sc_name c) "divest_effects" ||
  String.eqb (sc_name c) "divest_cancellation_effects".

(** A builder that only appends registrations satisfying [P]. *)
Definition appends {A} (P : ShareCall -> Prop) (m : M Built A) : Prop :=
  forall b, exists l, share_calls (snd (m b)) = share_calls b ++ l /\ Forall P l.

(** An optional investment with divestment effects, and the same
    configuration with the investment made mandatory. *)
Definition divest_parameters (optional : bool) : InvestParameters :=
  mkInvestParameters None optional 0 100 [] [("costs", Skalar 500)] [] None.

Definition invest_model (optional : bool) : InvestmentModel :=
  mkInvestmentModel "Boiler__Q_th" "Investment"
    (Some (new_variable "size" "Boiler__Q_th__Investment" 1
             (Some (Skalar 0)) (Some (Skalar 100)) false None None))
    (if optional
     then Some (new_variable "isInvested" "Boiler__Q_th__Investment" 1
                  None None true None None)
     else None)
    None None heat (Skalar 0, Skalar 1) None (divest_parameters optional).

(** A component with two flows whose previous flow rates are the
    scalars 5 and 0, and the same with one-step arrays. *)
Definition two_flow_model (prev1 prev2 : Numeric) : OnOffModel :=
  mkOnOffModel "CHP" "OnOff" None None None None None None None None no_on_off
    [new_variable "flow_rate" "CHP__Q_th" 3 (Some (Skalar 0)) None false None (Some prev1);
     new_variable "flow_rate" "CHP__P_el" 3 (Some (Skalar 0)) None false None (Some prev2)]
    [(Skalar (EPSILON cfg0), Skalar 10); (Skalar (EPSILON cfg0), Skalar 10)].

(** A combined heat and power unit with an on/off state of its own and
    two flows whose previous flow rates are given as scalars: heat was
    produced (5), no power (0). *)
Definition chp_flow (label : string) (previous : Q) : Flow :=
  mkFlow label "Bus" (SizeSkalar 10) (Skalar 0) (Skalar 1) None None None [] None None
         None (Some (Skalar previous)) (Some "CHP") None.

Definition chp : Component :=
  mkComponent "CHP" [] [chp_flow "Q_th" 5; chp_flow "P_el" 0] (Some switch_params) [].

Definition chp_built : Result ComponentModel * Built :=
  ComponentModel_do_modeling cfg0 chp sm3 empty_built.

(** The previous values of the component's [on] variable. *)
Definition component_previous_on (r : Result ComponentModel) : option Numeric :=
  match r with
  | Ok cm =>
      match cm_on cm with
      | Some m => match on m with Some v => previous_values v | None => None end
      | None => None
      end
  | Raise _ => None
  end.

(** The assignment that gives two labels a series each, and 0 elsewhere. *)
Definition two_series (l1 : string) (s1 : list Q) (l2 : string) (s2 : list Q) : Valuation :=
  fun l t =>
    if String.eqb l l1 then nth t s1 0%Q
    else if String.eqb l l2 then nth t s2 0%Q
    else 0%Q.

(** A builder that only appends to the variables and equations of the
    model under construction. *)
Definition grows {A} (m : M Built A) : Prop :=
  forall b, exists vs es,
    variables (snd (m b)) = variables b ++ vs /\ eqs (snd (m b)) = eqs b ++ es.

(** An optional investment of fixed size 10, and an optional
    investment between 2 and 100. *)
Definition optional_parameters (fixed : option Q) : InvestParameters :=
  mkInvestParameters fixed true 2 100 [("costs", Skalar 1000)] [] [] None.

Definition optional_invest_model (fixed : option Q) : InvestmentModel :=
  InvestmentModel_init "Boiler__Q_th" (optional_parameters fixed) heat
    (Skalar 0, Skalar 1) None "Investment" None.

Definition invested_val (invested size : Q) : Valuation := fun l t =>
  if String.eqb l "Boiler__Q_th__Investment__isInvested" then invested
  else if String.eqb l "Boiler__Q_th__Investment__size" then size
  else if String.eqb l "Boiler__Q_th__flow_rate" then 0%Q
  else 0%Q.

(** Terms over the whole horizon: per-step terms of a variable of
    length [L] (all of its indices, or the indices [0 .. L-1] given in
    full), per-step terms of a scalar variable (broadcast), and summed
    terms. *)
Definition broadcast_index (s : Summand) (t : nat) : nat :=
  match s_indices s with
  | None => if Nat.eqb (var_length (s_var s)) 1 then 0%nat else t
  | Some _ => t
  end.

Definition weighted_sum (val : Valuation) (f : Numeric) (v : Variable_) : Q :=
  Qsum (List.map (fun k => bnth f k * val (var_label v) k)%Q (seq 0 (var_length v))).

Definition term_value (val : Valuation) (t : nat) (s : Summand) : Q :=
  if s_as_sum s then weighted_sum val (s_factor s) (s_var s)
  else (bnth (s_factor s) t * val (var_label (s_var s)) (broadcast_index s t))%Q.

Definition term_fits (L : nat) (s : Summand) : Prop :=
  (s_as_sum s = true /\ s_indices s = None) \/
  (s_as_sum s = false /\ fits L (s_factor s) /\
   ((s_indices s = None /\ (var_length (s_var s) = L \/ var_length (s_var s) = 1%nat)) \/
    s_indices s = Some (seq 0 L))).

(** A mandatory investment between 20 and 80, bounding a flow rate over
    three steps between 0.25 and 1 times the size, with an on variable. *)
Definition mandatory_parameters (fixed : option Q) : InvestParameters :=
  mkInvestParameters fixed false 20 80 [] [] [] None.

Definition mandatory_invest_model (fixed : option Q) : InvestmentModel :=
  InvestmentModel_init "Boiler__Q_th" (mandatory_parameters fixed) heat
    (Skalar 0, Skalar 1) None "Investment" None.

Definition invest_size : Variable_ :=
  new_variable "size" "Boiler__Q_th__Investment" 1 (Some (Skalar 20)) (Some (Skalar 80))
    false None None.

Definition sized_invest_model (on_variable : option Variable_) : InvestmentModel :=
  mkInvestmentModel "Boiler__Q_th" "Investment" (Some invest_size) None None
    on_variable heat (NArray [1 # 4; 1 # 4; 1 # 2], Skalar 1) None (mandatory_parameters None).

Definition sized_val (size r0 r1 r2 : Q) : Valuation :=
  fun name t =>
    if String.eqb name "Boiler__Q_th__Investment__size" then size
    else if String.eqb name "Boiler__Q_th__flow_rate" then nth t [r0; r1; r2] 0
    else if String.eqb name "Boiler__Q_th__OnOff__on" then nth t [1; 0; 1] 0
    else 0.

(** Three binary on variables over three steps, at most one of them 1
    at a time. *)
Definition exclusive_on (name : string) : Variable_ :=
  new_variable "on" (String.append name "__OnOff") 3 None None true None None.

Definition exclusive_variables : list Variable_ :=
  [exclusive_on "Storage__charge"; exclusive_on "Storage__discharge";
   exclusive_on "Storage__bypass"].

Definition exclusive_val : Valuation :=
  fun name t =>
    if String.eqb name "Storage__charge__OnOff__on" then nth t [1; 0; 0] 0
    else if String.eqb name "Storage__discharge__OnOff__on" then nth t [0; 0; 1] 0
    else 0.

(** A component with two flows sharing one on variable: a heat flow of
    at most 10 and a power flow of at most 6. *)
Definition power : Variable_ :=
  new_variable "flow_rate" "Boiler__P_el" 3 (Some (Skalar 0)) None false None None.

Definition shared_on_model : OnOffModel :=
  mkOnOffModel "Boiler" "OnOff" (Some heat_on) (Some heat_hours)
    None None None None None None no_on_off [heat; power]
    [(Skalar 1, Skalar 10); (Skalar 1, Skalar 6)].

Definition shared_val : Valuation :=
  fun name t =>
    if String.eqb name "Boiler__Q_th__OnOff__on" then nth t [1; 0; 1] 0
    else if String.eqb name "Boiler__Q_th__flow_rate" then nth t [10; 0; 0] 0
    else if String.eqb name "Boiler__P_el__flow_rate" then nth t [6; 0; 2] 0
    else 0.

(** The boiler's on/off model with at least one and at most two hours
    of operation in total. *)
Definition limited_hours : OnOffParameters :=
  mkOnOffParameters (Some 1) (Some 2) false false None None false None None false None [] [].

Definition limited_model : OnOffModel :=
  mkOnOffModel "Boiler__Q_th" "OnOff" None None None None None None None None
    limited_hours [heat] [(np_maximum (EPSILON cfg0) (Skalar 2), Skalar 10)].

Definition limited_val : Valuation :=
  fun name t =>
    if String.eqb name "Boiler__Q_th__OnOff__on" then nth t [1; 0; 1] 0
    else if String.eqb name "Boiler__Q_th__flow_rate" then nth t [10; 0; 2] 0
    else if String.eqb name "Boiler__Q_th__OnOff__totalOnHours" then 2
    else 0.

(** The boiler's on/off model with an off variable. *)
Definition off_parameters : OnOffParameters :=
  mkOnOffParameters None None true false None None false None None false None [] [].

Definition off_model : OnOffModel :=
  mkOnOffModel "Boiler__Q_th" "OnOff" None None None None None None None None
    off_parameters [heat] [(np_maximum (EPSILON cfg0) (Skalar 2), Skalar 10)].

Definition off_val : Valuation :=
  fun name t =>
    if String.eqb name "Boiler__Q_th__OnOff__on" then nth t [1; 0; 1] 0
    else if String.eqb name "Boiler__Q_th__OnOff__off" then nth t [0; 1; 0] 0
    else if String.eqb name "Boiler__Q_th__flow_rate" then nth t [10; 0; 2] 0
    else if String.eqb name "Boiler__Q_th__OnOff__totalOnHours" then 2
    else 0.

(** The on-value before step [t]: the last on-value of the previous
    horizon before the first step. *)
Definition on_before (val : Valuation) (on_v : Variable_) (q : Q) (t : nat) : Q :=
  match t with
  | O => q
  | S t' => val (var_label on_v) t'
  end.

(** A numeric that may be absent fits a horizon when it is absent or
    fits. *)
Definition opt_fits (n : nat) (o : option Numeric) : Prop :=
  match o with Some x => fits n x | None => True end.

(** A ledger of time-indexed cost shares with at most 5 per hour and at
    most 100 in total, before modelling; steps of half an hour. *)
Definition capped_ledger : ShareAllocationModel :=
  mkShareAllocationModel "Effects" "costs" None None ∅ None None true
    (Some 100) None (Some (Skalar 5)) None [].

Definition sm_half : SystemModel :=
  mkSystemModel 3 (seq 0 3) [1 # 2; 1 # 2; 1 # 2]%Q (Qsum [1 # 2; 1 # 2; 1 # 2]%Q)
    (Skalar (1 # 2)).

(** The share of fuel in the costs: 2 per unit of the fuel flow. *)
Definition fuel_share : SingleShareModel :=
  result_or (mkSingleShareModel "fuel" fuel_flow (new_equation "fuel" "Effects" eq_))
    (SingleShareModel_init "Effects" "fuel" (Some fuel_flow) (Skalar 2) false).

Definition fuel_val : Valuation :=
  fun name t =>
    if String.eqb name "Boiler__Q_fu__flow_rate" then nth t [4; 0; 10] 0
    else if String.eqb name "Effects__fuel" then nth t [8; 0; 20] 0
    else 0.

(** One segment for two variables with given end points. *)
Definition segment_pair (element : string) (x y : Variable_)
    (px py : Numeric * Numeric) (outside : CanBeOutside) (as_time_series : bool)
  : MultipleSegmentsModel :=
  MultipleSegmentsModel_init element [(x, [px]); (y, [py])]
    outside as_time_series "MultipleSegments".

(** The value that the segment's [inSegment] is tied to: 1 when no
    stay outside is allowed, else the given or the created variable. *)
Definition segment_switch (val : Valuation) (element : string) (outside : CanBeOutside)
    (t : nat) : Q :=
  match outside with
  | OutsideVariable v => val (var_label v) t
  | OutsideBool true =>
      val (full_label (full_label element "MultipleSegments") "outside_segments") t
  | _ => 1%Q
  end.

(** A boiler whose segment from (2, 10) to (10, 80) is switched by its
    on variable. *)
Definition switched_segment_val : Valuation := fun l t =>
  if String.eqb l "Boiler__Q_fu__flow_rate" then nth t [2; 0; 6] 0
  else if String.eqb l "Boiler__Q_th__flow_rate" then nth t [10; 0; 45] 0
  else if String.eqb l "Boiler__Q_th__OnOff__on" then nth t [1; 0; 1] 0
  else if String.eqb l "Boiler__Segment_0__inSegment" then nth t [1; 0; 1] 0
  else if String.eqb l "Boiler__Segment_0__lambda0" then nth t [1; 0; 1 # 2] 0
  else if String.eqb l "Boiler__Segment_0__lambda1" then nth t [0; 0; 1 # 2] 0
  else 0%Q.

(** Two segments for the fuel flow, but only one for the heat flow. *)
Definition ragged_segments : MultipleSegmentsModel :=
  MultipleSegmentsModel_init "Boiler"
    [(seg_x, [(Skalar 0, Skalar 5); (Skalar 5, Skalar 10)]);
     (seg_y, [(Skalar 0, Skalar 40)])]
    OutsideNone true "MultipleSegments".

(** A heat flow of size 50 with relative bounds 0.2 and 1 over three
    hourly steps, at most 120 flow hours in total and load factors
    between 0.5 and 0.9. *)
Definition plain_flow : Flow :=
  mkFlow "Q_th" "Heat" (SizeSkalar 50) (Skalar (1 # 5)) (Skalar 1) None
    (Some (1 # 2)) (Some (9 # 10)) [] (Some 120) None None None (Some "Boiler") None.

Definition plain_flow_val : Valuation := fun l t =>
  if String.eqb l "Boiler__Q_th__flow_rate" then nth t [50; 10; 40] 0
  else if String.eqb l "Boiler__Q_th__sumFlowHours" then 100
  else 0%Q.

(** A duration that is the same at every step. *)
Definition constant_duration (q : option Q) : option TimeSeries :=
  option_map (fun x => mkTimeSeries (Skalar x)) q.

(** The equations that [_get_duration_in_hours] adds for a minimum
    duration [m]: the duration before a switch-off step, and, where the
    carried duration [p] lies strictly between 0 and [m], the binary of
    the first step. *)
Definition minimum_duration_equations (owner : string) (d bv : Variable_)
    (p m : Q) (n : nat) : list Equation :=
  mkEquation (full_label owner (String.append (var_label d) "_minimum_duration")) ineq
    [mkSummand d (Skalar (-1)) (Some (seq 0 n)) false;
     mkSummand bv (Skalar (-1 * m)) (Some (seq 1 n)) false;
     mkSummand bv (Skalar m) (Some (seq 0 n)) false] []
  :: (if Qltb 0 p && Qltb p m then
        [mkEquation (full_label owner (String.append (var_label d) "_minimum_duration_inital"))
           eq_ [mkSummand bv (Skalar 1) (Some [0%nat]) false] [Skalar 1]]
      else []).

(** The boiler over eleven hours, on for at least two and at most four
    hours in a row, after one hour on in the previous horizon. *)
Definition kept_on : Variable_ :=
  new_variable "on" "Boiler__OnOff" 11 None None true None (Some (NArray [1%Q])).

Definition kept_on_val : Valuation := fun l t =>
  if String.eqb l "Boiler__OnOff__on" then nth t [1; 1; 0; 0; 1; 1; 1; 1; 0; 1; 1] 0%Q
  else if String.eqb l "Boiler__OnOff__consecutiveOnHours"
       then nth t [2; 3; 0; 0; 1; 2; 3; 4; 0; 1; 2] 0%Q
  else 0%Q.

(** A store whose charging alone is named for exclusive use. *)
Definition lonely_store : Component :=
  mkComponent "Storage" [chp_flow "charge" 0] [chp_flow "discharge" 0] None ["charge"].

(** The component model of the CHP unit. *)
Definition chp_model : ComponentModel :=
  result_or (mkComponentModel [] None) (fst chp_built).

(** A flow whose model holds a binary on variable over [T] steps. *)
Definition has_on_variable (T : nat) (f : Flow) : Prop :=
  exists v, flow_on_variable f = Ok v /\ is_binary v = true /\ var_length v = T.

(** A heat flow of size 50 with relative bounds 0.2 and 1 that can be
    switched off. *)
Definition switched_flow : Flow :=
  mkFlow "Q_th" "Heat" (SizeSkalar 50) (Skalar (1 # 5)) (Skalar 1) None
    None None [] None None (Some no_on_off) None (Some "Boiler") None.

Definition switched_flow_val : Valuation := fun l t =>
  if String.eqb l "Boiler__Q_th__flow_rate" then nth t [50; 0; 10] 0
  else if String.eqb l "Boiler__Q_th__OnOff__on" then nth t [1; 0; 1] 0
  else if String.eqb l "Boiler__Q_th__OnOff__totalOnHours" then 2
  else if String.eqb l "Boiler__Q_th__sumFlowHours" then 60
  else 0%Q.

(** ** [elements.py]: connecting components and buses *)

(** [Bus.add_input] and [Bus.add_output] *)
Definition add_input (flow : Flow) (b : Bus) : Bus :=
  mkBus (bus_label b) (excess_penalty_per_flow_hour b) (inputs b ++ [flow]) (outputs b).

Definition add_output (flow : Flow) (b : Bus) : Bus :=
  mkBus (bus_label b) (excess_penalty_per_flow_hour b) (inputs b) (outputs b ++ [flow]).

(** [Component.register_flows_in_bus]. A flow refers to its bus, and
    several flows may refer to the same one: the buses are kept in a
    store under their labels, and [flow.bus.add_output(flow)] changes
    the bus that the store holds under the flow's bus. *)
Definition register_flows_in_bus (c : Component) (buses : gmap string Bus) : gmap string Bus :=
  let buses :=
    fold_left (fun bs flow => alter (add_output flow) (flow_bus flow) bs) (comp_inputs c) buses in
  fold_left (fun bs flow => alter (add_input flow) (flow_bus flow) bs) (comp_outputs c) buses.

Definition on_bus (label : string) (f : Flow) : bool := String.eqb (flow_bus f) label.

(** The heat bus, with a consumer whose model has not been built. *)
Definition early_bus : Bus :=
  mkBus "Heat" None [modelled_flow "boiler"] [chp_flow "demand" 0].

(** A heat flow whose size, between 20 and 80, is to be invested in. *)
Definition invested_flow : Flow :=
  mkFlow "Q_th" "Heat" (SizeInvest (mandatory_parameters None)) (Skalar (1 # 4)) (Skalar 1) None
    None None [] None None None None (Some "Boiler") None.

Definition invested_flow_val : Valuation := fun l t =>
  if String.eqb l "Boiler__Q_th__flow_rate" then nth t [40; 10; 25] 0
  else if String.eqb l "Boiler__Q_th__Investment__size" then 40
  else if String.eqb l "Boiler__Q_th__sumFlowHours" then 75
  else 0%Q.

(** ** Well-formed shares, and flows that are modelled in part *)

(** A share that is well formed for a ledger over [T] steps: the
    ledger's equations have been built, the variable, if any, is a
    scalar or has one entry per step, the factor is a scalar or as long
    as the variable (as long as the horizon without one), and the
    equation the share goes to has one row or one per step. The checks
    of [Equation.add_summand] on the lengths are not part of the
    sources; such shares pass them. *)
Definition share_well_formed (T : nat) (s : ShareAllocationModel)
    (variable : option Variable_) (factor : Numeric) (share_as_sum : bool) : Prop :=
  (1 <= T)%nat /\
  ledger_modelled s /\
  match variable with
  | Some v => (var_length v = 1%nat \/ var_length v = T) /\ fits (var_length v) factor
  | None => fits T factor
  end /\
  match target_eq s share_as_sum with
  | Some e => eq_rows e = 1%nat \/ eq_rows e = T
  | None => True
  end.

(** The flow rates of the flows that come before the first flow
    without a modelled flow rate. *)
Fixpoint rates_before (flows : list Flow) : list Variable_ :=
  match flows with
  | [] => []
  | f :: rest =>
      match flow_rate_of f with
      | Ok v => v :: rates_before rest
      | Raise _ => []
      end
  end.

Definition all_modelled (flows : list Flow) : bool :=
  forallb (fun f => is_ok (flow_rate_of f)) flows.

(** The balance of a bus as far as [BusModel.do_modeling] fills it
    before it meets a flow without a modelled flow rate. *)
Definition half_filled_balance (bus : Bus) : Equation :=
  mkEquation (full_label (bus_label bus) "busBalance") eq_
    (List.map (fun v => mkSummand v (Skalar 1) None false) (rates_before (inputs bus))
     ++ (if all_modelled (inputs bus)
         then List.map (fun v => mkSummand v (Skalar (-1)) None false)
                (rates_before (outputs bus))
         else []))
    [].
(** *** The checks decide the propositions *)

Lemma row_check_spec val e r : row_check val e r = true <-> row_holds val e r.
Proof.
  unfold row_check, row_holds. destruct (eq_type e).
  - apply Qeq_bool_iff.
  - apply Qle_bool_iff.
Qed.

Lemma eq_check_spec val e : eq_check val e = true <-> eq_holds val e.
Proof.
  unfold eq_check, eq_holds. rewrite forallb_forall. split.
  - intros H r Hr. apply row_check_spec, H, in_seq. lia.
  - intros H r Hr. apply row_check_spec, H. apply in_seq in Hr. lia.
Qed.

Lemma opt_bound_check_spec b relb rel i x :
  (forall u y, relb u y = true <-> rel u y) ->
  opt_bound_check b relb i x = true <-> opt_bound b rel i x.
Proof. intros H. destruct b; simpl; [apply H | tauto]. Qed.

Lemma var_check_spec val v : var_check val v = true <-> var_ok val v.
Proof.
  unfold var_check, var_ok. rewrite forallb_forall.
  assert (Hrow : forall i,
    opt_bound_check (lower_bound v) Qle_bool i (val (var_label v) i) &&
    opt_bound_check (upper_bound v) (fun u x => Qle_bool x u) i (val (var_label v) i) &&
    opt_bound_check (fixed_value v) Qeq_bool i (val (var_label v) i) &&
    (negb (is_binary v) ||
       Qeq_bool (val (var_label v) i) 0 || Qeq_bool (val (var_label v) i) 1) = true <->
    opt_bound (lower_bound v) Qle i (val (var_label v) i) /\
    opt_bound (upper_bound v) (fun u x => x <= u)%Q i (val (var_label v) i) /\
    opt_bound (fixed_value v) Qeq i (val (var_label v) i) /\
    (is_binary v = true ->
       (val (var_label v) i == 0 \/ val (var_label v) i == 1)%Q)).
  { intros i. rewrite !andb_true_iff, !orb_true_iff, negb_true_iff.
    rewrite (opt_bound_check_spec _ Qle_bool Qle) by (intros; apply Qle_bool_iff).
    rewrite (opt_bound_check_spec _ (fun u x => Qle_bool x u) (fun u x => x <= u)%Q)
      by (intros; apply Qle_bool_iff).
    rewrite (opt_bound_check_spec _ Qeq_bool Qeq) by (intros; apply Qeq_bool_iff).
    rewrite !Qeq_bool_iff. destruct (is_binary v); intuition congruence. }
  split.
  - intros H i Hi. apply Hrow, H, in_seq. lia.
  - intros H i Hi. apply Hrow, H. apply in_seq in Hi. lia.
Qed.

Lemma feasible_check_spec val b : feasible_check val b = true <-> feasible val b.
Proof.
  unfold feasible_check, feasible.
  rewrite andb_true_iff, !forallb_forall, !Forall_forall.
  split; intros [Hv He]; split; intros x Hx.
  - apply var_check_spec, Hv, Hx.
  - apply eq_check_spec, He, Hx.
  - apply var_check_spec, Hv, Hx.
  - apply eq_check_spec, He, Hx.
Qed.

(** ** Lists, slices and broadcasting *)

Lemma slice_from1_seq a n : slice_from1 (seq a n) = seq (S a) (n - 1).
Proof. destruct n; simpl; [reflexivity | now rewrite Nat.sub_0_r]. Qed.

Lemma slice_to_last_seq a n : slice_to_last (seq a n) = seq a (n - 1).
Proof.
  unfold slice_to_last. destruct n; [reflexivity |].
  rewrite seq_S, removelast_last. simpl. now rewrite Nat.sub_0_r.
Qed.

Lemma index_at_seq a n r : (r < n)%nat -> index_at (seq a n) r = (a + r)%nat.
Proof.
  intros Hr. unfold index_at.
  destruct n as [|[|n]]; [lia | |].
  - simpl. lia.
  - change (nth r (seq a (S (S n))) 0%nat = (a + r)%nat). now apply seq_nth.
Qed.

Lemma bnth_array l r : (r < length l)%nat -> bnth (NArray l) r = nth r l 0%Q.
Proof.
  intros Hr. destruct l as [|x [|y l]]; simpl in *; [lia | | reflexivity].
  destruct r; [reflexivity | lia].
Qed.

Lemma bnth_np_map f x n r : fits n x -> (r < n)%nat -> bnth (np_map f x) r = f (bnth x r).
Proof.
  destruct x as [q|l]; simpl; [reflexivity |].
  intros Hl Hr. change (bnth (NArray (List.map f l)) r = f (bnth (NArray l) r)).
  rewrite !bnth_array by (rewrite ?length_map; lia).
  rewrite (nth_indep _ 0%Q (f 0%Q)) by (rewrite length_map; lia).
  apply map_nth.
Qed.

Lemma fits_np_map f x n : fits n x -> fits n (np_map f x).
Proof. destruct x; simpl; [tauto | now rewrite length_map]. Qed.

Lemma fits_np_maximum c x n : fits n x -> fits n (np_maximum c x).
Proof. apply fits_np_map. Qed.

Lemma fits_np_scale c x n : fits n x -> fits n (np_scale c x).
Proof. apply fits_np_map. Qed.

Lemma fits_np_shift c x n : fits n x -> fits n (np_shift c x).
Proof. apply fits_np_map. Qed.

Lemma fits_Skalar q n : fits n (Skalar q).
Proof. exact I. Qed.

Lemma fits_NArray l : fits (length l) (NArray l).
Proof. reflexivity. Qed.

Create HintDb fits.
#[export] Hint Resolve fits_np_map fits_np_maximum fits_np_scale fits_np_shift
  fits_Skalar fits_NArray : fits.

Lemma numeric_len_fits n x : fits n x -> (1 <= n)%nat -> (numeric_len x <= n)%nat.
Proof. destruct x; simpl; lia. Qed.

(** ** Rows of equations *)

Lemma summand_rows_all v f n :
  var_length v = n -> fits n f ->
  summand_rows (mkSummand v f None false) = n.
Proof.
  intros Hv Hf. unfold summand_rows, selected. simpl. rewrite Hv.
  destruct n as [|[|n]]; simpl; [reflexivity | | now rewrite length_seq].
  destruct f; simpl in *; congruence.
Qed.

Lemma summand_rows_seq v f a n :
  fits n f ->
  summand_rows (mkSummand v f (Some (seq a n)) false) = n.
Proof.
  intros Hf. unfold summand_rows, selected. simpl.
  destruct n as [|[|n]]; simpl; [reflexivity | | now rewrite length_seq].
  destruct f; simpl in *; congruence.
Qed.

Lemma summand_value_all val v f n r :
  var_length v = n -> (r < n)%nat ->
  summand_value val (mkSummand v f None false) r == bnth f r * val (var_label v) r.
Proof.
  intros Hv Hr. unfold summand_value, selected. simpl.
  rewrite Hv, index_at_seq by lia. reflexivity.
Qed.

Lemma summand_value_seq val v f a n r :
  (r < n)%nat ->
  summand_value val (mkSummand v f (Some (seq a n)) false) r
  == bnth f r * val (var_label v) (a + r)%nat.
Proof.
  intros Hr. unfold summand_value, selected. simpl.
  rewrite index_at_seq by lia. reflexivity.
Qed.

(** ** [OnOffModel._add_on_constraints], one defining variable *)

Section OnConstraints.
Variable cfg : Config.
Variables (element label : string) (p : OnOffParameters).
Variables (v on_v h : Variable_) (lb ub : Numeric).
Variable sm : SystemModel.
Variable self0 : OnOffModel.
Hypothesis Hinit : OnOffModel_init cfg element p [v] [(lb, ub)] label = Ok self0.
Hypothesis Hsm : horizon_ok sm.

Lemma on_constraints_emitted :
  emitted (_add_on_constraints cfg (with_on self0 on_v h) sm (indices sm))
  = [on_constraint_1 cfg (full_label element label) v on_v lb (nr_of_time_steps sm);
     on_constraint_2 (full_label element label) v on_v ub (nr_of_time_steps sm)].
Proof using Hinit Hsm.
  unfold OnOffModel_init in Hinit. simpl in Hinit. injection Hinit as <-.
  destruct Hsm as (Hidx & _ & _).
  unfold emitted, _add_on_constraints, on_constraint_1, on_constraint_2, bind. simpl.
  rewrite Hidx. unfold lift.
  destruct (np_max ub) as [m|e]; simpl; [|reflexivity].
  destruct (Qltb (BIG_BINARY_BOUND cfg) m); reflexivity.
Qed.
End OnConstraints.

Lemma Qmax_twice (a x : Q) : Qmax a (Qmax a x) == Qmax a x.
Proof. rewrite Q.max_assoc, Q.max_id. reflexivity. Qed.

Lemma on_constraint_1_holds cfg owner v on_v lb T val :
  fits T lb ->
  eq_holds val (on_constraint_1 cfg owner v on_v lb T) <->
  forall t, (t < T)%nat ->
    Qmax (EPSILON cfg) (bnth lb t) * val (var_label on_v) t <= val (var_label v) t.
Proof.
  intros Hlb. unfold eq_holds, eq_rows, row_holds, lhs, rhs. cbn [on_constraint_1 eq_type summands constants List.map fold_right Qsum].
  rewrite !summand_rows_seq by auto with fits.
  rewrite Nat.max_0_r, Nat.max_id.
  split; intros H t Ht; specialize (H t Ht);
    rewrite !summand_value_seq in * by assumption;
    unfold np_maximum, np_scale in *;
    rewrite !(bnth_np_map _ _ T) in * by auto with fits;
    cbn [bnth Nat.add] in *; rewrite Qmax_twice in *; lra.
Qed.

Lemma on_constraint_2_holds owner v on_v ub T val :
  fits T ub ->
  eq_holds val (on_constraint_2 owner v on_v ub T) <->
  forall t, (t < T)%nat ->
    val (var_label v) t <= bnth ub t * val (var_label on_v) t.
Proof.
  intros Hub. unfold eq_holds, eq_rows, row_holds, lhs, rhs. cbn [on_constraint_2 eq_type summands constants List.map fold_right Qsum].
  rewrite !summand_rows_seq by auto with fits.
  rewrite Nat.max_0_r, Nat.max_id.
  split; intros H t Ht; specialize (H t Ht);
    rewrite !summand_value_seq in * by assumption;
    unfold np_maximum, np_scale in *;
    rewrite !(bnth_np_map _ _ T) in * by auto with fits;
    cbn [bnth Nat.add] in *; lra.
Qed.

Lemma Forall_eq_check val l :
  Forall (eq_holds val) l <-> forallb (eq_check val) l = true.
Proof.
  rewrite forallb_forall, Forall_forall.
  split; intros H e He; apply eq_check_spec, H, He.
Qed.

(** C3 (amended): for a single defining variable with bounds [lb],
    [ub], the constraints that [_add_on_constraints] emits force the
    variable into [0, EPSILON] (in fact to 0) at every step where [on]
    is 0, and confine it to [max(EPSILON, lb), ub] at every step where
    [on] is 1: the upper bound applies unchanged, the lower bound is
    raised to [EPSILON] when it lies below. Nothing else is imposed. *)
Theorem on_activation_single cfg element label p v on_v h lb ub sm self0 val :
  OnOffModel_init cfg element p [v] [(lb, ub)] label = Ok self0 ->
  horizon_ok sm ->
  fits (nr_of_time_steps sm) lb -> fits (nr_of_time_steps sm) ub ->
  0 <= EPSILON cfg ->
  let cs := emitted (_add_on_constraints cfg (with_on self0 on_v h) sm (indices sm)) in
  (Forall (eq_holds val) cs ->
   forall t, (t < nr_of_time_steps sm)%nat ->
     (val (var_label on_v) t == 0 ->
        0 <= val (var_label v) t <= EPSILON cfg) /\
     (val (var_label on_v) t == 1 ->
        Qmax (EPSILON cfg) (bnth lb t) <= val (var_label v) t <= bnth ub t)) /\
  ((forall t, (t < nr_of_time_steps sm)%nat ->
      (val (var_label on_v) t == 0 /\ val (var_label v) t == 0) \/
      (val (var_label on_v) t == 1 /\
       Qmax (EPSILON cfg) (bnth lb t) <= val (var_label v) t <= bnth ub t)) ->
   Forall (eq_holds val) cs).
Proof.
  intros Hinit Hsm Hlb Hub Heps cs. subst cs.
  rewrite (on_constraints_emitted cfg element label p v on_v h lb ub sm self0 Hinit Hsm).
  split.
  - intros Hcs t Ht.
    apply Forall_cons_iff in Hcs as [H1 Hcs]. apply Forall_cons_iff in Hcs as [H2 _].
    pose proof (proj1 (on_constraint_1_holds _ _ _ _ _ _ _ Hlb) H1 t Ht) as H1'.
    pose proof (proj1 (on_constraint_2_holds _ _ _ _ _ _ Hub) H2 t Ht) as H2'.
    clear H1 H2. rename H1' into H1. rename H2' into H2.
    split; intros Hon; rewrite Hon in H1, H2; lra.
  - intros H. repeat constructor.
    + apply on_constraint_1_holds; [assumption|].
      intros t Ht. destruct (H t Ht) as [[Hon Hv]|[Hon Hv]]; rewrite Hon; lra.
    + apply on_constraint_2_holds; [assumption|].
      intros t Ht. destruct (H t Ht) as [[Hon Hv]|[Hon Hv]]; rewrite Hon; lra.
Qed.

(** The boiler's heat flow with bounds [2, 10]: off, on at the lower
    bound and on at the upper bound satisfy the emitted constraints. *)
Lemma on_activation_single_witness :
  let cs := emitted (_add_on_constraints cfg0 (heat_model 2 10) sm3 (indices sm3)) in
  Forall (eq_holds heat_val) cs /\
  forall t, (t < 3)%nat ->
    (heat_val (var_label heat_on) t == 0 ->
       0 <= heat_val (var_label heat) t <= EPSILON cfg0) /\
    (heat_val (var_label heat_on) t == 1 ->
       Qmax (EPSILON cfg0) 2 <= heat_val (var_label heat) t <= 10).
Proof.
  assert (Heps : 0 <= EPSILON cfg0) by (vm_compute; discriminate).
  assert (Hsm : horizon_ok sm3) by (repeat split).
  destruct (on_activation_single cfg0 "Boiler__Q_th" "OnOff" no_on_off heat heat_on heat_hours
              (Skalar 2) (Skalar 10) sm3
              (mkOnOffModel "Boiler__Q_th" "OnOff" None None None None None None None None
                 no_on_off [heat] [(np_maximum (EPSILON cfg0) (Skalar 2), Skalar 10)])
              heat_val eq_refl Hsm I I Heps) as [Hforces _].
  assert (Hf : Forall (eq_holds heat_val)
                 (emitted (_add_on_constraints cfg0 (heat_model 2 10) sm3 (indices sm3))))
    by (apply Forall_eq_check; vm_compute; reflexivity).
  split; [exact Hf | exact (Hforces Hf)].
Defined.

(** C3, as stated, fails: with [on = 1] the true bound pair [0, 10]
    admits the value 0, but the emitted constraints reject it, since
    the lower bound has been raised to [EPSILON]. *)
Lemma on_activation_lower_bound_tightened :
  idle_on_val (var_label heat_on) 0%nat == 1 /\
  0 <= idle_on_val (var_label heat) 0%nat <= 10 /\
  ~ Forall (eq_holds idle_on_val)
      (emitted (_add_on_constraints cfg0 (heat_model 0 10) sm3 (indices sm3))).
Proof.
  split; [reflexivity|]. split; [split; vm_compute; discriminate|].
  rewrite Forall_eq_check. vm_compute. discriminate.
Qed.

(** ** [BusModel.do_modeling] *)

Lemma Qsum_app l1 l2 : Qsum (l1 ++ l2) == Qsum l1 + Qsum l2.
Proof. induction l1 as [|x l1 IH]; simpl; [ring | rewrite IH; ring]. Qed.

Lemma bind_run {A B} (m : M Built A) (k : A -> M Built B) b a b' :
  m b = (Ok a, b') -> bind m k b = k a b'.
Proof. intros H. unfold bind. now rewrite H. Qed.

Lemma alter_last {A} (f : A -> A) (l : list A) (x : A) :
  alter f (Nat.pred (length (l ++ [x]))) (l ++ [x]) = l ++ [f x].
Proof.
  rewrite length_app. cbn [length].
  replace (Nat.pred (length l + 1)) with (length l + 0)%nat by lia.
  now rewrite alter_app_r.
Qed.

Lemma alter_single {A} (f : A -> A) (x : A) :
  alter f (Nat.pred (length [x])) [x] = [f x].
Proof. reflexivity. Qed.

(** The loop over the flows fills the equation created last with the
    flow rates it meets, up to the first flow without one. *)
Lemma add_flow_rates_run flows c vs es e cs ws :
  is_ok (fst (add_flow_rates flows c (mkBuilt vs (es ++ [e]) cs ws))) = all_modelled flows /\
  snd (add_flow_rates flows c (mkBuilt vs (es ++ [e]) cs ws))
  = mkBuilt vs
      (es ++ [mkEquation (eq_label e) (eq_type e)
                (summands e
                 ++ List.map (fun v => mkSummand v (Skalar c) None false) (rates_before flows))
                (constants e)])
      cs ws.
Proof.
  revert e. induction flows as [|f flows IH]; intros e; simpl.
  - rewrite app_nil_r. destruct e. split; reflexivity.
  - unfold bind at 1 3, lift. destruct (flow_rate_of f) as [v|x]; cbn [fst snd is_ok].
    + unfold bind, amend_last, modify. cbn [fst snd variables eqs share_calls warnings].
      rewrite alter_last.
      destruct (IH (add_summand e v (Skalar c) None false)) as [Hok Hst].
      rewrite Hok, Hst. cbn [add_summand eq_label eq_type summands constants List.map andb].
      rewrite <- app_assoc. split; reflexivity.
    + cbn. rewrite app_nil_r. destruct e. split; reflexivity.
Qed.

Lemma rates_before_modelled T flows :
  Forall (flow_modelled T) flows -> all_modelled flows = true /\ rates_before flows = rates flows.
Proof.
  induction 1 as [|f flows (v & Hv & _) _ [IH1 IH2]]; simpl; [split; reflexivity|].
  rewrite Hv. cbn. rewrite IH1, IH2. split; reflexivity.
Qed.

Lemma add_flow_rates_ok flows c T vs es e cs ws :
  Forall (flow_modelled T) flows ->
  add_flow_rates flows c (mkBuilt vs (es ++ [e]) cs ws)
  = (Ok tt,
     mkBuilt vs
       (es ++ [mkEquation (eq_label e) (eq_type e)
                 (summands e
                  ++ List.map (fun v => mkSummand v (Skalar c) None false) (rates flows))
                 (constants e)])
       cs ws).
Proof.
  intros H. destruct (rates_before_modelled T flows H) as [Hall Hrates].
  destruct (add_flow_rates_run flows c vs es e cs ws) as [Hok Hst].
  rewrite Hall in Hok. rewrite Hrates in Hst.
  destruct (add_flow_rates flows c _) as [[[]|x] b]; cbn in *; [|discriminate].
  now rewrite Hst.
Qed.

Lemma rates_length T flows :
  Forall (flow_modelled T) flows -> Forall (fun v => var_length v = T) (rates flows).
Proof.
  induction 1 as [|f flows (v & Hv & Hl) _ IH]; simpl; [constructor|].
  rewrite Hv. now constructor.
Qed.

Lemma Qsum_rate_summands val c vs T t :
  Forall (fun v => var_length v = T) vs -> (t < T)%nat ->
  Qsum (List.map (fun s => summand_value val s t)
          (List.map (fun v => mkSummand v (Skalar c) None false) vs))
  == c * Qsum (List.map (fun v => val (var_label v) t) vs).
Proof.
  intros H Ht. induction H as [|v vs Hv _ IH]; simpl; [ring|].
  rewrite IH, (summand_value_all val v (Skalar c) T t Hv Ht). simpl. ring.
Qed.

Lemma max_rows_all T l :
  l <> [] -> Forall (fun s => summand_rows s = T) l ->
  fold_right Nat.max 0%nat (List.map summand_rows l) = T.
Proof.
  intros Hne H. induction H as [|s l Hs Hl IH]; [congruence|].
  simpl. rewrite Hs. destruct l as [|s' l]; simpl in *; [lia|].
  rewrite IH by congruence. lia.
Qed.

Lemma rate_summands_rows T c vs :
  Forall (fun v => var_length v = T) vs ->
  Forall (fun s => summand_rows s = T)
         (List.map (fun v => mkSummand v (Skalar c) None false) vs).
Proof.
  induction 1 as [|v vs Hv _ IH]; simpl; constructor; [|assumption].
  now apply summand_rows_all.
Qed.

Lemma zip_with_nth f l1 l2 t :
  length l1 = length l2 -> (t < length l1)%nat ->
  nth t (zip_with f l1 l2) 0 = f (nth t l1 0) (nth t l2 0).
Proof.
  revert l2 t. induction l1 as [|x l1 IH]; intros [|y l2] t Hl Ht; simpl in *; try lia.
  destruct t; [reflexivity | apply IH; lia].
Qed.

Lemma zip_with_length f l1 l2 :
  length l1 = length l2 -> length (zip_with f l1 l2) = length l1.
Proof.
  revert l2. induction l1 as [|x l1 IH]; intros [|y l2] Hl; simpl in *; try lia.
  rewrite IH; lia.
Qed.

(** The penalty factor exists for a rate that fits the horizon, and is
    the step's duration times the rate at every step. *)
Lemma np_multiply_dt dt y T :
  length dt = T -> fits T y ->
  exists z, np_multiply (NArray dt) y = Ok z /\ fits T z /\
            forall t, (t < T)%nat -> bnth z t = nth t dt 0 * bnth y t.
Proof.
  intros Hdt Hy. destruct y as [b|l]; simpl in Hy.
  - exists (NArray (List.map (fun a => a * b) dt)).
    split; [destruct dt as [|a [|a' dt]]; reflexivity|].
    split; [simpl; now rewrite length_map|].
    intros t Ht. rewrite bnth_array by (rewrite length_map; lia).
    rewrite (nth_indep _ 0 (0 * b)) by (rewrite length_map; lia).
    now rewrite (map_nth (fun a => a * b)).
  - destruct dt as [|a [|a' dt]]; destruct l as [|b [|b' l]]; simpl in *; try lia.
    + exists (NArray []). subst T. repeat split. intros t Ht. lia.
    + exists (NArray [a * b]). subst T. repeat split. intros [|t] Ht; [reflexivity | lia].
    + assert (Hlen : length dt = length l) by lia.
      unfold np_multiply, np_broadcast2. simpl. rewrite Hlen, Nat.eqb_refl.
      eexists. split; [reflexivity|]. split.
      * simpl. rewrite zip_with_length; lia.
      * intros t Ht.
        change (bnth (NArray (zip_with Qmult (a :: a' :: dt) (b :: b' :: l))) t
                = nth t (a :: a' :: dt) 0 * bnth (NArray (b :: b' :: l)) t).
        rewrite !bnth_array by (simpl; rewrite ?zip_with_length; simpl; lia).
        apply zip_with_nth; simpl; lia.
Qed.

Lemma balance_row val T lbl vin vout ex t :
  Forall (fun v => var_length v = T) vin ->
  Forall (fun v => var_length v = T) vout ->
  Forall (fun s => summand_rows s = T) ex ->
  (t < T)%nat ->
  eq_holds val
    (mkEquation lbl eq_
       ((List.map (fun v => mkSummand v (Skalar 1) None false) vin ++
         List.map (fun v => mkSummand v (Skalar (-1)) None false) vout) ++ ex) []) ->
  Qsum (List.map (fun v => val (var_label v) t) vin)
  - Qsum (List.map (fun v => val (var_label v) t) vout)
  + Qsum (List.map (fun s => summand_value val s t) ex) == 0.
Proof.
  intros Hin Hout Hex Ht Heq.
  set (l := (List.map (fun v => mkSummand v (Skalar 1) None false) vin ++
             List.map (fun v => mkSummand v (Skalar (-1)) None false) vout) ++ ex) in *.
  destruct l as [|s0 l0] eqn:El.
  - subst l. apply app_eq_nil in El as [El ->]. apply app_eq_nil in El as [E1 E2].
    destruct vin; [|discriminate]. destruct vout; [|discriminate]. simpl. ring.
  - assert (Hrows : eq_rows (mkEquation lbl eq_ (s0 :: l0) []) = T).
    { unfold eq_rows. cbn [summands]. rewrite <- El. apply max_rows_all.
      - rewrite El. discriminate.
      - subst l. rewrite !Forall_app. auto using rate_summands_rows. }
    specialize (Heq t). rewrite Hrows in Heq. specialize (Heq Ht).
    unfold row_holds, lhs, rhs in Heq. cbn [eq_type summands constants] in Heq.
    rewrite <- El in Heq. subst l.
    rewrite !map_app, !Qsum_app in Heq.
    rewrite !(Qsum_rate_summands val _ _ T t) in Heq by assumption.
    simpl in Heq. lra.
Qed.

(** What [BusModel.do_modeling] builds when all flows are modelled. *)
Lemma bus_run (bus : Bus) (sm : SystemModel) :
  Forall (flow_modelled (nr_of_time_steps sm)) (inputs bus) ->
  Forall (flow_modelled (nr_of_time_steps sm)) (outputs bus) ->
  let owner := bus_label bus in
  let balance ex :=
    mkEquation (full_label owner "busBalance") eq_
      ((List.map (fun v => mkSummand v (Skalar 1) None false) (rates (inputs bus)) ++
        List.map (fun v => mkSummand v (Skalar (-1)) None false) (rates (outputs bus))) ++ ex)
      [] in
  let v_in := new_variable "excess_input" owner (nr_of_time_steps sm)
                (Some (Skalar 0)) None false None None in
  let v_out := new_variable "excess_output" owner (nr_of_time_steps sm)
                 (Some (Skalar 0)) None false None None in
  BusModel_do_modeling bus sm empty_built
  = match excess_penalty_per_flow_hour bus with
    | None => (Ok (mkBusModel None None), mkBuilt [] [balance []] [] [])
    | Some penalty =>
        match np_multiply (NArray (dt_in_hours sm)) (active_data penalty) with
        | Ok z =>
            (Ok (mkBusModel (Some v_in) (Some v_out)),
             mkBuilt [v_in; v_out]
               [balance [mkSummand v_out (Skalar (-1)) None false;
                         mkSummand v_in (Skalar 1) None false]]
               [mkShareCall to_penalty (String.append owner "__excess_input") owner []
                  z (Some v_in);
                mkShareCall to_penalty (String.append owner "__excess_output") owner []
                  z (Some v_out)]
               [])
        | Raise x => (Raise x, mkBuilt [] [balance []] [] [])
        end
    end.
Proof.
  intros Hin Hout owner balance v_in v_out. subst owner balance v_in v_out.
  unfold BusModel_do_modeling. cbv zeta.
  erewrite bind_run by reflexivity.
  erewrite bind_run by (apply (add_flow_rates_ok _ _ (nr_of_time_steps sm)); exact Hin).
  erewrite bind_run by (apply (add_flow_rates_ok _ _ (nr_of_time_steps sm)); exact Hout).
  cbn [eq_label eq_type summands constants new_equation variables eqs share_calls warnings
       empty_built app].
  destruct (excess_penalty_per_flow_hour bus) as [penalty|].
  - unfold bind at 1, lift.
    destruct (np_multiply _ _) as [z|x]; cbn [fst snd]; [|now rewrite app_nil_r].
    unfold bind, create_variable, amend_last, add_share_call, modify, ret.
    cbn [fst snd variables eqs share_calls warnings app].
    rewrite !alter_single. unfold add_summand.
    cbn [app eq_label eq_type summands constants].
    now rewrite <- app_assoc.
  - unfold ret. now rewrite app_nil_r.
Qed.

(** C6: in the model that [BusModel.do_modeling] builds, every feasible
    assignment balances the bus exactly at every step (inputs minus
    outputs, plus excess input minus excess output when excess is
    enabled); with excess enabled both excess variables are
    non-negative and each is registered as a penalty share whose factor
    is the step duration times the penalty rate. *)
Theorem bus_balance (bus : Bus) (sm : SystemModel) (val : Valuation) :
  horizon_ok sm ->
  Forall (flow_modelled (nr_of_time_steps sm)) (inputs bus) ->
  Forall (flow_modelled (nr_of_time_steps sm)) (outputs bus) ->
  match excess_penalty_per_flow_hour bus with
  | Some rate => fits (nr_of_time_steps sm) (active_data rate)
  | None => True
  end ->
  let run := BusModel_do_modeling bus sm in
  let ex_in := full_label (bus_label bus) "excess_input" in
  let ex_out := full_label (bus_label bus) "excess_output" in
  is_ok (fst (run empty_built)) = true /\
  (feasible val (snd (run empty_built)) ->
   forall t, (t < nr_of_time_steps sm)%nat ->
     flow_sum val (inputs bus) t - flow_sum val (outputs bus) t
     + (if with_excess bus then val ex_in t - val ex_out t else 0) == 0 /\
     (with_excess bus = true -> 0 <= val ex_in t /\ 0 <= val ex_out t)) /\
  match excess_penalty_per_flow_hour bus with
  | Some rate =>
      exists factor v_in v_out,
        registered run =
          [mkShareCall to_penalty (String.append (bus_label bus) "__excess_input")
                       (bus_label bus) [] factor (Some v_in);
           mkShareCall to_penalty (String.append (bus_label bus) "__excess_output")
                       (bus_label bus) [] factor (Some v_out)] /\
        var_label v_in = ex_in /\ var_label v_out = ex_out /\
        lower_bound v_in = Some (Skalar 0) /\ lower_bound v_out = Some (Skalar 0) /\
        forall t, (t < nr_of_time_steps sm)%nat ->
          bnth factor t = nth t (dt_in_hours sm) 0 * bnth (active_data rate) t
  | None => registered run = []
  end.
Proof.
  intros Hsm Hin Hout Hrate run ex_in ex_out. subst run.
  destruct Hsm as (Hidx & Hdt & Htot).
  unfold registered, with_excess.
  rewrite (bus_run bus sm Hin Hout). cbv zeta.
  pose proof (rates_length _ _ Hin) as Lin. pose proof (rates_length _ _ Hout) as Lout.
  destruct (excess_penalty_per_flow_hour bus) as [rate|].
  - destruct (np_multiply_dt _ _ _ Hdt Hrate) as (z & Hz & Hfz & Hzt).
    rewrite Hz. cbn [fst snd is_ok variables eqs share_calls]. split; [reflexivity|]. split.
    + intros [Hvars Heqs] t Ht. cbn [variables eqs] in Hvars, Heqs.
      apply Forall_cons_iff in Hvars as [Hvi Hvars].
      apply Forall_cons_iff in Hvars as [Hvo _].
      apply Forall_cons_iff in Heqs as [Heq _].
      apply (balance_row val (nr_of_time_steps sm) _ _ _ _ t Lin Lout) in Heq;
        [| repeat constructor; now apply summand_rows_all | assumption].
      cbn [List.map Qsum fold_right app] in Heq.
      rewrite !(summand_value_all val _ _ (nr_of_time_steps sm) t) in Heq by (auto; reflexivity).
      cbn [bnth var_label new_variable] in Heq.
      destruct (Hvi t Ht) as (Hli & _). destruct (Hvo t Ht) as (Hlo & _).
      cbn in Hli, Hlo. fold ex_in in Hli, Heq. fold ex_out in Hlo, Heq.
      unfold flow_sum. split; [lra | intros _; split; assumption].
    + eexists z, _, _. split; [reflexivity|]. repeat split. exact Hzt.
  - cbn [fst snd is_ok variables eqs share_calls]. split; [reflexivity|]. split; [|reflexivity].
    intros [_ Heqs] t Ht. cbn [eqs] in Heqs.
    apply Forall_cons_iff in Heqs as [Heq _].
    apply (balance_row val (nr_of_time_steps sm) _ _ _ _ t Lin Lout) in Heq;
      [| constructor | assumption].
    cbn in Heq. unfold flow_sum. split; [lra | discriminate].
Qed.

(** The heat bus with two producers, one consumer and excess in two of
    the three steps. *)
Lemma bus_balance_witness :
  feasible heat_bus_val (snd (BusModel_do_modeling heat_bus sm3 empty_built)) /\
  forall t, (t < 3)%nat ->
    flow_sum heat_bus_val (inputs heat_bus) t - flow_sum heat_bus_val (outputs heat_bus) t
    + (heat_bus_val "Heat__excess_input" t - heat_bus_val "Heat__excess_output" t) == 0 /\
    (true = true ->
     0 <= heat_bus_val "Heat__excess_input" t /\ 0 <= heat_bus_val "Heat__excess_output" t).
Proof.
  assert (Hsm : horizon_ok sm3) by (repeat split).
  assert (Hin : Forall (flow_modelled 3) (inputs heat_bus))
    by (repeat constructor; eexists; split; reflexivity).
  assert (Hout : Forall (flow_modelled 3) (outputs heat_bus))
    by (repeat constructor; eexists; split; reflexivity).
  destruct (bus_balance heat_bus sm3 heat_bus_val Hsm Hin Hout I) as (_ & Hbal & _).
  assert (Hf : feasible heat_bus_val (snd (BusModel_do_modeling heat_bus sm3 empty_built)))
    by (apply feasible_check_spec; vm_compute; reflexivity).
  split; [exact Hf | exact (Hbal Hf)].
Defined.

(** ** The segment encoding *)

Lemma one_segment_run (x y : Variable_) (as_ts : bool) outside (sm : SystemModel) element :
  var_label x <> var_label y ->
  (outside = OutsideNone \/ outside = OutsideBool false) ->
  let L := if as_ts then nr_of_time_steps sm else 1%nat in
  exists ms,
    MultipleSegmentsModel_do_modeling (one_segment element x y outside as_ts) sm empty_built
    = (Ok ms, one_segment_built element x y L) /\
    outside_segments ms = None /\
    exists seg, _segment_models ms = [seg] /\
      in_segment seg = Some (seg0_in element L) /\
      lambda0 seg = Some (seg0_lambda0 element L) /\
      lambda1 seg = Some (seg0_lambda1 element L).
Proof.
  intros Hxy Hout L.
  assert (Hyx : String.eqb (var_label x) (var_label y) = false) by now apply String.eqb_neq.
  unfold MultipleSegmentsModel_do_modeling, one_segment, MultipleSegmentsModel_init, bind, lift.
  cbn -[String.eqb full_label pretty String.append points_of].
  unfold points_of. cbn [find fst sample_points].
  rewrite !String.eqb_refl, Hyx.
  destruct Hout as [-> | ->]; cbn -[String.eqb full_label pretty String.append];
    (eexists; split; [reflexivity|]; split; [reflexivity|];
     eexists; repeat split).
Qed.

Lemma plain_term_rows L s : plain_term L s -> summand_rows s = L.
Proof.
  destruct s as [v f i a]. intros (Hi & Ha & Hv & Hf). simpl in *. subst i a.
  now apply summand_rows_all.
Qed.

Lemma plain_term_value val L s t :
  plain_term L s -> (t < L)%nat -> summand_value val s t == term_at val t s.
Proof.
  destruct s as [v f i a]. intros (Hi & Ha & Hv & Hf) Ht. simpl in *. subst i a.
  now apply summand_value_all with (n := L).
Qed.

Lemma Qsum_plain_terms val L l t :
  Forall (plain_term L) l -> (t < L)%nat ->
  Qsum (List.map (fun s => summand_value val s t) l) == Qsum (List.map (term_at val t) l).
Proof.
  intros H Ht. induction H as [|s l Hs _ IH]; simpl; [reflexivity|].
  now rewrite IH, (plain_term_value val L s t Hs Ht).
Qed.

(** An equation of plain terms holds row by row over the [L] steps. *)
Lemma plain_equation_row val L e t :
  summands e <> [] -> Forall (plain_term L) (summands e) ->
  eq_holds val e -> (t < L)%nat ->
  match eq_type e with
  | eq_ => Qsum (List.map (term_at val t) (summands e)) == rhs e t
  | ineq => Qsum (List.map (term_at val t) (summands e)) <= rhs e t
  end.
Proof.
  intros Hne Hpl He Ht.
  assert (Hrows : eq_rows e = L).
  { unfold eq_rows. apply max_rows_all; [assumption|].
    eapply Forall_impl; [|exact Hpl]. apply plain_term_rows. }
  specialize (He t). rewrite Hrows in He. specialize (He Ht).
  unfold row_holds, lhs in He.
  destruct (eq_type e); rewrite (Qsum_plain_terms val L _ t Hpl Ht) in He; exact He.
Qed.

Ltac plain_terms :=
  repeat constructor; simpl; auto with fits.

(** C5: for one segment from (0, 0) to (10, 100) with values outside
    the segment disallowed, the model is built without error, and in
    every feasible assignment a step with input 5 has [in_segment = 1],
    [lambda0 + lambda1 = 1] and output exactly 50. *)
Theorem single_segment_resolves (element : string) (x y : Variable_) (as_ts : bool)
    (outside : CanBeOutside) (sm : SystemModel) :
  var_label x <> var_label y ->
  (outside = OutsideNone \/ outside = OutsideBool false) ->
  let L := if as_ts then nr_of_time_steps sm else 1%nat in
  var_length x = L -> var_length y = L ->
  let run := MultipleSegmentsModel_do_modeling (one_segment element x y outside as_ts) sm in
  exists ms seg v_in l0 l1,
    fst (run empty_built) = Ok ms /\
    _segment_models ms = [seg] /\
    in_segment seg = Some v_in /\ lambda0 seg = Some l0 /\ lambda1 seg = Some l1 /\
    forall val, feasible val (snd (run empty_built)) ->
      forall t, (t < L)%nat ->
        val (var_label x) t == 5 ->
        val (var_label v_in) t == 1 /\
        val (var_label l0) t + val (var_label l1) t == 1 /\
        val (var_label y) t == 50.
Proof.
  intros Hxy Hout L Hx Hy run. subst run.
  destruct (one_segment_run x y as_ts outside sm element Hxy Hout)
    as (ms & Hrun & _ & seg & Hseg & Hin & Hl0 & Hl1).
  fold L in Hrun, Hin, Hl0, Hl1.
  exists ms, seg, (seg0_in element L), (seg0_lambda0 element L), (seg0_lambda1 element L).
  rewrite Hrun. repeat (split; [assumption || reflexivity|]).
  intros val [_ Heqs] t Ht Hx5. cbn [snd one_segment_built eqs] in Heqs.
  apply Forall_cons_iff in Heqs as [E1 Heqs].
  apply Forall_cons_iff in Heqs as [E2 Heqs].
  apply Forall_cons_iff in Heqs as [E3 Heqs].
  apply Forall_cons_iff in Heqs as [E4 _].
  apply (plain_equation_row val L _ t) in E1; [| discriminate | plain_terms | assumption].
  apply (plain_equation_row val L _ t) in E2; [| discriminate | plain_terms | assumption].
  apply (plain_equation_row val L _ t) in E3; [| discriminate | plain_terms | assumption].
  apply (plain_equation_row val L _ t) in E4; [| discriminate | plain_terms | assumption].
  unfold term_at, rhs in *.
  cbn [eq_type summands constants List.map Qsum fold_right s_factor s_var bnth] in *.
  repeat split; lra.
Qed.

(** The segment with input 5: both weights 1/2, output 50. *)
Lemma single_segment_resolves_witness :
  feasible seg_val
    (snd (MultipleSegmentsModel_do_modeling
            (one_segment "Boiler" seg_x seg_y OutsideNone true) sm3 empty_built)) /\
  seg_val "Boiler__Segment_0__inSegment" 0%nat == 1 /\
  seg_val "Boiler__Segment_0__lambda0" 0%nat + seg_val "Boiler__Segment_0__lambda1" 0%nat == 1 /\
  seg_val "Boiler__Q_th__flow_rate" 0%nat == 50.
Proof.
  assert (Hxy : var_label seg_x <> var_label seg_y) by (vm_compute; discriminate).
  destruct (single_segment_resolves "Boiler" seg_x seg_y true OutsideNone sm3
              Hxy (or_introl eq_refl) eq_refl eq_refl)
    as (ms & seg & v_in & l0 & l1 & Hms & Hseg & Hin & Hl0 & Hl1 & H).
  vm_compute in Hms. injection Hms as <-.
  cbn [_segment_models] in Hseg. injection Hseg as <-.
  cbn [in_segment lambda0 lambda1] in Hin, Hl0, Hl1.
  injection Hin as <-. injection Hl0 as <-. injection Hl1 as <-.
  assert (Hf : feasible seg_val
                 (snd (MultipleSegmentsModel_do_modeling
                         (one_segment "Boiler" seg_x seg_y OutsideNone true) sm3 empty_built)))
    by (apply feasible_check_spec; vm_compute; reflexivity).
  split; [exact Hf|].
  apply (H seg_val Hf 0%nat); [simpl; lia | reflexivity].
Defined.

(** ** [OnOffModel._get_duration_in_hours] *)

Section Duration.
Variable cfg : Config.
Variable self : OnOffModel.
Variable label : string.
Variable bv : Variable_.
Variable sm : SystemModel.
Variables (dt0 p : Q) (dts : list Q).
Hypothesis Hsteps : nr_of_time_steps sm = S (length dts).
Hypothesis Hidx : indices sm = seq 0 (S (length dts)).
Hypothesis Hdt : dt_in_hours sm = dt0 :: dts.
Hypothesis Hprev :
  get_consecutive_duration cfg (previous_values bv) (previous_dt_in_hours sm) = Ok p.

Let mega := (dt_in_hours_total sm + p)%Q.
Let d := duration_variable (oo_owner self) label (S (length dts)) mega p.

Lemma duration_run :
  _get_duration_in_hours cfg self label (Some bv) None None sm (indices sm) empty_built
  = (Ok d, mkBuilt [d] (duration_equations (oo_owner self) d bv mega p dt0 dts) [] []).
Proof using Hsteps Hidx Hdt Hprev.
  unfold _get_duration_in_hours, bind, lift, need, ret.
  rewrite Hprev, Hidx, Hdt, Hsteps.
  cbn -[String.append full_label Qmult Qplus seq].
  rewrite slice_from1_seq, slice_to_last_seq. simpl Nat.sub. rewrite Nat.sub_0_r.
  reflexivity.
Qed.
End Duration.

(** The rows of an equation whose terms range over index lists [seq a n]. *)
Ltac rows_in H :=
  unfold eq_holds, eq_rows in H; cbn [summands List.map fold_right] in H;
  repeat rewrite summand_rows_seq in H by auto with fits;
  rewrite ?Nat.max_0_r in H; repeat rewrite Nat.max_id in H.

(** The counter starts at the carried duration plus the first step when
    the binary is 1 and at 0 otherwise; afterwards it is 0 wherever the
    binary is 0 and grows by the step's duration wherever it is 1. *)
Lemma duration_recurrence owner label (bv : Variable_) (mega p dt0 : Q) (dts : list Q) val :
  var_length bv = S (length dts) ->
  let d := duration_variable owner label (S (length dts)) mega p in
  feasible val (mkBuilt [d] (duration_equations owner d bv mega p dt0 dts) [] []) ->
  val (var_label d) 0%nat == (dt0 + p) * val (var_label bv) 0%nat /\
  forall r, (r < length dts)%nat ->
    (val (var_label bv) (S r) == 0 -> val (var_label d) (S r) == 0) /\
    (val (var_label bv) (S r) == 1 ->
       val (var_label d) (S r) == val (var_label d) r + nth r dts 0).
Proof.
  intros Hbv d [Hvars Heqs]. cbn [variables eqs duration_equations] in *.
  apply Forall_cons_iff in Hvars as [Hd _].
  apply Forall_cons_iff in Heqs as [C1 Heqs].
  apply Forall_cons_iff in Heqs as [C2a Heqs].
  apply Forall_cons_iff in Heqs as [C2b Heqs].
  apply Forall_cons_iff in Heqs as [C4 _].
  split.
  - specialize (C4 0%nat). unfold eq_rows, row_holds, lhs, rhs in C4.
    cbn in C4. specialize (C4 ltac:(lia)).
    change (var_label d) with (full_label owner label). lra.
  - intros r Hr.
    apply (plain_equation_row val (S (length dts)) _ (S r)) in C1 as Hrow1;
      [| discriminate | plain_terms | lia].
    unfold term_at, rhs in Hrow1.
    cbn [eq_type summands constants List.map Qsum fold_right s_factor s_var bnth] in Hrow1.
    destruct (Hd (S r) ltac:(simpl; lia)) as (Hlo & _). cbn in Hlo.
    rows_in C2a. rows_in C2b.
    specialize (C2a r Hr). specialize (C2b r Hr).
    unfold row_holds, lhs, rhs in C2a, C2b.
    cbn [eq_type summands constants List.map Qsum fold_right] in C2a, C2b.
    repeat rewrite summand_value_seq in C2a by assumption.
    repeat rewrite summand_value_seq in C2b by assumption.
    unfold np_shift, np_scale in C2b.
    repeat rewrite (bnth_np_map _ _ (length dts)) in C2b by auto with fits.
    rewrite bnth_array in C2a, C2b by assumption.
    cbn [bnth Nat.add] in C2a, C2b.
    change (var_label d) with (full_label owner label) in *.
    split; intros Hon; rewrite Hon in *; lra.
Qed.

Ltac duration_step Hrec Hon r :=
  let Hz := fresh "Hz" in
  let Ho := fresh "Ho" in
  let Hv := fresh "Hv" in
  destruct (Hrec r ltac:(simpl; lia)) as [Hz Ho];
  pose proof (Hon (S r) ltac:(lia)) as Hv;
  cbn [nth on_example] in Hv;
  first [ specialize (Hz Hv); clear Ho | specialize (Ho Hv); clear Hz ];
  cbn [nth] in *.

(** The expected durations satisfy the declaration of the duration
    variable and the four equations. *)
Lemma duration_example_feasible owner label (bv : Variable_) (mega p : Q) :
  var_length bv = 11%nat ->
  let d := duration_variable owner label 11 mega p in
  var_label bv <> var_label d ->
  mega == 11 -> p == 0 ->
  let val := two_series (var_label d) duration_example (var_label bv) on_example in
  feasible val (mkBuilt [d] (duration_equations owner d bv mega p 1 (repeat 1 10)) [] []).
Proof.
  intros Hbv d Hne Hmega Hp val.
  assert (Vd : forall t, val (var_label d) t = nth t duration_example 0).
  { intros t. unfold val, two_series. now rewrite String.eqb_refl. }
  assert (Vb : forall t, val (var_label bv) t = nth t on_example 0).
  { intros t. unfold val, two_series.
    apply String.eqb_neq in Hne. now rewrite Hne, String.eqb_refl. }
  split; cbn [variables eqs duration_equations repeat length].
  - constructor; [|constructor]. intros i Hi. change (var_length d) with 11%nat in Hi.
    repeat split; cbn [opt_bound lower_bound upper_bound fixed_value is_binary bnth d
                       duration_variable new_variable]; try exact I; try discriminate;
      change (full_label owner label) with (var_label d); rewrite Vd;
      do 11 (destruct i as [|i]; [cbn [nth duration_example]; lra|]); exfalso; lia.
  - repeat apply Forall_cons; try apply Forall_nil; intros r Hr;
      unfold eq_rows, summand_rows, selected in Hr;
      cbn [summands List.map fold_right s_as_sum s_indices s_var var_length d
           duration_variable new_variable seq length numeric_len s_factor] in Hr;
      rewrite ?Hbv in Hr; cbn [seq length Nat.max] in Hr;
      unfold row_holds, lhs, rhs, summand_value, selected, np_shift, np_scale;
      cbn [eq_type summands constants List.map fold_right Qsum s_as_sum s_indices s_var
           s_factor np_map d duration_variable new_variable var_length seq];
      rewrite ?Hbv; cbn [seq].
    all: do 11 (destruct r as [|r];
             [ first [ exfalso; lia
                     | cbn [index_at nth bnth length seq]; rewrite ?Vd, ?Vb;
                       change (var_label (new_variable label owner 11 (Some (Skalar 0))
                                            (Some (Skalar mega)) false None (Some (Skalar p))))
                         with (var_label d);
                       rewrite ?Vd, ?Vb; cbn [nth duration_example on_example]; lra ] | ]).
    all: exfalso; lia.
Qed.

(** C1: with the previous carried duration 0, no minimum and no maximum
    duration and eleven steps of one hour, [_get_duration_in_hours]
    returns a duration variable; every assignment that satisfies what
    it declared and emitted and has the binary fixed to
    [0,0,1,1,1,1,0,1,1,1,0] gives the durations
    [0,0,1,2,3,4,0,1,2,3,0], and such an assignment exists. *)
Theorem duration_counter_example (cfg : Config) (self : OnOffModel) (label : string)
    (bv : Variable_) (sm : SystemModel) (p : Q) :
  nr_of_time_steps sm = 11%nat ->
  indices sm = seq 0 11 ->
  dt_in_hours sm = repeat 1 11 ->
  dt_in_hours_total sm == 11 ->
  var_length bv = 11%nat ->
  var_label bv <> full_label (oo_owner self) label ->
  get_consecutive_duration cfg (previous_values bv) (previous_dt_in_hours sm) = Ok p ->
  p == 0 ->
  let run := _get_duration_in_hours cfg self label (Some bv) None None sm (indices sm) in
  exists d,
    fst (run empty_built) = Ok d /\
    (forall val,
       feasible val (snd (run empty_built)) ->
       (forall t, (t < 11)%nat -> val (var_label bv) t == nth t on_example 0) ->
       forall t, (t < 11)%nat -> val (var_label d) t == nth t duration_example 0) /\
    (exists val,
       feasible val (snd (run empty_built)) /\
       (forall t, (t < 11)%nat -> val (var_label bv) t == nth t on_example 0) /\
       (forall t, (t < 11)%nat -> val (var_label d) t == nth t duration_example 0)).
Proof.
  intros Hsteps Hidx Hdt Htot Hbv Hne Hprev Hp run. subst run.
  rewrite (duration_run cfg self label bv sm 1 p (repeat 1 10) Hsteps Hidx Hdt Hprev).
  eexists. split; [reflexivity|]. split.
  - intros val Hf Hon. cbn [snd] in Hf.
    apply duration_recurrence in Hf; [|exact Hbv].
    cbn [repeat length] in Hf. destruct Hf as [H0 Hrec].
    cbn [var_label duration_variable new_variable] in H0, Hrec |- *.
    pose proof (Hon 0%nat ltac:(lia)) as Hv0. cbn [nth on_example] in Hv0.
    rewrite Hv0 in H0.
    duration_step Hrec Hon 0%nat. duration_step Hrec Hon 1%nat.
    duration_step Hrec Hon 2%nat. duration_step Hrec Hon 3%nat.
    duration_step Hrec Hon 4%nat. duration_step Hrec Hon 5%nat.
    duration_step Hrec Hon 6%nat. duration_step Hrec Hon 7%nat.
    duration_step Hrec Hon 8%nat. duration_step Hrec Hon 9%nat.
    intros t Ht.
    do 11 (destruct t as [|t]; [cbn [nth duration_example]; lra|]). lia.
  - cbn [snd repeat length].
    exists (two_series (full_label (oo_owner self) label) duration_example
                       (var_label bv) on_example).
    split; [|split].
    + apply (duration_example_feasible (oo_owner self) label bv _ p Hbv Hne);
        [rewrite Htot, Hp; reflexivity | exact Hp].
    + intros t _. unfold two_series.
      apply String.eqb_neq in Hne. rewrite Hne, String.eqb_refl. reflexivity.
    + intros t _. unfold two_series. cbn [var_label duration_variable new_variable].
      rewrite String.eqb_refl. reflexivity.
Qed.

(** The expected durations satisfy what [_get_duration_in_hours]
    declares and emits, so they are the one solution. *)
Lemma duration_counter_example_witness :
  feasible unit_val
    (snd (_get_duration_in_hours cfg0 unit_model "consecutiveOnHours" (Some unit_on)
            None None sm11 (indices sm11) empty_built)) /\
  forall t, (t < 11)%nat ->
    unit_val "Boiler__OnOff__consecutiveOnHours" t == nth t duration_example 0.
Proof.
  assert (Hne : var_label unit_on <> full_label (oo_owner unit_model) "consecutiveOnHours")
    by (vm_compute; discriminate).
  destruct (duration_counter_example cfg0 unit_model "consecutiveOnHours" unit_on sm11 0
              eq_refl eq_refl eq_refl (Qeq_refl 11) eq_refl Hne eq_refl (Qeq_refl 0))
    as (d & Hd & H & _).
  vm_compute in Hd. injection Hd as <-.
  assert (Hf : feasible unit_val
                 (snd (_get_duration_in_hours cfg0 unit_model "consecutiveOnHours"
                         (Some unit_on) None None sm11 (indices sm11) empty_built)))
    by (apply feasible_check_spec; vm_compute; reflexivity).
  split; [exact Hf|].
  apply (H unit_val Hf). intros t Ht.
  do 11 (destruct t as [|t]; [reflexivity|]). lia.
Defined.

(** ** [OnOffModel._add_switch_constraints] *)

Lemma switch_run (self : OnOffModel) (sm : SystemModel) (on_v son soff nr : Variable_) (q : Q) :
  indices sm = seq 0 (nr_of_time_steps sm) ->
  on self = Some on_v -> switch_on self = Some son ->
  switch_off self = Some soff -> nr_switch_on self = Some nr ->
  previous_last on_v = Ok q ->
  _add_switch_constraints self sm empty_built
  = (Ok tt, mkBuilt [] (switch_equations (oo_owner self) on_v son soff nr
                          (nr_of_time_steps sm) q) [] []).
Proof.
  intros Hidx Hon Hson Hsoff Hnr Hq.
  unfold _add_switch_constraints, bind, lift, need, ret.
  rewrite Hon, Hson, Hsoff, Hnr, Hq, Hidx, slice_from1_seq, slice_to_last_seq.
  reflexivity.
Qed.

Ltac binary_cases H t :=
  let Hb := fresh "Hb" in
  destruct (H t ltac:(lia)) as (_ & _ & _ & Hb);
  specialize (Hb ltac:(assumption)).

(** C2: for five steps with [on] fixed to [0,1,1,0,1] and the last
    on-value of the previous horizon 0, [_add_switch_constraints]
    succeeds, and every assignment that satisfies the emitted equations
    with binary [switch_on] and [switch_off] has [switch_on = 1] exactly
    at steps 1 and 4, [switch_off = 1] exactly at step 3, and
    [nr_switch_on = 2]. *)
Theorem switch_counting_example (self : OnOffModel) (sm : SystemModel)
    (on_v son soff nr : Variable_) (q : Q) :
  nr_of_time_steps sm = 5%nat ->
  indices sm = seq 0 5 ->
  on self = Some on_v -> switch_on self = Some son ->
  switch_off self = Some soff -> nr_switch_on self = Some nr ->
  var_length son = 5%nat -> var_length soff = 5%nat -> var_length nr = 1%nat ->
  is_binary son = true -> is_binary soff = true ->
  previous_last on_v = Ok q -> q == 0 ->
  let run := _add_switch_constraints self sm in
  fst (run empty_built) = Ok tt /\
  forall val,
    Forall (eq_holds val) (emitted run) ->
    var_ok val son -> var_ok val soff ->
    (forall t, (t < 5)%nat -> val (var_label on_v) t == nth t on_switching 0) ->
    (forall t, (t < 5)%nat -> val (var_label son) t == nth t switch_on_expected 0) /\
    (forall t, (t < 5)%nat -> val (var_label soff) t == nth t switch_off_expected 0) /\
    val (var_label nr) 0%nat == 2.
Proof.
  intros Hsteps Hidx Hon Hson Hsoff Hnr Lson Lsoff Lnr Bson Bsoff Hq Hq0 run. subst run.
  unfold emitted.
  rewrite (switch_run self sm on_v son soff nr q) by (rewrite ?Hsteps; assumption).
  rewrite Hsteps. split; [reflexivity|].
  intros val Heqs Vson Vsoff Hval. cbn [snd eqs switch_equations] in Heqs.
  apply Forall_cons_iff in Heqs as [E1 Heqs].
  apply Forall_cons_iff in Heqs as [E2 Heqs].
  apply Forall_cons_iff in Heqs as [E3 Heqs].
  apply Forall_cons_iff in Heqs as [E4 _].
  (* the on-values *)
  pose proof (Hval 0%nat ltac:(lia)) as O0. pose proof (Hval 1%nat ltac:(lia)) as O1.
  pose proof (Hval 2%nat ltac:(lia)) as O2. pose proof (Hval 3%nat ltac:(lia)) as O3.
  pose proof (Hval 4%nat ltac:(lia)) as O4. cbn [nth on_switching] in O0, O1, O2, O3, O4.
  (* the balance of every step *)
  unfold eq_holds, eq_rows, row_holds, lhs, rhs, summand_value, summand_rows, selected in E1, E2, E3, E4.
  cbn [summands constants eq_type List.map fold_right Qsum s_indices s_as_sum s_var
       s_factor seq Nat.sub length numeric_len bnth index_at nth Nat.max] in E1, E2, E3, E4.
  rewrite ?Lson, ?Lsoff, ?Lnr in E3. rewrite ?Lson, ?Lsoff, ?Lnr in E4.
  cbn [seq length numeric_len bnth index_at nth Nat.max List.map fold_right Qsum] in E3, E4.
  pose proof (E1 0%nat ltac:(lia)) as S1. pose proof (E1 1%nat ltac:(lia)) as S2.
  pose proof (E1 2%nat ltac:(lia)) as S3. pose proof (E1 3%nat ltac:(lia)) as S4.
  pose proof (E2 0%nat ltac:(lia)) as S0.
  pose proof (E3 0%nat ltac:(lia)) as X0. pose proof (E3 1%nat ltac:(lia)) as X1.
  pose proof (E3 2%nat ltac:(lia)) as X2. pose proof (E3 3%nat ltac:(lia)) as X3.
  pose proof (E3 4%nat ltac:(lia)) as X4.
  pose proof (E4 0%nat ltac:(lia)) as N.
  cbn [nth] in S0, S1, S2, S3, S4, X0, X1, X2, X3, X4, N.
  clear E1 E2 E3 E4.
  (* binary switch variables *)
  unfold var_ok in Vson, Vsoff. rewrite Lson in Vson. rewrite Lsoff in Vsoff.
  assert (A0 : val (var_label son) 0%nat == 0 /\ val (var_label soff) 0%nat == 0).
  { binary_cases Vson 0%nat. binary_cases Vsoff 0%nat.
    destruct Hb as [Hb|Hb], Hb0 as [Hb0|Hb0]; split; lra. }
  assert (A1 : val (var_label son) 1%nat == 1 /\ val (var_label soff) 1%nat == 0).
  { binary_cases Vson 1%nat. binary_cases Vsoff 1%nat.
    destruct Hb as [Hb|Hb], Hb0 as [Hb0|Hb0]; split; lra. }
  assert (A2 : val (var_label son) 2%nat == 0 /\ val (var_label soff) 2%nat == 0).
  { binary_cases Vson 2%nat. binary_cases Vsoff 2%nat.
    destruct Hb as [Hb|Hb], Hb0 as [Hb0|Hb0]; split; lra. }
  assert (A3 : val (var_label son) 3%nat == 0 /\ val (var_label soff) 3%nat == 1).
  { binary_cases Vson 3%nat. binary_cases Vsoff 3%nat.
    destruct Hb as [Hb|Hb], Hb0 as [Hb0|Hb0]; split; lra. }
  assert (A4 : val (var_label son) 4%nat == 1 /\ val (var_label soff) 4%nat == 0).
  { binary_cases Vson 4%nat. binary_cases Vsoff 4%nat.
    destruct Hb as [Hb|Hb], Hb0 as [Hb0|Hb0]; split; lra. }
  destruct A0, A1, A2, A3, A4.
  split; [|split].
  - intros t Ht. do 5 (destruct t as [|t]; [cbn [nth switch_on_expected]; lra|]). lia.
  - intros t Ht. do 5 (destruct t as [|t]; [cbn [nth switch_off_expected]; lra|]). lia.
  - lra.
Qed.

(** The switch variables of a model built by [OnOffModel.do_modeling]
    as a whole; the stated assignment is feasible for all of it. *)
Lemma switch_counting_example_witness :
  feasible switch_val (snd switch_built) /\
  (forall t, (t < 5)%nat -> switch_val "Boiler__OnOff__switchOn" t == nth t switch_on_expected 0) /\
  (forall t, (t < 5)%nat -> switch_val "Boiler__OnOff__switchOff" t == nth t switch_off_expected 0) /\
  switch_val "Boiler__OnOff__nrSwitchOn" 0%nat == 2.
Proof.
  assert (Hf : feasible switch_val (snd switch_built))
    by (apply feasible_check_spec; vm_compute; reflexivity).
  split; [exact Hf|].
  destruct (switch_counting_example switch_model sm5
              (new_variable "on" "Boiler__OnOff" 5 None None true None (Some (NArray [0])))
              (new_variable "switchOn" "Boiler__OnOff" 5 None None true None None)
              (new_variable "switchOff" "Boiler__OnOff" 5 None None true None None)
              (new_variable "nrSwitchOn" "Boiler__OnOff" 1 None None false None None)
              0 eq_refl eq_refl eq_refl eq_refl eq_refl eq_refl eq_refl eq_refl eq_refl
              eq_refl eq_refl eq_refl (Qeq_refl 0)) as [_ H].
  apply (H switch_val).
  - apply Forall_eq_check. vm_compute. reflexivity.
  - apply var_check_spec. vm_compute. reflexivity.
  - apply var_check_spec. vm_compute. reflexivity.
  - intros t Ht. do 5 (destruct t as [|t]; [reflexivity|]). lia.
Defined.

(** ** [Flow.__init__] *)

Lemma size_or_default_falsy cfg s :
  size_none_or_zero s -> size_or_default cfg s = SizeSkalar (BIG cfg).
Proof.
  intros [-> | (q & -> & Hq)]; [reflexivity|].
  unfold size_or_default, size_truthy.
  apply Qeq_bool_iff in Hq. now rewrite Hq.
Qed.

(** C9: a flow constructed with [size] equal to [None] or to 0 stores
    the default [CONFIG.modeling.BIG] as its size. Without a fixed
    profile the construction succeeds whenever no relative minimum
    exceeds the relative maximum; with a fixed profile the default size
    lets no flow be constructed at all, since the constructor fails at
    the latest when it formats its warning, and nothing is logged. *)
Theorem flow_size_defaults_to_big (cfg : Config) (label bus : string)
    (size_arg : option FlowSize) (profile : option Numeric)
    (rel_min rel_max : Numeric) (effects : option EffectValues)
    (on_off : option OnOffParameters) (fh_max fh_min lf_min lf_max : option Q)
    (previous : option Numeric) (log : list string) :
  size_none_or_zero size_arg ->
  let construct :=
    Flow_init cfg label bus size_arg profile rel_min rel_max effects on_off
              fh_max fh_min lf_min lf_max previous log in
  (forall f, fst construct = Ok f -> size f = SizeSkalar (BIG cfg)) /\
  (np_any_gt rel_min rel_max = Ok false -> profile = None ->
   exists f, fst construct = Ok f /\ size f = SizeSkalar (BIG cfg)) /\
  (is_some profile = true -> raises (fst construct) /\ snd construct = log).
Proof.
  intros Hs construct. subst construct.
  unfold Flow_init, Flow_plausibility_checks, Flow_format, Flow_infos, Flow_is_input_in_comp,
    bind, lift, ret, throw, modify.
  cbn [relative_minimum relative_maximum size fixed_relative_profile comp].
  rewrite (size_or_default_falsy cfg size_arg Hs).
  cbn [size_is_BIG]. rewrite Qeq_bool_refl. cbn [andb].
  split; [|split].
  - intros f. destruct (np_any_gt rel_min rel_max) as [[|]|e]; cbn; try discriminate.
    destruct (is_some profile); cbn; [discriminate|].
    intros [= Hf]; rewrite <- Hf; reflexivity.
  - intros -> ->. cbn. eexists; split; reflexivity.
  - intros ->. destruct (np_any_gt rel_min rel_max) as [[|]|e]; cbn; split; auto.
Qed.

(** A flow constructed with [size = 0]. *)
Lemma flow_size_defaults_to_big_witness :
  exists f,
    fst (Flow_init cfg0 "Q_th" "Heat" (Some (SizeSkalar 0)) None (Skalar 0) (Skalar 1)
           None None None None None None None []) = Ok f /\
    size f = SizeSkalar (BIG cfg0).
Proof.
  exact (proj1 (proj2 (flow_size_defaults_to_big cfg0 "Q_th" "Heat" (Some (SizeSkalar 0)) None
                         (Skalar 0) (Skalar 1) None None None None None None None []
                         (or_intror (ex_intro _ 0 (conj eq_refl (Qeq_refl 0))))))
               eq_refl eq_refl).
Defined.

(** ** The share ledger *)

Lemma SingleShareModel_init_raises element name variable factor share_as_sum :
  raises (SingleShareModel_init element name variable factor share_as_sum) <->
  sums_scalar variable share_as_sum \/ uncovered_constant variable factor share_as_sum.
Proof.
  unfold SingleShareModel_init, sums_scalar, uncovered_constant.
  destruct variable as [v|].
  - destruct (Nat.eqb (var_length v) 1) eqn:Hl, share_as_sum; cbn;
      (split;
       [ first [ tauto | intros _; left; exists v; apply Nat.eqb_eq in Hl; auto ]
       | intros [(v' & Hv' & Hlen & Hs) | (Hn & Hf & Hs)];
         first [ exact I | discriminate
               | injection Hv' as <-; apply Nat.eqb_neq in Hl; contradiction ] ]).
  - destruct share_as_sum, (np_isscalar factor); cbn;
      (split;
       [ first [ tauto | intros _; right; auto ]
       | intros [(v' & Hv' & Hlen & Hs) | (Hn & Hf & Hs)];
         first [ exact I | discriminate ] ]).
Qed.

Lemma SingleShareModel_init_label element name variable factor share_as_sum m :
  SingleShareModel_init element name variable factor share_as_sum = Ok m ->
  ss_label m = name.
Proof.
  unfold SingleShareModel_init.
  destruct variable as [v|].
  - destruct (Nat.eqb (var_length v) 1), share_as_sum; cbn; intros [= <-]; reflexivity.
  - destruct share_as_sum, (np_isscalar factor); cbn; intros [= <-]; reflexivity.
Qed.

Lemma target_eq_modelled s b : ledger_modelled s -> exists e, target_eq s b = Some e.
Proof.
  intros [Hs Hts]. unfold target_eq, targets_sum.
  destruct b; cbn.
  - destruct (_eq_sum s); [eauto | discriminate].
  - destruct (_shares_are_time_series s); cbn.
    + destruct (_eq_time_series s); [eauto | now specialize (Hts eq_refl)].
    + destruct (_eq_sum s); [eauto | discriminate].
Qed.

Lemma target_eq_set b e s m :
  target_eq (append_sub_model m (set_target_eq b e s)) b = Some e.
Proof.
  destruct s as [el lbl ts sm sh ets esum are_ts tmax tmin pmax pmin subs].
  destruct b, are_ts; reflexivity.
Qed.

(** What [add_share] does, by cases. *)
Lemma add_share_run sm name variable factor share_as_sum s e :
  target_eq s share_as_sum = Some e ->
  add_share sm name variable factor share_as_sum s =
  match SingleShareModel_init (sa_element s) name variable factor share_as_sum with
  | Raise x => (Raise x, s)
  | Ok m =>
      let s1 := append_sub_model m
                  (set_target_eq share_as_sum
                     (add_summand e (single_share m) (Skalar 1) None false) s) in
      if is_some (shares s !! name)
      then (Raise (AssertionError "A Share with the label was already present"), s1)
      else (Ok tt, set_share name (single_share m) s1)
  end.
Proof.
  intros He. unfold add_share, bind, gets, lift, need, modify, assert_, ret, throw.
  rewrite He.
  destruct (SingleShareModel_init _ _ _ _ _) as [m|x] eqn:Hm; [|reflexivity].
  rewrite (SingleShareModel_init_label _ _ _ _ _ _ Hm). cbn.
  destruct (is_some (shares s !! name)); reflexivity.
Qed.

Lemma add_share_unmodelled sm name variable factor share_as_sum s :
  target_eq s share_as_sum = None ->
  raises (fst (add_share sm name variable factor share_as_sum s)).
Proof.
  intros He. unfold add_share, bind, gets, lift, need, throw. rewrite He.
  destruct (SingleShareModel_init _ _ _ _ _); exact I.
Qed.

(** C7 (amended): [add_share] fails whenever a variable of length 1 is
    to be time-summed, or a constant share (no variable) has a
    non-scalar factor and is not summed, or the name is already
    present; for a well-formed share it fails in these cases only, and
    in every other case it succeeds and records the new share's
    variable under its name. *)
Theorem add_share_fails_iff (sm : SystemModel) (name : string)
    (variable : option Variable_) (factor : Numeric) (share_as_sum : bool)
    (s : ShareAllocationModel) :
  let run := add_share sm name variable factor share_as_sum s in
  (sums_scalar variable share_as_sum \/
   uncovered_constant variable factor share_as_sum \/
   name_taken s name -> raises (fst run)) /\
  (share_well_formed (nr_of_time_steps sm) s variable factor share_as_sum ->
   (raises (fst run) <->
      sums_scalar variable share_as_sum \/
      uncovered_constant variable factor share_as_sum \/
      name_taken s name) /\
   (~ raises (fst run) ->
    exists m,
      SingleShareModel_init (sa_element s) name variable factor share_as_sum = Ok m /\
      fst run = Ok tt /\
      shares (snd run) = <[name := single_share m]> (shares s) /\
      shares (snd run) !! name = Some (single_share m))).
Proof.
  intros run. subst run.
  pose proof (SingleShareModel_init_raises (sa_element s) name variable factor share_as_sum)
    as Hinit.
  assert (Hfails : sums_scalar variable share_as_sum \/
                   uncovered_constant variable factor share_as_sum \/
                   name_taken s name ->
                   raises (fst (add_share sm name variable factor share_as_sum s))).
  { intros Hcase. destruct (target_eq s share_as_sum) as [e|] eqn:He;
      [|now apply add_share_unmodelled].
    rewrite (add_share_run sm name variable factor share_as_sum s e He).
    unfold name_taken in Hcase.
    destruct (SingleShareModel_init _ _ _ _ _) as [m|x]; cbn in Hinit |- *; [|exact I].
    destruct (is_some (shares s !! name)); cbn; [exact I|].
    destruct Hcase as [H|[H|H]]; [apply Hinit; auto | apply Hinit; auto | discriminate]. }
  split; [exact Hfails|].
  intros (_ & Hs & _ & _).
  split; [split; [|exact Hfails]|].
  - destruct (target_eq_modelled s share_as_sum Hs) as (e & He).
    rewrite (add_share_run sm name variable factor share_as_sum s e He).
    unfold name_taken.
    destruct (SingleShareModel_init _ _ _ _ _) as [m|x]; cbn in Hinit |- *.
    + destruct (is_some (shares s !! name)); cbn; [auto | intros []].
    + intros _. destruct (proj1 Hinit I) as [H|H]; auto.
  - destruct (target_eq_modelled s share_as_sum Hs) as (e & He).
    rewrite (add_share_run sm name variable factor share_as_sum s e He).
    destruct (SingleShareModel_init _ _ _ _ _) as [m|x]; cbn.
    + destruct (is_some (shares s !! name)); cbn.
      * intros H. exfalso. apply H. exact I.
      * intros _. exists m. repeat split. apply lookup_insert_eq.
    + intros H. exfalso. apply H. exact I.
Qed.

(** A first share named fuel is accepted and recorded. *)
Lemma add_share_fails_iff_witness :
  share_well_formed 3 cost_ledger (Some fuel_flow) (Skalar 2) false /\
  exists m,
    SingleShareModel_init "Effects" "fuel" (Some fuel_flow) (Skalar 2) false = Ok m /\
    fst (add_share sm3 "fuel" (Some fuel_flow) (Skalar 2) false cost_ledger) = Ok tt /\
    shares cost_ledger_with_fuel = <["fuel" := single_share m]> (shares cost_ledger) /\
    shares cost_ledger_with_fuel !! "fuel" = Some (single_share m).
Proof.
  assert (Hw : share_well_formed 3 cost_ledger (Some fuel_flow) (Skalar 2) false).
  { split; [lia|]. split; [split; reflexivity|].
    split; [split; [right; reflexivity | exact I] | right; reflexivity]. }
  split; [exact Hw|].
  apply (proj2 (proj2 (add_share_fails_iff sm3 "fuel" (Some fuel_flow) (Skalar 2) false
                         cost_ledger) Hw)).
  vm_compute. exact (fun H => H).
Defined.

(** C7, as stated, fails: a constant share with an array factor that is
    not summed is well formed and is rejected, although no variable of
    length 1 is summed and the name is new. *)
Lemma add_share_rejects_array_constant :
  share_well_formed 3 cost_ledger None (NArray [1; 2; 3]) false /\
  raises (fst (add_share sm3 "fixed" None (NArray [1; 2; 3]) false cost_ledger)) /\
  ~ (sums_scalar None false \/ name_taken cost_ledger "fixed").
Proof.
  split.
  { split; [lia|]. split; [split; reflexivity|]. split; [reflexivity | right; reflexivity]. }
  split; [exact I|].
  intros [(v & [=] & _) | H]. vm_compute in H. discriminate.
Qed.

(** C8: when the name is already present and the new share can be
    constructed, [add_share] raises the duplicate-name error only after
    it has added the new share's variable to the target equation with
    factor 1 and appended the new model to [sub_models]; the map of
    shares is unchanged, the ledger is not. *)
Theorem add_share_duplicate_not_atomic (sm : SystemModel) (name : string)
    (variable : option Variable_) (factor : Numeric) (share_as_sum : bool)
    (s : ShareAllocationModel) (m : SingleShareModel) :
  ledger_modelled s ->
  name_taken s name ->
  SingleShareModel_init (sa_element s) name variable factor share_as_sum = Ok m ->
  let run := add_share sm name variable factor share_as_sum s in
  exists e,
    target_eq s share_as_sum = Some e /\
    fst run = Raise (AssertionError "A Share with the label was already present") /\
    target_eq (snd run) share_as_sum
      = Some (add_summand e (single_share m) (Skalar 1) None false) /\
    sub_models (snd run) = sub_models s ++ [m] /\
    shares (snd run) = shares s /\
    snd run <> s.
Proof.
  intros Hs Hname Hm run. subst run.
  destruct (target_eq_modelled s share_as_sum Hs) as (e & He).
  exists e. split; [exact He|].
  rewrite (add_share_run sm name variable factor share_as_sum s e He), Hm.
  unfold name_taken in Hname. rewrite Hname. cbn [fst snd].
  repeat split.
  - apply target_eq_set.
  - intros Heq. apply (f_equal (fun x => length (sub_models x))) in Heq.
    cbn in Heq. rewrite length_app in Heq. cbn in Heq. lia.
Qed.

(** A second share named fuel: the error is raised, the time-series
    equation has one more term and there are two sub-models. *)
Lemma add_share_duplicate_not_atomic_witness :
  exists e,
    target_eq cost_ledger_with_fuel false = Some e /\
    fst (add_share sm3 "fuel" (Some fuel_flow) (Skalar 5) false cost_ledger_with_fuel)
      = Raise (AssertionError "A Share with the label was already present") /\
    target_eq (snd (add_share sm3 "fuel" (Some fuel_flow) (Skalar 5) false cost_ledger_with_fuel))
              false
      = Some (add_summand e
                (mkVariable "Effects__fuel" 3 None None false None None)
                (Skalar 1) None false) /\
    length (sub_models (snd (add_share sm3 "fuel" (Some fuel_flow) (Skalar 5) false
                               cost_ledger_with_fuel))) = 2%nat.
Proof.
  assert (Hs : ledger_modelled cost_ledger_with_fuel) by (split; reflexivity).
  assert (Hn : name_taken cost_ledger_with_fuel "fuel") by (vm_compute; reflexivity).
  destruct (add_share_duplicate_not_atomic sm3 "fuel" (Some fuel_flow) (Skalar 5) false
              cost_ledger_with_fuel _ Hs Hn eq_refl)
    as (e & He & Hr & Ht & Hsub & _).
  exists e. split; [exact He|]. split; [exact Hr|]. split; [exact Ht|].
  rewrite Hsub. reflexivity.
Defined.

(** ** [InvestmentModel._create_shares] *)

Lemma calls_kept_ret {A} (a : A) : calls_kept (ret a).
Proof. intros b. reflexivity. Qed.

Lemma calls_kept_throw {A} e : calls_kept (@throw Built A e).
Proof. intros b. reflexivity. Qed.

Lemma calls_kept_lift {A} (r : Result A) : calls_kept (lift r).
Proof. intros b. reflexivity. Qed.

Lemma calls_kept_need {A} (o : option A) e : calls_kept (need o e).
Proof. intros b. destruct o; reflexivity. Qed.

Lemma calls_kept_emit e : calls_kept (emit e).
Proof. intros b. reflexivity. Qed.

Lemma calls_kept_create_variable label owner n lb ub bin fixed prev :
  calls_kept (create_variable label owner n lb ub bin fixed prev).
Proof. intros b. reflexivity. Qed.

Lemma calls_kept_bind {A B} (m : M Built A) (k : A -> M Built B) :
  calls_kept m -> (forall a, calls_kept (k a)) -> calls_kept (bind m k).
Proof.
  intros Hm Hk b. unfold bind. specialize (Hm b).
  destruct (m b) as [[a|e] b']; cbn in *; [|assumption].
  now rewrite Hk.
Qed.

Create HintDb calls.
#[export] Hint Resolve calls_kept_ret calls_kept_throw calls_kept_lift calls_kept_need
  calls_kept_emit calls_kept_create_variable : calls.

Ltac calls_kept_tac :=
  repeat first
    [ apply calls_kept_bind; [|intros ?]
    | progress auto with calls
    | match goal with
      | |- calls_kept (match ?x with _ => _ end) => destruct x
      | |- calls_kept (if ?x then _ else _) => destruct x
      | |- calls_kept (let _ := _ in _) => cbv zeta
      end ].

Lemma calls_kept_segment seg sm : calls_kept (SegmentModel_do_modeling seg sm).
Proof. unfold SegmentModel_do_modeling. calls_kept_tac. Qed.

Lemma calls_kept_model_segments segs sm : calls_kept (model_segments segs sm).
Proof.
  induction segs as [|s segs IH]; cbn [model_segments]; [auto with calls|].
  apply calls_kept_bind; [apply calls_kept_segment|]. intros s'.
  apply calls_kept_bind; [exact IH|]. intros r. auto with calls.
Qed.

Lemma calls_kept_lambda_equations owner keys segs :
  calls_kept (lambda_equations owner keys segs).
Proof.
  induction keys as [|v keys IH]; cbn [lambda_equations]; [auto with calls|].
  apply calls_kept_bind; [auto with calls|]. intros e.
  apply calls_kept_bind; [auto with calls|]. intros _. exact IH.
Qed.

#[export] Hint Resolve calls_kept_model_segments calls_kept_lambda_equations : calls.

Lemma calls_kept_multiple_segments ms sm :
  calls_kept (MultipleSegmentsModel_do_modeling ms sm).
Proof. unfold MultipleSegmentsModel_do_modeling. calls_kept_tac. Qed.

Lemma calls_kept_create_share_variables owner n effects :
  calls_kept (create_share_variables owner n effects).
Proof.
  induction effects as [|[effect pts] effects IH]; cbn [create_share_variables];
    [auto with calls|].
  apply calls_kept_bind; [auto with calls|]. intros v.
  apply calls_kept_bind; [exact IH|]. intros r. auto with calls.
Qed.

Lemma appends_kept {A} P (m : M Built A) : calls_kept m -> appends P m.
Proof. intros H b. exists []. rewrite H, app_nil_r. auto. Qed.

Lemma appends_bind {A B} P (m : M Built A) (k : A -> M Built B) :
  appends P m -> (forall a, appends P (k a)) -> appends P (bind m k).
Proof.
  intros Hm Hk b. unfold bind. destruct (Hm b) as (l1 & E1 & F1).
  destruct (m b) as [[a|e] b']; cbn in *.
  - destruct (Hk a b') as (l2 & E2 & F2). exists (l1 ++ l2).
    rewrite E2, E1, app_assoc. split; [reflexivity | now apply Forall_app].
  - exists l1. auto.
Qed.

Lemma appends_add_share_call (P : ShareCall -> Prop) c : P c -> appends P (add_share_call c).
Proof. intros Hc b. exists [c]. cbn. auto. Qed.

Lemma appends_add_segment_shares (P : ShareCall -> Prop) target element shares :
  (forall c, sc_name c = "segmented_effects" -> P c) ->
  appends P (add_segment_shares target element shares).
Proof.
  intros HP. induction shares as [|[effect v] shares IH]; cbn [add_segment_shares].
  - apply appends_kept. auto with calls.
  - apply appends_bind; [|intros _; exact IH].
    apply appends_add_share_call, HP. reflexivity.
Qed.

Lemma appends_segmented_shares (P : ShareCall -> Prop) self sm :
  (forall c, sc_name c = "segmented_effects" -> P c) ->
  appends P (SegmentedSharesModel_do_modeling self sm).
Proof.
  intros HP. unfold SegmentedSharesModel_do_modeling.
  apply appends_bind; [apply appends_kept, calls_kept_create_share_variables|]. intros shares.
  apply appends_bind; [apply appends_kept, calls_kept_multiple_segments|]. intros ms.
  apply appends_bind; [now apply appends_add_segment_shares|]. intros _.
  apply appends_kept. auto with calls.
Qed.

(** The part of [_create_shares] after the divestment shares: the
    specific effects and the segmented effects. *)
Lemma appends_after_divest (P : ShareCall -> Prop) self sm :
  (forall c, is_divest_share c = false -> P c) ->
  appends P
    (bind (if effects_nonempty (specific_effects (_invest_parameters self))
           then add_share_call
                  (mkShareCall to_invest "specific_effects" (im_element self)
                     (specific_effects (_invest_parameters self)) (Skalar 1) (im_size self))
           else ret tt)
          (fun _ =>
             match effects_in_segments (_invest_parameters self) with
             | Some (variable_points, share_points) =>
                 bind (need (im_size self) (TypeError "no variable given"))
                   (fun size =>
                      bind (lift (SegmentedSharesModel_init (im_element self)
                                    (size, List.map (fun '(a, b) => (Skalar a, Skalar b))
                                                    variable_points)
                                    (List.map (fun '(effect, pts) =>
                                                 (effect,
                                                  List.map (fun '(a, b) => (Skalar a, Skalar b)) pts))
                                              share_points)
                                    (match is_invested self with
                                     | Some v => OutsideVariable v
                                     | None => OutsideNone
                                     end)
                                    "SegmentedShares"))
                        (fun segments =>
                           bind (SegmentedSharesModel_do_modeling segments sm)
                                (fun segments => ret (with_segments self segments))))
             | None => ret self
             end)).
Proof.
  intros HP. apply appends_bind.
  - destruct (effects_nonempty _); [|apply appends_kept; auto with calls].
    apply appends_add_share_call, HP. reflexivity.
  - intros _. destruct (effects_in_segments _) as [[vp sp]|]; [|apply appends_kept; auto with calls].
    apply appends_bind; [apply appends_kept; auto with calls|]. intros size.
    apply appends_bind; [apply appends_kept; auto with calls|]. intros segs.
    apply appends_bind; [|intros ?; apply appends_kept; auto with calls].
    apply appends_segmented_shares. intros c Hc. apply HP.
    unfold is_divest_share. rewrite Hc. reflexivity.
Qed.

(** C4 (amended): with non-empty divestment effects, [_create_shares]
    of an optional investment registers, next to each other, the
    unconditional share [+divest_effects] and the cancelling share
    [-divest_effects * isInvested], whose sum is [divest_effects] when
    not invested and 0 when invested; for an investment that is not
    optional it registers no divestment share at all. *)
Theorem divestment_shares (self : InvestmentModel) (sm : SystemModel) :
  effects_nonempty (divest_effects (_invest_parameters self)) = true ->
  let calls := registered (InvestmentModel_create_shares self sm) in
  let divest := divest_effects (_invest_parameters self) in
  let plus := mkShareCall to_invest "divest_effects" (im_element self) divest (Skalar 1) None in
  let minus := mkShareCall to_invest "divest_cancellation_effects" (im_element self) divest
                           (Skalar (-1)) (is_invested self) in
  (optional (_invest_parameters self) = true ->
   (exists pre post,
      calls = pre ++ plus :: minus :: post /\
      Forall (fun c => is_divest_share c = false) pre /\
      Forall (fun c => is_divest_share c = false) post) /\
   forall inv, is_invested self = Some inv -> var_length inv = 1%nat ->
     forall val effect t,
       (val (var_label inv) 0%nat == 0 ->
        share_value val plus effect t + share_value val minus effect t
        == effect_value divest effect t) /\
       (val (var_label inv) 0%nat == 1 ->
        share_value val plus effect t + share_value val minus effect t == 0)) /\
  (optional (_invest_parameters self) = false ->
   Forall (fun c => is_divest_share c = false) calls).
Proof.
  intros Hne calls divest plus minus.
  pose proof (appends_after_divest (fun c => is_divest_share c = false) self sm
                (fun c H => H)) as Hrest.
  subst calls plus minus divest. unfold registered, InvestmentModel_create_shares.
  cbv zeta. split.
  - intros Hopt. split.
    + unfold bind at 1.
      destruct (effects_nonempty (fix_effects (_invest_parameters self))).
      * cbn [add_share_call modify]. unfold bind at 1. rewrite Hne, Hopt.
        cbn [add_share_call modify bind].
        match goal with
        | |- context [snd (bind ?m ?k ?b)] => destruct (Hrest b) as (post & Hpost & Fpost)
        end.
        rewrite Hpost. cbn [share_calls empty_built app].
        eexists [_], post. split; [reflexivity|]. split; [|exact Fpost].
        repeat constructor.
      * cbn [ret]. unfold bind at 1. rewrite Hne, Hopt.
        cbn [add_share_call modify bind].
        match goal with
        | |- context [snd (bind ?m ?k ?b)] => destruct (Hrest b) as (post & Hpost & Fpost)
        end.
        rewrite Hpost. cbn [share_calls empty_built app].
        exists [], post. split; [reflexivity|]. split; [constructor | exact Fpost].
    + intros inv Hinv Hlen val effect t.
      unfold share_value. cbn [sc_effect_values sc_factor sc_variable bnth].
      rewrite Hinv, Hlen. cbn [Nat.eqb].
      split; intros Hv; rewrite Hv; ring.
  - intros Hopt.
    unfold bind at 1.
    destruct (effects_nonempty (fix_effects (_invest_parameters self))).
    + cbn [add_share_call modify]. unfold bind at 1. rewrite Hne, Hopt. cbn [ret].
      match goal with
      | |- context [snd (bind ?m ?k ?b)] => destruct (Hrest b) as (post & Hpost & Fpost)
      end.
      rewrite Hpost. cbn [share_calls empty_built app].
      constructor; [reflexivity | exact Fpost].
    + cbn [ret]. unfold bind at 1. rewrite Hne, Hopt. cbn [ret].
      match goal with
      | |- context [snd (bind ?m ?k ?b)] => destruct (Hrest b) as (post & Hpost & Fpost)
      end.
      rewrite Hpost. cbn [share_calls empty_built app]. exact Fpost.
Qed.

(** An optional investment with divestment effects of 500. *)
Lemma divestment_shares_witness :
  let self := invest_model true in
  let divest := divest_effects (_invest_parameters self) in
  let plus := mkShareCall to_invest "divest_effects" (im_element self) divest (Skalar 1) None in
  let minus := mkShareCall to_invest "divest_cancellation_effects" (im_element self) divest
                           (Skalar (-1)) (is_invested self) in
  (exists pre post,
     registered (InvestmentModel_create_shares self sm3) = pre ++ plus :: minus :: post /\
     Forall (fun c => is_divest_share c = false) pre /\
     Forall (fun c => is_divest_share c = false) post) /\
  forall inv, is_invested self = Some inv -> var_length inv = 1%nat ->
    forall val effect t,
      (val (var_label inv) 0%nat == 0 ->
       share_value val plus effect t + share_value val minus effect t
       == effect_value divest effect t) /\
      (val (var_label inv) 0%nat == 1 ->
       share_value val plus effect t + share_value val minus effect t == 0).
Proof.
  exact (proj1 (divestment_shares (invest_model true) sm3 eq_refl) eq_refl).
Defined.

(** C4, as stated, fails: an investment that is not optional carries
    non-empty divestment effects, and [_create_shares] registers
    nothing for them. *)
Lemma divestment_not_registered_when_mandatory :
  effects_nonempty (divest_effects (_invest_parameters (invest_model false))) = true /\
  registered (InvestmentModel_create_shares (invest_model false) sm3) = [].
Proof. split; reflexivity. Qed.

(** ** [OnOffModel._previous_on_values] *)

Lemma keep_some_none {A} (l : list (option A)) :
  Forall (fun o => o = None) l -> keep_some l = [].
Proof. induction 1 as [|o l -> _ IH]; [reflexivity | exact IH]. Qed.

Lemma previous_on_values_default self epsilon :
  Forall (fun v => previous_values v = None) (_defining_variables self) ->
  _previous_on_values self epsilon = Ok (NArray [0]).
Proof.
  intros H. unfold _previous_on_values.
  rewrite keep_some_none; [reflexivity|].
  induction H; cbn; constructor; auto.
Qed.

Lemma all_array_rows n rows :
  Forall (fun r => length r = n) rows ->
  all_array n (List.map NArray rows) = Some rows.
Proof.
  induction 1 as [|r rows Hr _ IH]; cbn; [reflexivity|].
  rewrite Hr, Nat.eqb_refl, IH. reflexivity.
Qed.

Lemma not_close_iff epsilon x : negb (np_isclose0 epsilon x) = true <-> epsilon < Qabs x.
Proof.
  unfold np_isclose0. rewrite negb_true_iff. split.
  - intros H. apply Qnot_le_lt. intros Hle. apply Qle_bool_iff in Hle. congruence.
  - intros H. destruct (Qle_bool (Qabs x) epsilon) eqn:E; [|reflexivity].
    apply Qle_bool_iff in E. exfalso. apply (Qlt_not_le _ _ H E).
Qed.

(** When the previous values are arrays of one length [n], the result
    has one entry per previous step: 1 exactly when some defining
    variable's previous value at that step is farther from 0 than
    [epsilon]. *)
Lemma previous_on_values_joined self epsilon rows n :
  keep_some (List.map previous_values (_defining_variables self)) = List.map NArray rows ->
  rows <> [] ->
  Forall (fun r => length r = n) rows ->
  exists l,
    _previous_on_values self epsilon = Ok (NArray l) /\
    length l = n /\
    forall j, (j < n)%nat ->
      ((exists row, In row rows /\ epsilon < Qabs (nth j row 0)) -> nth j l 0 = 1) /\
      (~ (exists row, In row rows /\ epsilon < Qabs (nth j row 0)) -> nth j l 0 = 0).
Proof.
  intros Hprev Hne Hrows. unfold _previous_on_values. rewrite Hprev.
  destruct rows as [|r0 rows]; [congruence|].
  assert (Hr0 : length r0 = n) by now inversion Hrows.
  cbn [List.map np_array]. change (NArray r0 :: List.map NArray rows) with (List.map NArray (r0 :: rows)).
  rewrite Hr0, (all_array_rows n (r0 :: rows) Hrows).
  eexists. split; [reflexivity|].
  unfold any_not_close_axis0. cbn [hd]. rewrite Hr0.
  split; [now rewrite length_map, length_seq|].
  intros j Hj.
  rewrite (nth_indep _ 0 ((fun j => if existsb (fun row => negb (np_isclose0 epsilon (nth j row 0)))
                                        (r0 :: rows) then 1 else 0) 0%nat))
    by (rewrite length_map, length_seq; exact Hj).
  rewrite (map_nth (fun j => if existsb (fun row => negb (np_isclose0 epsilon (nth j row 0)))
                               (r0 :: rows) then 1 else 0)).
  rewrite seq_nth by exact Hj. cbn [Nat.add].
  destruct (existsb _ (r0 :: rows)) eqn:E.
  - split; [reflexivity|]. intros Hno. exfalso. apply Hno.
    apply existsb_exists in E as (row & Hin & Hrow). exists row.
    split; [exact Hin | now apply not_close_iff].
  - split; [|reflexivity]. intros (row & Hin & Hrow).
    assert (E' : existsb (fun row => negb (np_isclose0 epsilon (nth j row 0))) (r0 :: rows) = true)
      by (apply existsb_exists; exists row; split; [exact Hin | now apply not_close_iff]).
    congruence.
Qed.

(** With previous values given as arrays, the array branch takes, per
    previous step, the disjunction over the defining variables. *)
Lemma previous_on_values_arrays :
  _previous_on_values (two_flow_model (NArray [5]) (NArray [0])) (EPSILON cfg0)
  = Ok (NArray [1]).
Proof. reflexivity. Qed.

(** C10 fails on the code: with previous values given as scalars, the
    result has one entry per defining variable instead of one entry per
    previous step; its last entry, which is read as the on-value before
    the horizon, is 0 although the first variable was on. *)
Theorem previous_on_values_scalars_not_joined :
  _previous_on_values (two_flow_model (Skalar 5) (Skalar 0)) (EPSILON cfg0)
  = Ok (NArray [1; 0]).
Proof. reflexivity. Qed.

(** The same through [ComponentModel.do_modeling]: for a component with
    two flows whose previous flow rates are the scalars 5 and 0, the
    component's [on] variable gets the previous values [1, 0], and the
    equation of the initial switch compares [on(0)] with 0. *)
Lemma component_previous_on_from_scalars :
  component_previous_on (fst chp_built) = Some (NArray [1; 0]) /\
  exists e,
    find (fun e => String.eqb (eq_label e) "CHP__OnOff__Initial_Switch") (eqs (snd chp_built))
    = Some e /\
    rhs e 0%nat == 0.
Proof.
  split; [vm_compute; reflexivity|].
  eexists. split; [vm_compute; reflexivity | reflexivity].
Qed.

(** * Further properties of the modelling layer *)

(** ** Consecutive durations on any horizon *)

(** On any horizon, without minimum and maximum duration,
    [_get_duration_in_hours] returns a counter that starts at the
    carried duration plus the first step where the binary is 1, is 0
    wherever the binary is 0, and grows by the step's duration wherever
    the binary is 1. *)
Theorem duration_counts_consecutive (cfg : Config) (self : OnOffModel) (label : string)
    (bv : Variable_) (sm : SystemModel) (dt0 p : Q) (dts : list Q) :
  nr_of_time_steps sm = S (length dts) ->
  indices sm = seq 0 (S (length dts)) ->
  dt_in_hours sm = dt0 :: dts ->
  var_length bv = S (length dts) ->
  get_consecutive_duration cfg (previous_values bv) (previous_dt_in_hours sm) = Ok p ->
  let run := _get_duration_in_hours cfg self label (Some bv) None None sm (indices sm) in
  exists d,
    fst (run empty_built) = Ok d /\
    forall val,
      feasible val (snd (run empty_built)) ->
      val (var_label d) 0%nat == (dt0 + p) * val (var_label bv) 0%nat /\
      forall t, (t < length dts)%nat ->
        (val (var_label bv) (S t) == 0 -> val (var_label d) (S t) == 0) /\
        (val (var_label bv) (S t) == 1 ->
           val (var_label d) (S t) == val (var_label d) t + nth t dts 0).
Proof.
  intros Hsteps Hidx Hdt Hbv Hprev run. subst run.
  rewrite (duration_run cfg self label bv sm dt0 p dts Hsteps Hidx Hdt Hprev).
  eexists. split; [reflexivity|].
  intros val Hf. cbn [snd] in Hf.
  exact (duration_recurrence _ _ bv _ p dt0 dts val Hbv Hf).
Qed.

(** Eleven hourly steps: the expected durations obey the recurrence. *)
Lemma duration_counts_consecutive_witness :
  feasible unit_val
    (snd (_get_duration_in_hours cfg0 unit_model "consecutiveOnHours" (Some unit_on)
            None None sm11 (indices sm11) empty_built)) /\
  unit_val "Boiler__OnOff__consecutiveOnHours" 0%nat
  == (1 + 0) * unit_val "Boiler__OnOff__on" 0%nat /\
  forall t, (t < 10)%nat ->
    (unit_val "Boiler__OnOff__on" (S t) == 0 ->
     unit_val "Boiler__OnOff__consecutiveOnHours" (S t) == 0) /\
    (unit_val "Boiler__OnOff__on" (S t) == 1 ->
     unit_val "Boiler__OnOff__consecutiveOnHours" (S t)
     == unit_val "Boiler__OnOff__consecutiveOnHours" t + nth t (repeat 1 10) 0).
Proof.
  destruct (duration_counts_consecutive cfg0 unit_model "consecutiveOnHours" unit_on sm11
              1 0 (repeat 1 10) eq_refl eq_refl eq_refl eq_refl eq_refl)
    as (d & Hd & H).
  vm_compute in Hd. injection Hd as <-.
  assert (Hf : feasible unit_val
                 (snd (_get_duration_in_hours cfg0 unit_model "consecutiveOnHours"
                         (Some unit_on) None None sm11 (indices sm11) empty_built)))
    by (apply feasible_check_spec; vm_compute; reflexivity).
  split; [exact Hf | exact (H unit_val Hf)].
Defined.

(** ** Builders only append *)

Lemma grows_ret {A} (a : A) : grows (ret a).
Proof. intros b. exists [], []. cbn. now rewrite !app_nil_r. Qed.

Lemma grows_throw {A} e : grows (@throw Built A e).
Proof. intros b. exists [], []. cbn. now rewrite !app_nil_r. Qed.

Lemma grows_lift {A} (r : Result A) : grows (lift r).
Proof. intros b. exists [], []. cbn. now rewrite !app_nil_r. Qed.

Lemma grows_need {A} (o : option A) e : grows (need o e).
Proof. destruct o; [apply grows_ret | apply grows_throw]. Qed.

Lemma grows_assert b msg : grows (@assert_ Built b msg).
Proof. destruct b; [apply grows_ret | apply grows_throw]. Qed.

Lemma grows_emit e : grows (emit e).
Proof. intros b. exists [], [e]. cbn. now rewrite app_nil_r. Qed.

Lemma grows_add_share_call c : grows (add_share_call c).
Proof. intros b. exists [], []. cbn. now rewrite !app_nil_r. Qed.

Lemma grows_logger_warning msg : grows (logger_warning msg).
Proof. intros b. exists [], []. cbn. now rewrite !app_nil_r. Qed.

Lemma grows_create_variable label owner n lb ub bin fixed prev :
  grows (create_variable label owner n lb ub bin fixed prev).
Proof. intros b. eexists [_], []. cbn. now rewrite app_nil_r. Qed.

Lemma grows_bind {A B} (m : M Built A) (k : A -> M Built B) :
  grows m -> (forall a, grows (k a)) -> grows (bind m k).
Proof.
  intros Hm Hk b. unfold bind. destruct (Hm b) as (vs & es & Hv & He).
  destruct (m b) as [[a|e] b']; cbn in *.
  - destruct (Hk a b') as (vs' & es' & Hv' & He').
    exists (vs ++ vs'), (es ++ es'). rewrite Hv', He', Hv, He, !app_assoc. auto.
  - eauto.
Qed.

Create HintDb grows.
#[export] Hint Resolve grows_ret grows_throw grows_lift grows_need grows_assert grows_emit
  grows_add_share_call grows_logger_warning grows_create_variable : grows.

Ltac grows_tac :=
  repeat first
    [ apply grows_bind; [|intros ?]
    | progress auto with grows
    | match goal with
      | |- grows (match ?x with _ => _ end) => destruct x
      | |- grows (if ?x then _ else _) => destruct x
      | |- grows (let _ := _ in _) => cbv zeta
      end ].

(** A feasible assignment of a grown model is feasible for the model
    it grew from. *)
Lemma feasible_before {A} (m : M Built A) val b :
  grows m -> feasible val (snd (m b)) -> feasible val b.
Proof.
  intros Hm [Hv He]. destruct (Hm b) as (vs & es & Ev & Ee).
  rewrite Ev in Hv. rewrite Ee in He.
  apply Forall_app in Hv as [Hv _]. apply Forall_app in He as [He _].
  split; assumption.
Qed.

Lemma grows_segment seg sm : grows (SegmentModel_do_modeling seg sm).
Proof. unfold SegmentModel_do_modeling. grows_tac. Qed.

Lemma grows_model_segments segs sm : grows (model_segments segs sm).
Proof.
  induction segs as [|s segs IH]; cbn [model_segments]; [auto with grows|].
  apply grows_bind; [apply grows_segment|]. intros s'.
  apply grows_bind; [exact IH|]. intros r. auto with grows.
Qed.

Lemma grows_lambda_equations owner keys segs : grows (lambda_equations owner keys segs).
Proof.
  induction keys as [|v keys IH]; cbn [lambda_equations]; [auto with grows|].
  apply grows_bind; [auto with grows|]. intros e.
  apply grows_bind; [auto with grows|]. intros _. exact IH.
Qed.

#[export] Hint Resolve grows_model_segments grows_lambda_equations : grows.

Lemma grows_multiple_segments ms sm : grows (MultipleSegmentsModel_do_modeling ms sm).
Proof. unfold MultipleSegmentsModel_do_modeling. grows_tac. Qed.

Lemma grows_create_share_variables owner n effects :
  grows (create_share_variables owner n effects).
Proof.
  induction effects as [|[effect pts] effects IH]; cbn [create_share_variables];
    [auto with grows|].
  apply grows_bind; [auto with grows|]. intros v.
  apply grows_bind; [exact IH|]. intros r. auto with grows.
Qed.

Lemma grows_add_segment_shares target element shares :
  grows (add_segment_shares target element shares).
Proof.
  induction shares as [|[effect v] shares IH]; cbn [add_segment_shares]; [auto with grows|].
  apply grows_bind; [auto with grows|]. intros _. exact IH.
Qed.

#[export] Hint Resolve grows_multiple_segments grows_create_share_variables
  grows_add_segment_shares : grows.

Lemma grows_segmented_shares self sm : grows (SegmentedSharesModel_do_modeling self sm).
Proof. unfold SegmentedSharesModel_do_modeling. grows_tac. Qed.

#[export] Hint Resolve grows_segmented_shares : grows.

Lemma grows_bounds_optional cfg self : grows (_create_bounds_for_optional_investment cfg self).
Proof. unfold _create_bounds_for_optional_investment. grows_tac. Qed.

Lemma grows_bounds_defining self : grows (_create_bounds_for_defining_variable self).
Proof. unfold _create_bounds_for_defining_variable. grows_tac. Qed.

Lemma grows_invest_shares self sm : grows (InvestmentModel_create_shares self sm).
Proof. unfold InvestmentModel_create_shares. grows_tac. Qed.

#[export] Hint Resolve grows_bounds_optional grows_bounds_defining grows_invest_shares : grows.

Lemma grows_investment cfg self sm : grows (InvestmentModel_do_modeling cfg self sm).
Proof. unfold InvestmentModel_do_modeling. grows_tac. Qed.

Lemma grows_on_constraints cfg self sm ti : grows (_add_on_constraints cfg self sm ti).
Proof. unfold _add_on_constraints. grows_tac. Qed.

Lemma grows_off_constraints self sm ti : grows (_add_off_constraints self sm ti).
Proof. unfold _add_off_constraints. grows_tac. Qed.

Lemma grows_duration cfg self label bv mn mx sm ti :
  grows (_get_duration_in_hours cfg self label bv mn mx sm ti).
Proof. unfold _get_duration_in_hours. grows_tac. Qed.

Lemma grows_switch self sm : grows (_add_switch_constraints self sm).
Proof. unfold _add_switch_constraints. grows_tac. Qed.

Lemma grows_on_off_shares self sm : grows (OnOffModel_create_shares self sm).
Proof. unfold OnOffModel_create_shares. grows_tac. Qed.

#[export] Hint Resolve grows_investment grows_on_constraints grows_off_constraints
  grows_duration grows_switch grows_on_off_shares : grows.

Lemma grows_on_off cfg self sm : grows (OnOffModel_do_modeling cfg self sm).
Proof. unfold OnOffModel_do_modeling. grows_tac. Qed.

#[export] Hint Resolve grows_on_off : grows.

(** ** [InvestmentModel.do_modeling]: size and [isInvested] *)

Lemma optional_bounds_run cfg self s i b :
  im_size self = Some s -> is_invested self = Some i ->
  _create_bounds_for_optional_investment cfg self b =
  (Ok tt,
   mkBuilt (variables b)
     (eqs b ++
      match fixed_size_truthy (_invest_parameters self) with
      | Some fixed =>
          [mkEquation (full_label (im_owner self) "is_invested") eq_
             [mkSummand s (Skalar (-1)) None false;
              mkSummand i (Skalar fixed) None false] []]
      | None =>
          [mkEquation (full_label (im_owner self) "is_invested_ub") ineq
             [mkSummand s (Skalar 1) None false;
              mkSummand i (Skalar (-1 * maximum_size (_invest_parameters self))) None false] [];
           mkEquation (full_label (im_owner self) "is_invested_lb") ineq
             [mkSummand s (Skalar (-1)) None false;
              mkSummand i (Skalar (Qmax (EPSILON cfg) (minimum_size (_invest_parameters self))))
                        None false] []]
      end)
     (share_calls b) (warnings b)).
Proof.
  intros Hs Hi. unfold _create_bounds_for_optional_investment. rewrite Hs, Hi.
  destruct (fixed_size_truthy (_invest_parameters self)); cbn;
    unfold emit, modify; cbn; rewrite <- ?app_assoc; reflexivity.
Qed.

(** For an optional investment, whatever else is configured: in every
    feasible assignment of the model that [InvestmentModel.do_modeling]
    builds [isInvested] is 0 or 1; not invested means size 0; invested
    means the fixed size if one is given (and not zero), else a size
    between [max(EPSILON, minimum_size)] and [maximum_size]. *)
Theorem optional_investment_coupling (cfg : Config) (self : InvestmentModel)
    (sm : SystemModel) (val : Valuation) :
  optional (_invest_parameters self) = true ->
  feasible val (snd (InvestmentModel_do_modeling cfg self sm empty_built)) ->
  let size := val (full_label (im_owner self) "size") 0%nat in
  let invested := val (full_label (im_owner self) "isInvested") 0%nat in
  (invested == 0 \/ invested == 1) /\
  (invested == 0 -> size == 0) /\
  (invested == 1 ->
   match fixed_size_truthy (_invest_parameters self) with
   | Some fixed => size == fixed
   | None =>
       Qmax (EPSILON cfg) (minimum_size (_invest_parameters self)) <= size
       <= maximum_size (_invest_parameters self)
   end).
Proof.
  intros Hopt Hf size invested. subst size invested.
  unfold InvestmentModel_do_modeling in Hf. rewrite Hopt in Hf. cbv zeta in Hf.
  assert (Hsize : forall o : option Q,
            match o, true with
            | Some fixed, false =>
                create_variable "size" (im_owner self) 1 None None false
                                (Some (Skalar fixed)) None
            | _, _ =>
                create_variable "size" (im_owner self) 1 (Some (Skalar 0))
                  (Some (Skalar (maximum_size (_invest_parameters self)))) false None None
            end
            = create_variable "size" (im_owner self) 1 (Some (Skalar 0))
                (Some (Skalar (maximum_size (_invest_parameters self)))) false None None)
    by (intros [?|]; reflexivity).
  rewrite Hsize in Hf.
  erewrite bind_run in Hf by reflexivity.
  erewrite bind_run in Hf by reflexivity.
  erewrite bind_run in Hf by (apply optional_bounds_run; reflexivity).
  apply feasible_before in Hf; [|grows_tac].
  destruct Hf as [Hvars Heqs].
  cbn [variables eqs empty_built app _invest_parameters] in Hvars, Heqs.
  apply Forall_cons_iff in Hvars as [Vs Hvars].
  apply Forall_cons_iff in Hvars as [Vi _].
  destruct (Vi 0%nat ltac:(cbn; lia)) as (_ & _ & _ & Hbin). specialize (Hbin eq_refl).
  destruct (Vs 0%nat ltac:(cbn; lia)) as (Hlo & Hhi & _).
  cbn in Hbin, Hlo, Hhi.
  split; [exact Hbin|].
  destruct (fixed_size_truthy (_invest_parameters self)) as [fixed|].
  - apply Forall_cons_iff in Heqs as [E _].
    apply (plain_equation_row val 1 _ 0) in E; [| discriminate | plain_terms | lia].
    unfold term_at, rhs in E.
    cbn [eq_type summands constants List.map Qsum fold_right s_factor s_var bnth
         var_label new_variable] in E.
    split; intros Hi; rewrite Hi in E; lra.
  - apply Forall_cons_iff in Heqs as [E1 Heqs]. apply Forall_cons_iff in Heqs as [E2 _].
    apply (plain_equation_row val 1 _ 0) in E1; [| discriminate | plain_terms | lia].
    apply (plain_equation_row val 1 _ 0) in E2; [| discriminate | plain_terms | lia].
    unfold term_at, rhs in E1, E2.
    cbn [eq_type summands constants List.map Qsum fold_right s_factor s_var bnth
         var_label new_variable] in E1, E2.
    split; intros Hi; rewrite Hi in E1, E2; [lra | split; lra].
Qed.

(** An optional investment of fixed size 10 that is made. *)
Lemma optional_investment_coupling_witness :
  feasible (invested_val 1 10)
    (snd (InvestmentModel_do_modeling cfg0 (optional_invest_model (Some 10)) sm3 empty_built)) /\
  (invested_val 1 10 "Boiler__Q_th__Investment__isInvested" 0%nat == 0 \/
   invested_val 1 10 "Boiler__Q_th__Investment__isInvested" 0%nat == 1) /\
  (invested_val 1 10 "Boiler__Q_th__Investment__isInvested" 0%nat == 0 ->
   invested_val 1 10 "Boiler__Q_th__Investment__size" 0%nat == 0) /\
  (invested_val 1 10 "Boiler__Q_th__Investment__isInvested" 0%nat == 1 ->
   invested_val 1 10 "Boiler__Q_th__Investment__size" 0%nat == 10).
Proof.
  assert (Hf : feasible (invested_val 1 10)
                 (snd (InvestmentModel_do_modeling cfg0 (optional_invest_model (Some 10))
                         sm3 empty_built)))
    by (apply feasible_check_spec; vm_compute; reflexivity).
  split; [exact Hf|].
  exact (optional_investment_coupling cfg0 (optional_invest_model (Some 10)) sm3
           (invested_val 1 10) eq_refl Hf).
Defined.

(** ** Equations with broadcast and summed terms *)

Lemma summand_value_fits val L s t :
  term_fits L s -> (t < L)%nat -> summand_value val s t == term_value val t s.
Proof.
  destruct s as [v f i a]. intros Hcase Ht. unfold term_fits in Hcase. cbn in Hcase.
  unfold summand_value, term_value, selected, weighted_sum, broadcast_index. cbn.
  destruct Hcase as [(-> & ->) | (-> & Hf & [(-> & [Hv | Hv]) | ->])].
  - rewrite length_seq.
    assert (E : List.map (fun k => bnth f k * val (var_label v) (nth k (seq 0 (var_length v)) 0%nat))
                         (seq 0 (var_length v))
                = List.map (fun k => bnth f k * val (var_label v) k) (seq 0 (var_length v))).
    { apply map_ext_in. intros k Hk. apply in_seq in Hk. rewrite seq_nth by lia. reflexivity. }
    rewrite E. reflexivity.
  - rewrite Hv, index_at_seq by exact Ht.
    destruct (Nat.eqb L 1) eqn:E; [|reflexivity].
    apply Nat.eqb_eq in E. replace t with 0%nat by lia. reflexivity.
  - rewrite Hv. reflexivity.
  - rewrite index_at_seq by exact Ht. reflexivity.
Qed.

Lemma summand_rows_fits L s : term_fits L s -> (1 <= L)%nat -> (summand_rows s <= L)%nat.
Proof.
  destruct s as [v f i a]. intros Hcase HL. unfold term_fits in Hcase. cbn in Hcase.
  destruct Hcase as [(-> & ->) | (-> & Hf & [(-> & [Hv | Hv]) | ->])].
  - cbn. exact HL.
  - rewrite (summand_rows_all v f L Hv Hf). lia.
  - unfold summand_rows, selected. cbn. rewrite Hv. cbn. now apply numeric_len_fits.
  - rewrite (summand_rows_seq v f 0 L Hf). lia.
Qed.

Lemma max_rows_fits L l :
  (1 <= L)%nat -> Forall (term_fits L) l ->
  Exists (fun s => summand_rows s = L) l ->
  fold_right Nat.max 0%nat (List.map summand_rows l) = L.
Proof.
  intros HL Hall Hex.
  assert (Hle : (fold_right Nat.max 0%nat (List.map summand_rows l) <= L)%nat).
  { clear Hex. induction Hall as [|s l Hs _ IH]; cbn; [lia|].
    pose proof (summand_rows_fits L s Hs HL). lia. }
  assert (Hge : (L <= fold_right Nat.max 0%nat (List.map summand_rows l))%nat).
  { clear Hall Hle. induction Hex as [s l Hs | s l _ IH]; cbn; lia. }
  lia.
Qed.

Lemma Qsum_fitting_terms val L l t :
  Forall (term_fits L) l -> (t < L)%nat ->
  Qsum (List.map (fun s => summand_value val s t) l) == Qsum (List.map (term_value val t) l).
Proof.
  intros H Ht. induction H as [|s l Hs _ IH]; cbn; [reflexivity|].
  now rewrite IH, (summand_value_fits val L s t Hs Ht).
Qed.

(** An equation of fitting terms, one of them with [L] rows, holds row
    by row over the [L] steps. *)
Lemma fitting_equation_row val L e t :
  (1 <= L)%nat ->
  Forall (term_fits L) (summands e) ->
  Exists (fun s => summand_rows s = L) (summands e) ->
  eq_holds val e -> (t < L)%nat ->
  match eq_type e with
  | eq_ => Qsum (List.map (term_value val t) (summands e)) == rhs e t
  | ineq => Qsum (List.map (term_value val t) (summands e)) <= rhs e t
  end.
Proof.
  intros HL Hall Hex He Ht.
  assert (Hrows : eq_rows e = L) by (unfold eq_rows; now apply max_rows_fits).
  specialize (He t). rewrite Hrows in He. specialize (He Ht).
  unfold row_holds, lhs in He.
  destruct (eq_type e); rewrite (Qsum_fitting_terms val L _ t Hall Ht) in He; exact He.
Qed.

Lemma term_fits_plain L v f :
  var_length v = L -> fits L f -> term_fits L (mkSummand v f None false).
Proof. intros Hv Hf. right. cbn. tauto. Qed.

Lemma term_fits_scalar L v f :
  var_length v = 1%nat -> fits L f -> term_fits L (mkSummand v f None false).
Proof. intros Hv Hf. right. cbn. tauto. Qed.

Lemma term_fits_seq L v f :
  fits L f -> term_fits L (mkSummand v f (Some (seq 0 L)) false).
Proof. intros Hf. right. cbn. tauto. Qed.

Lemma term_fits_sum L v f : term_fits L (mkSummand v f None true).
Proof. left. cbn. auto. Qed.

Lemma broadcast_index_plain L v f a t :
  var_length v = L -> (t < L)%nat -> broadcast_index (mkSummand v f None a) t = t.
Proof.
  intros Hv Ht. unfold broadcast_index. cbn. rewrite Hv.
  destruct (Nat.eqb L 1) eqn:E; [|reflexivity]. apply Nat.eqb_eq in E. lia.
Qed.

Lemma broadcast_index_scalar v f a t :
  var_length v = 1%nat -> broadcast_index (mkSummand v f None a) t = 0%nat.
Proof. intros Hv. unfold broadcast_index. cbn. now rewrite Hv. Qed.

(** ** Investment: mandatory size and the bounds of the defining variable *)

(** A mandatory investment has one size variable and no decision: in
    every feasible assignment the size is the fixed size if one is given
    (and not zero), else it lies between [minimum_size] and
    [maximum_size]. *)
Theorem mandatory_investment_size (cfg : Config) (self : InvestmentModel)
    (sm : SystemModel) (val : Valuation) :
  optional (_invest_parameters self) = false ->
  feasible val (snd (InvestmentModel_do_modeling cfg self sm empty_built)) ->
  let size := val (full_label (im_owner self) "size") 0%nat in
  match fixed_size_truthy (_invest_parameters self) with
  | Some fixed => size == fixed
  | None =>
      minimum_size (_invest_parameters self) <= size
      <= maximum_size (_invest_parameters self)
  end.
Proof.
  intros Hopt Hf size. subst size.
  unfold InvestmentModel_do_modeling in Hf. rewrite Hopt in Hf. cbv zeta in Hf.
  destruct (fixed_size_truthy (_invest_parameters self)) as [fixed|].
  - erewrite bind_run in Hf by reflexivity.
    apply feasible_before in Hf; [|grows_tac].
    destruct Hf as [Hvars _]. cbn [variables empty_built app] in Hvars.
    apply Forall_cons_iff in Hvars as [Vs _].
    destruct (Vs 0%nat ltac:(cbn; lia)) as (_ & _ & Hfix & _).
    cbn in Hfix. symmetry. exact Hfix.
  - erewrite bind_run in Hf by reflexivity.
    apply feasible_before in Hf; [|grows_tac].
    destruct Hf as [Hvars _]. cbn [variables empty_built app] in Hvars.
    apply Forall_cons_iff in Hvars as [Vs _].
    destruct (Vs 0%nat ltac:(cbn; lia)) as (Hlo & Hhi & _).
    cbn in Hlo, Hhi. split; assumption.
Qed.

(** A mandatory investment between 20 and 80 built at size 50. *)
Lemma mandatory_investment_size_witness :
  feasible (sized_val 50 20 0 30)
    (snd (InvestmentModel_do_modeling cfg0 (mandatory_invest_model None) sm3 empty_built)) /\
  20 <= sized_val 50 20 0 30 "Boiler__Q_th__Investment__size" 0%nat <= 80.
Proof.
  assert (Hf : feasible (sized_val 50 20 0 30)
                 (snd (InvestmentModel_do_modeling cfg0 (mandatory_invest_model None)
                         sm3 empty_built)))
    by (apply feasible_check_spec; vm_compute; reflexivity).
  split; [exact Hf|].
  exact (mandatory_investment_size cfg0 (mandatory_invest_model None) sm3
           (sized_val 50 20 0 30) eq_refl Hf).
Defined.

(** [_create_bounds_for_defining_variable] ties the defining variable to
    the size at every step: equal to [profile * size] when a fixed
    profile is given; else at most [relative_maximum * size] and at
    least [relative_minimum * size], the lower bound being relaxed by
    [maximum_size * relative_maximum] at steps where an on variable is
    0. *)
Theorem defining_variable_bounds (self : InvestmentModel) (s : Variable_) (T : nat)
    (val : Valuation) :
  im_size self = Some s ->
  var_length s = 1%nat ->
  var_length (_defining_variable self) = T ->
  (1 <= T)%nat ->
  fits T (fst (_relative_bounds_of_defining_variable self)) ->
  fits T (snd (_relative_bounds_of_defining_variable self)) ->
  match _fixed_relative_profile self with Some pr => fits T pr | None => True end ->
  match _on_variable self with Some on_ => var_length on_ = T | None => True end ->
  Forall (eq_holds val) (emitted (_create_bounds_for_defining_variable self)) ->
  forall t, (t < T)%nat ->
    let x := val (var_label (_defining_variable self)) t in
    let size := val (var_label s) 0%nat in
    let relative_minimum := bnth (fst (_relative_bounds_of_defining_variable self)) t in
    let relative_maximum := bnth (snd (_relative_bounds_of_defining_variable self)) t in
    match _fixed_relative_profile self with
    | Some pr => x == bnth pr t * size
    | None =>
        x <= relative_maximum * size /\
        match _on_variable self with
        | None => relative_minimum * size <= x
        | Some on_ =>
            relative_minimum * size
            - maximum_size (_invest_parameters self) * relative_maximum
              * (1 - val (var_label on_) t) <= x
        end
    end.
Proof.
  intros Hs Hls Hdv HT Hmin Hmax Hpr Hon Heqs t Ht x size rmin rmax.
  subst x size rmin rmax.
  unfold emitted, _create_bounds_for_defining_variable in Heqs. rewrite Hs in Heqs.
  destruct (_fixed_relative_profile self) as [pr|].
  - cbn in Heqs. apply Forall_cons_iff in Heqs as [E _].
    apply (fitting_equation_row val T _ t) in E; [| exact HT | | | exact Ht].
    + unfold term_value, rhs in E.
      cbn [add_summand add_constant new_equation eq_type summands constants app List.map
           Qsum fold_right s_factor s_var s_as_sum bnth] in E.
      rewrite (broadcast_index_scalar s) in E by exact Hls.
      rewrite (broadcast_index_plain T) in E by assumption. unfold np_scale in E.
      rewrite (bnth_np_map _ _ T) in E by assumption. lra.
    + cbn. repeat apply Forall_cons; try apply Forall_nil.
      * apply term_fits_plain; auto with fits.
      * apply term_fits_scalar; auto with fits.
    + apply Exists_cons_hd. apply summand_rows_all; auto with fits.
  - destruct (_relative_bounds_of_defining_variable self) as [rmin rmax].
    cbn [fst snd] in *.
    destruct (_on_variable self) as [on_|].
    + cbn in Heqs. apply Forall_cons_iff in Heqs as [E1 Heqs].
      apply Forall_cons_iff in Heqs as [E2 _].
      apply (fitting_equation_row val T _ t) in E1; [| exact HT | | | exact Ht].
      apply (fitting_equation_row val T _ t) in E2; [| exact HT | | | exact Ht].
      * unfold term_value, rhs in E1, E2.
        cbn [add_summand add_constant new_equation eq_type summands constants app List.map
             Qsum fold_right s_factor s_var s_as_sum bnth] in E1, E2.
        rewrite (broadcast_index_scalar s) in E1, E2 by exact Hls.
        rewrite !(broadcast_index_plain T) in E1 by assumption.
        rewrite !(broadcast_index_plain T) in E2 by assumption.
        unfold np_scale in E1, E2.
        rewrite !(bnth_np_map _ _ T) in E1 by assumption.
        rewrite !(bnth_np_map _ _ T) in E2 by assumption.
        split; lra.
      * cbn. repeat apply Forall_cons; try apply Forall_nil.
        -- apply term_fits_plain; auto with fits.
        -- apply term_fits_plain; auto with fits.
        -- apply term_fits_scalar; auto with fits.
      * apply Exists_cons_hd. apply summand_rows_all; auto with fits.
      * cbn. repeat apply Forall_cons; try apply Forall_nil.
        -- apply term_fits_plain; auto with fits.
        -- apply term_fits_scalar; auto with fits.
      * apply Exists_cons_hd. apply summand_rows_all; auto with fits.
    + cbn in Heqs. apply Forall_cons_iff in Heqs as [E1 Heqs].
      apply Forall_cons_iff in Heqs as [E2 _].
      apply (fitting_equation_row val T _ t) in E1; [| exact HT | | | exact Ht].
      apply (fitting_equation_row val T _ t) in E2; [| exact HT | | | exact Ht].
      * unfold term_value, rhs in E1, E2.
        cbn [add_summand add_constant new_equation eq_type summands constants app List.map
             Qsum fold_right s_factor s_var s_as_sum bnth] in E1, E2.
        rewrite (broadcast_index_scalar s) in E1, E2 by exact Hls.
        rewrite !(broadcast_index_plain T) in E1 by assumption.
        rewrite !(broadcast_index_plain T) in E2 by assumption.
        unfold np_scale in E1.
        rewrite !(bnth_np_map _ _ T) in E1 by assumption.
        split; lra.
      * cbn. repeat apply Forall_cons; try apply Forall_nil.
        -- apply term_fits_plain; auto with fits.
        -- apply term_fits_scalar; auto with fits.
      * apply Exists_cons_hd. apply summand_rows_all; auto with fits.
      * cbn. repeat apply Forall_cons; try apply Forall_nil.
        -- apply term_fits_plain; auto with fits.
        -- apply term_fits_scalar; auto with fits.
      * apply Exists_cons_hd. apply summand_rows_all; auto with fits.
Qed.

(** Size 40 with relative minimum 1/4, 1/4, 1/2: on in the first and
    last step, off in between. *)
Lemma defining_variable_bounds_witness :
  Forall (eq_holds (sized_val 40 20 0 30))
    (emitted (_create_bounds_for_defining_variable (sized_invest_model (Some heat_on)))) /\
  forall t, (t < 3)%nat ->
    sized_val 40 20 0 30 "Boiler__Q_th__flow_rate" t
    <= 1 * sized_val 40 20 0 30 "Boiler__Q_th__Investment__size" 0%nat /\
    bnth (NArray [1 # 4; 1 # 4; 1 # 2]) t
      * sized_val 40 20 0 30 "Boiler__Q_th__Investment__size" 0%nat
    - 80 * 1 * (1 - sized_val 40 20 0 30 "Boiler__Q_th__OnOff__on" t)
    <= sized_val 40 20 0 30 "Boiler__Q_th__flow_rate" t.
Proof.
  assert (He : Forall (eq_holds (sized_val 40 20 0 30))
                 (emitted (_create_bounds_for_defining_variable
                             (sized_invest_model (Some heat_on)))))
    by (apply Forall_eq_check; vm_compute; reflexivity).
  split; [exact He|].
  exact (defining_variable_bounds (sized_invest_model (Some heat_on)) invest_size 3
           (sized_val 40 20 0 30) eq_refl eq_refl eq_refl ltac:(lia) eq_refl I I eq_refl He).
Defined.

(** ** Preventing simultaneous use *)

Lemma fold_add_summand vs e f i :
  fold_left (fun e v => add_summand e v f i false) vs e
  = mkEquation (eq_label e) (eq_type e)
      (summands e ++ List.map (fun v => mkSummand v f i false) vs) (constants e).
Proof.
  revert e. induction vs as [|v vs IH]; intros e; simpl.
  - rewrite app_nil_r. now destruct e.
  - rewrite IH. simpl. now rewrite <- app_assoc.
Qed.

Lemma Qsum_nonneg l : Forall (fun x => 0 <= x) l -> 0 <= Qsum l.
Proof. induction 1 as [|x l Hx _ IH]; simpl; lra. Qed.

Lemma Qsum_two_terms l i j :
  Forall (fun x => 0 <= x) l -> (i < j < length l)%nat ->
  nth i l 0 + nth j l 0 <= Qsum l.
Proof.
  intros H. revert i j. induction H as [|x l Hx Hl IH]; intros i j Hij; simpl in *; [lia|].
  destruct j as [|j]; [lia|]. destruct i as [|i].
  - assert (Hj : nth j l 0 <= Qsum l).
    { clear IH Hx Hij x. revert j. induction Hl as [|y l Hy Hl IH]; intros j; simpl.
      - destruct j; lra.
      - destruct j as [|j]; [pose proof (Qsum_nonneg l Hl); lra | specialize (IH j); lra]. }
    lra.
  - specialize (IH i j ltac:(lia)). lra.
Qed.

(** Variables accepted by the constructor of
    [PreventSimultaneousUsageModel] are never 1 together: in every
    assignment that respects the binaries and the emitted constraint, at
    every step, no two of them (at different positions of the list) are
    both 1. *)
Theorem prevent_simultaneous_usage (element : string) (vs : list Variable_) (T : nat)
    (val : Valuation) :
  is_ok (PreventSimultaneousUsageModel_init vs) = true ->
  Forall (fun v => var_length v = T) vs ->
  Forall (var_ok val) vs ->
  Forall (eq_holds val) (emitted (PreventSimultaneousUsageModel_do_modeling element vs)) ->
  forall t i j, (t < T)%nat -> (i < j < length vs)%nat ->
    val (var_label (nth i vs heat)) t == 1 ->
    val (var_label (nth j vs heat)) t == 1 -> False.
Proof.
  intros Hinit Hlen Hvars Heqs t i j Ht Hij Hi Hj.
  unfold PreventSimultaneousUsageModel_init in Hinit.
  destruct (Nat.leb 2 (length vs)) eqn:Hn; [|discriminate].
  destruct (forallb is_binary vs) eqn:Hb; [|discriminate].
  apply Nat.leb_le in Hn. rewrite forallb_forall in Hb.
  unfold emitted, PreventSimultaneousUsageModel_do_modeling, emit, modify in Heqs.
  cbn [snd eqs empty_built app] in Heqs. rewrite fold_add_summand in Heqs.
  apply Forall_cons_iff in Heqs as [E _].
  specialize (E t).
  assert (Hrows : eq_rows (add_constant
            {| eq_label := eq_label (new_equation "prevent_simultaneous_use"
                                       (full_label element "PreventSimultaneousUsage") ineq);
               eq_type := eq_type (new_equation "prevent_simultaneous_use"
                                     (full_label element "PreventSimultaneousUsage") ineq);
               summands := summands (new_equation "prevent_simultaneous_use"
                                       (full_label element "PreventSimultaneousUsage") ineq)
                           ++ List.map (fun v => mkSummand v (Skalar 1) None false) vs;
               constants := constants (new_equation "prevent_simultaneous_use"
                                         (full_label element "PreventSimultaneousUsage") ineq) |}
            (Skalar (11 # 10))) = T).
  { unfold eq_rows. cbn [add_constant summands new_equation app].
    apply max_rows_all; [destruct vs; simpl in *; [lia | discriminate]|].
    now apply rate_summands_rows. }
  rewrite Hrows in E. specialize (E Ht).
  unfold row_holds, lhs, rhs in E.
  cbn [add_constant eq_type summands constants new_equation app List.map Qsum fold_right bnth] in E.
  rewrite (Qsum_rate_summands val 1 vs T t Hlen Ht) in E.
  assert (Hnn : Forall (fun x => 0 <= x) (List.map (fun v => val (var_label v) t) vs)).
  { apply Forall_forall. intros x Hx. apply in_map_iff in Hx as (v & <- & Hv).
    rewrite Forall_forall in Hvars, Hlen.
    destruct (Hvars v Hv t ltac:(rewrite (Hlen v Hv); exact Ht)) as (_ & _ & _ & Hbin).
    destruct (Hbin (Hb v Hv)) as [H0 | H1]; lra. }
  pose proof (Qsum_two_terms _ i j Hnn ltac:(rewrite length_map; exact Hij)) as Hsum.
  assert (Hnth : forall k, (k < length vs)%nat ->
            nth k (List.map (fun v => val (var_label v) t) vs) 0
            = val (var_label (nth k vs heat)) t).
  { intros k Hk.
    rewrite (nth_indep _ 0 (val (var_label heat) t)) by (rewrite length_map; exact Hk).
    exact (map_nth (fun v => val (var_label v) t) vs heat k). }
  rewrite !Hnth in Hsum by lia. lra.
Qed.

(** Charging, discharging and bypass of a store: charging in the first
    step and discharging in the last. *)
Lemma prevent_simultaneous_usage_witness :
  Forall (var_ok exclusive_val) exclusive_variables /\
  Forall (eq_holds exclusive_val)
    (emitted (PreventSimultaneousUsageModel_do_modeling "Storage" exclusive_variables)) /\
  forall t i j, (t < 3)%nat -> (i < j < 3)%nat ->
    exclusive_val (var_label (nth i exclusive_variables heat)) t == 1 ->
    exclusive_val (var_label (nth j exclusive_variables heat)) t == 1 -> False.
Proof.
  assert (Hv : Forall (var_ok exclusive_val) exclusive_variables).
  { repeat apply Forall_cons; try apply Forall_nil;
      apply var_check_spec; vm_compute; reflexivity. }
  assert (He : Forall (eq_holds exclusive_val)
                 (emitted (PreventSimultaneousUsageModel_do_modeling "Storage"
                             exclusive_variables)))
    by (apply Forall_eq_check; vm_compute; reflexivity).
  split; [exact Hv|]. split; [exact He|].
  apply (prevent_simultaneous_usage "Storage" exclusive_variables 3 exclusive_val eq_refl).
  - repeat apply Forall_cons; try apply Forall_nil; reflexivity.
  - exact Hv.
  - exact He.
Defined.

(** ** Plausibility of a flow's relative bounds *)

Lemma np_broadcast2_fits f x y n :
  (1 <= n)%nat -> fits n x -> fits n y ->
  exists r, np_broadcast2 f x y = Ok r /\ fits n r /\
            forall t, (t < n)%nat -> bnth r t = f (bnth x t) (bnth y t).
Proof.
  intros Hn Hx Hy. destruct x as [a|l1], y as [b|l2].
  - eexists. split; [reflexivity|]. split; [exact I|]. reflexivity.
  - exists (np_map (f a) (NArray l2)). split; [reflexivity|].
    split; [now apply fits_np_map|]. intros t Ht. now apply (bnth_np_map _ _ n).
  - exists (np_map (fun a => f a b) (NArray l1)).
    split; [destruct l1 as [|a [|a' l1]]; reflexivity|].
    split; [now apply fits_np_map|]. intros t Ht.
    exact (bnth_np_map (fun a => f a b) (NArray l1) n t Hx Ht).
  - simpl in Hx, Hy. destruct l1 as [|a [|a' l1]]; simpl in Hx; [lia | |].
    + subst n. destruct l2 as [|b [|b' l2]]; simpl in Hy; try lia.
      eexists. split; [reflexivity|]. split; [reflexivity|]. intros t Ht. reflexivity.
    + destruct l2 as [|b [|b' l2]]; simpl in Hy; try lia.
      exists (NArray (zip_with f (a :: a' :: l1) (b :: b' :: l2))).
      assert (Hl : length (a :: a' :: l1) = length (b :: b' :: l2)) by (simpl; lia).
      split.
      { cbn [np_broadcast2]. rewrite (proj2 (Nat.eqb_eq _ _) Hl). reflexivity. }
      split.
      { cbn [fits]. rewrite zip_with_length by exact Hl. simpl. lia. }
      intros t Ht.
      rewrite !bnth_array by (rewrite ?zip_with_length by exact Hl; simpl; lia).
      apply zip_with_nth; [exact Hl | simpl; lia].
Qed.




(** ** [OnOffModel._add_on_constraints], several defining variables *)

Lemma Qsum_indexed_terms val c vs T t :
  (t < T)%nat ->
  Qsum (List.map (term_value val t)
          (List.map (fun v => mkSummand v (Skalar c) (Some (seq 0 T)) false) vs))
  == c * Qsum (List.map (fun v => val (var_label v) t) vs).
Proof.
  intros Ht. induction vs as [|v vs IH]; simpl; [ring|].
  rewrite IH. unfold term_value, broadcast_index. simpl. ring.
Qed.

Lemma indexed_terms_fit T c vs :
  Forall (term_fits T)
    (List.map (fun v => mkSummand v (Skalar c) (Some (seq 0 T)) false) vs).
Proof.
  induction vs as [|v vs IH]; simpl; constructor; [|assumption].
  apply term_fits_seq. exact I.
Qed.

Lemma shared_on_constraints_emitted cfg self on_v sm T total :
  on self = Some on_v ->
  (2 <= length (_defining_variables self))%nat ->
  length (_defining_bounds self) = length (_defining_variables self) ->
  sum_upper_bounds (Skalar 0) (_defining_bounds self) = Ok total ->
  emitted (_add_on_constraints cfg self sm (seq 0 T))
  = let n := inject_Z (Z.of_nat (length (_defining_variables self))) in
    [add_summand
       (add_summands (new_equation "On_Constraint_1" (oo_owner self) ineq)
          (_defining_variables self) (Skalar (-1)) (seq 0 T))
       on_v (Skalar (EPSILON cfg)) (Some (seq 0 T)) false;
     add_summand
       (add_summands (new_equation "On_Constraint_2" (oo_owner self) ineq)
          (_defining_variables self) (Skalar (1 / n)) (seq 0 T))
       on_v (np_scale (-1) (np_map (fun x => x / n) total)) (Some (seq 0 T)) false].
Proof.
  destruct self as [el lab on_ toh coh cfh off_ so sf nso pp vs bounds].
  cbn [on _defining_variables _defining_bounds]. intros -> Hn Hlen Htotal.
  unfold emitted, _add_on_constraints.
  cbn [on _defining_variables _defining_bounds].
  assert (Hb : firstn (length vs) bounds = bounds)
    by (rewrite <- Hlen; apply firstn_all).
  assert (Hv : firstn (length bounds) vs = vs)
    by (rewrite Hlen; apply firstn_all).
  destruct vs as [|v1 [|v2 vs]]; cbn [length] in Hn; try lia.
  rewrite Hb, Hv.
  unfold bind, need, ret, assert_, lift, emit, modify, throw.
  cbn [length Nat.ltb Nat.leb fst snd].
  rewrite Htotal. cbn [fst snd eqs empty_built app].
  destruct (np_max _) as [m|e]; cbn [fst snd eqs]; [|reflexivity].
  destruct (Qltb _ m); reflexivity.
Qed.

(** With two or more defining variables sharing one on variable, the
    lower bounds play no role: at every step the sum of the variables
    is at least [EPSILON * on] and at most [on] times the sum of the
    upper bounds. So [on = 0] caps the sum at 0, and [on = 1] only asks
    for a sum of at least [EPSILON]. *)
Theorem on_activation_shared (cfg : Config) (self : OnOffModel) (on_v : Variable_)
    (sm : SystemModel) (T : nat) (total : Numeric) (val : Valuation) :
  on self = Some on_v ->
  (2 <= length (_defining_variables self))%nat ->
  length (_defining_bounds self) = length (_defining_variables self) ->
  sum_upper_bounds (Skalar 0) (_defining_bounds self) = Ok total ->
  fits T total -> (1 <= T)%nat ->
  Forall (eq_holds val) (emitted (_add_on_constraints cfg self sm (seq 0 T))) ->
  forall t, (t < T)%nat ->
    let sum := Qsum (List.map (fun v => val (var_label v) t) (_defining_variables self)) in
    EPSILON cfg * val (var_label on_v) t <= sum /\
    sum <= bnth total t * val (var_label on_v) t.
Proof.
  intros Hon Hn Hlen Htotal Hfits HT Heqs t Ht sum. subst sum.
  rewrite (shared_on_constraints_emitted cfg self on_v sm T total Hon Hn Hlen Htotal) in Heqs.
  cbv zeta in Heqs. unfold add_summands in Heqs. rewrite !fold_add_summand in Heqs.
  set (n := inject_Z (Z.of_nat (length (_defining_variables self)))) in *.
  assert (Hpos : 0 < n).
  { unfold n. change 0 with (inject_Z 0). rewrite <- Zlt_Qlt. lia. }
  apply Forall_cons_iff in Heqs as [E1 Heqs]. apply Forall_cons_iff in Heqs as [E2 _].
  apply (fitting_equation_row val T _ t) in E1; [| exact HT | | | exact Ht].
  apply (fitting_equation_row val T _ t) in E2; [| exact HT | | | exact Ht].
  - unfold rhs in E1, E2.
    cbn [add_summand new_equation eq_type summands constants app List.map] in E1, E2.
    rewrite !map_app, !Qsum_app, !Qsum_indexed_terms in E1, E2 by exact Ht.
    unfold term_value, broadcast_index in E1, E2.
    cbn [List.map Qsum fold_right s_factor s_var s_as_sum s_indices bnth] in E1, E2.
    unfold np_scale in E2.
    rewrite !(bnth_np_map _ _ T) in E2 by auto with fits.
    set (S := Qsum (List.map (fun v => val (var_label v) t) (_defining_variables self))) in *.
    set (o := val (var_label on_v) t) in *.
    set (U := bnth total t) in *.
    split; [lra|].
    assert (Hdiv : 1 / n * S + (-1 * (U / n) * o + 0) == (S - U * o) / n)
      by (field; lra).
    rewrite Hdiv in E2.
    assert (Hmul : S - U * o == n * ((S - U * o) / n)) by (field; lra).
    set (y := (S - U * o) / n) in *.
    assert (n * y <= 0).
    { rewrite <- (Qmult_0_r n). apply Qmult_le_l; [exact Hpos | exact E2]. }
    lra.
  - cbn [add_summand new_equation summands app].
    apply Forall_app. split; [apply indexed_terms_fit|].
    constructor; [|constructor]. apply term_fits_seq. auto with fits.
  - cbn [add_summand new_equation summands app].
    apply Exists_app. right. apply Exists_cons_hd. apply summand_rows_seq. auto with fits.
  - cbn [add_summand new_equation summands app].
    apply Forall_app. split; [apply indexed_terms_fit|].
    constructor; [|constructor]. apply term_fits_seq. exact I.
  - cbn [add_summand new_equation summands app].
    apply Exists_app. right. apply Exists_cons_hd. apply summand_rows_seq. exact I.
Qed.

(** Heat (at most 10) and power (at most 6) of one boiler: both at
    their maximum, both off, and power alone. *)
Lemma on_activation_shared_witness :
  Forall (eq_holds shared_val)
    (emitted (_add_on_constraints cfg0 shared_on_model sm3 (seq 0 3))) /\
  forall t, (t < 3)%nat ->
    EPSILON cfg0 * shared_val (var_label heat_on) t
    <= Qsum (List.map (fun v => shared_val (var_label v) t) [heat; power]) /\
    Qsum (List.map (fun v => shared_val (var_label v) t) [heat; power])
    <= bnth (Skalar (0 + 10 + 6)) t * shared_val (var_label heat_on) t.
Proof.
  assert (He : Forall (eq_holds shared_val)
                 (emitted (_add_on_constraints cfg0 shared_on_model sm3 (seq 0 3))))
    by (apply Forall_eq_check; vm_compute; reflexivity).
  split; [exact He|].
  exact (on_activation_shared cfg0 shared_on_model heat_on sm3 3 (Skalar (0 + 10 + 6))
           shared_val eq_refl ltac:(cbn; lia) eq_refl eq_refl I ltac:(lia) He).
Defined.

(** ** [OnOffModel.do_modeling]: hours of operation *)

Lemma weighted_sum_steps val dt v :
  length dt = var_length v ->
  weighted_sum val (NArray dt) v
  = Qsum (List.map (fun t => nth t dt 0 * val (var_label v) t) (seq 0 (var_length v))).
Proof.
  intros Hl. unfold weighted_sum. f_equal. apply map_ext_in.
  intros k Hk. apply in_seq in Hk. rewrite bnth_array by lia. reflexivity.
Qed.

(** Whatever else the parameters ask for, the model built by
    [OnOffModel.do_modeling] makes [on] binary at every step, makes
    [totalOnHours] the hours spent on (the sum of the durations of the
    steps that are on) and keeps it within [on_hours_total_min] and
    [on_hours_total_max] where these are given. *)
Theorem total_on_hours_counts (cfg : Config) (self : OnOffModel) (sm : SystemModel)
    (val : Valuation) :
  horizon_ok sm ->
  is_ok (_previous_on_values self (EPSILON cfg)) = true ->
  feasible val (snd (OnOffModel_do_modeling cfg self sm empty_built)) ->
  let on_ := val (full_label (oo_owner self) "on") in
  let total := val (full_label (oo_owner self) "totalOnHours") 0%nat in
  (forall t, (t < nr_of_time_steps sm)%nat -> on_ t == 0 \/ on_ t == 1) /\
  total == Qsum (List.map (fun t => nth t (dt_in_hours sm) 0 * on_ t)
                   (seq 0 (nr_of_time_steps sm))) /\
  (forall m, on_hours_total_min (_on_off_parameters self) = Some m -> m <= total) /\
  (forall m, on_hours_total_max (_on_off_parameters self) = Some m -> total <= m).
Proof.
  intros (Hidx & Hdt & _) Hprev Hf on_ total. subst on_ total.
  destruct (_previous_on_values self (EPSILON cfg)) as [prev|] eqn:Hp; [|discriminate].
  unfold OnOffModel_do_modeling in Hf. cbv zeta in Hf. rewrite Hp in Hf.
  erewrite bind_run in Hf by reflexivity.
  erewrite bind_run in Hf by reflexivity.
  erewrite bind_run in Hf by reflexivity.
  erewrite bind_run in Hf by reflexivity.
  apply feasible_before in Hf; [|grows_tac].
  destruct Hf as [Hvars Heqs].
  cbn [variables eqs empty_built app] in Hvars, Heqs.
  apply Forall_cons_iff in Hvars as [Von Hvars].
  apply Forall_cons_iff in Hvars as [Vtotal _].
  apply Forall_cons_iff in Heqs as [E _].
  destruct (Vtotal 0%nat ltac:(cbn; lia)) as (Hlo & Hhi & _).
  cbn [new_variable var_label var_length lower_bound upper_bound] in Hlo, Hhi.
  apply (fitting_equation_row val 1 _ 0) in E; [| lia | | | lia].
  - unfold rhs, term_value in E.
    cbn [add_summand new_equation eq_type summands constants app List.map Qsum fold_right
         s_factor s_var s_as_sum bnth] in E.
    rewrite weighted_sum_steps in E by (cbn; exact Hdt).
    rewrite (broadcast_index_plain 1) in E by (cbn; lia).
    cbn [new_variable var_label var_length with_on oo_owner oo_element oo_label] in E.
    split; [|split; [|split]].
    + intros t Ht. destruct (Von t ltac:(cbn; exact Ht)) as (_ & _ & _ & Hbin).
      exact (Hbin eq_refl).
    + lra.
    + intros m Hm. rewrite Hm in Hlo. exact Hlo.
    + intros m Hm. rewrite Hm in Hhi. exact Hhi.
  - cbn. repeat apply Forall_cons; try apply Forall_nil.
    + apply term_fits_sum.
    + apply term_fits_plain; [reflexivity | exact I].
  - apply Exists_cons_hd. reflexivity.
Qed.

(** The boiler on in the first and the last of three hours. *)
Lemma total_on_hours_counts_witness :
  feasible limited_val (snd (OnOffModel_do_modeling cfg0 limited_model sm3 empty_built)) /\
  (forall t, (t < 3)%nat ->
     limited_val "Boiler__Q_th__OnOff__on" t == 0 \/
     limited_val "Boiler__Q_th__OnOff__on" t == 1) /\
  limited_val "Boiler__Q_th__OnOff__totalOnHours" 0%nat
  == Qsum (List.map (fun t => nth t [1; 1; 1] 0 * limited_val "Boiler__Q_th__OnOff__on" t)
             (seq 0 3)) /\
  (forall m, Some 1 = Some m -> m <= limited_val "Boiler__Q_th__OnOff__totalOnHours" 0%nat) /\
  (forall m, Some 2 = Some m -> limited_val "Boiler__Q_th__OnOff__totalOnHours" 0%nat <= m).
Proof.
  assert (Hf : feasible limited_val
                 (snd (OnOffModel_do_modeling cfg0 limited_model sm3 empty_built)))
    by (apply feasible_check_spec; vm_compute; reflexivity).
  split; [exact Hf|].
  exact (total_on_hours_counts cfg0 limited_model sm3 limited_val
           (conj eq_refl (conj eq_refl eq_refl)) eq_refl Hf).
Defined.

(** ** [OnOffModel.do_modeling]: the off variable *)

Lemma bind_ok {A B} (m : M Built A) (k : A -> M Built B) b :
  is_ok (fst (bind m k b)) = true ->
  exists a, fst (m b) = Ok a /\ bind m k b = k a (snd (m b)).
Proof.
  unfold bind. destruct (m b) as [[a|e] b']; cbn; [eauto | discriminate].
Qed.

Lemma feasible_last val b vs e :
  feasible val (mkBuilt (variables b ++ vs) (eqs b ++ [e]) (share_calls b) (warnings b)) ->
  Forall (var_ok val) vs /\ eq_holds val e.
Proof.
  intros [Hv He]. cbn in Hv, He.
  apply Forall_app in Hv as [_ Hv]. apply Forall_app in He as [_ He].
  apply Forall_cons_iff in He as [He _]. auto.
Qed.

(** When [use_off] is set and the model is built without error, [off]
    is the complement of [on] at every step. *)
Theorem off_is_complement (cfg : Config) (self : OnOffModel) (sm : SystemModel)
    (val : Valuation) :
  horizon_ok sm ->
  use_off (_on_off_parameters self) = true ->
  is_ok (fst (OnOffModel_do_modeling cfg self sm empty_built)) = true ->
  feasible val (snd (OnOffModel_do_modeling cfg self sm empty_built)) ->
  forall t, (t < nr_of_time_steps sm)%nat ->
    val (full_label (oo_owner self) "off") t
    == 1 - val (full_label (oo_owner self) "on") t.
Proof.
  intros (Hidx & _ & _) Huse Hok Hf t Ht.
  unfold OnOffModel_do_modeling in Hok, Hf. cbv zeta in Hok, Hf.
  rewrite Huse in Hok, Hf.
  destruct (_previous_on_values self (EPSILON cfg)) as [prev|err] eqn:Hp;
    [|discriminate Hok].
  erewrite bind_run in Hok by reflexivity. erewrite bind_run in Hf by reflexivity.
  erewrite bind_run in Hok by reflexivity. erewrite bind_run in Hf by reflexivity.
  erewrite bind_run in Hok by reflexivity. erewrite bind_run in Hf by reflexivity.
  erewrite bind_run in Hok by reflexivity. erewrite bind_run in Hf by reflexivity.
  destruct (bind_ok _ _ _ Hok) as ([] & _ & Hrun). rewrite Hrun in Hf. clear Hok Hrun.
  match type of Hf with
  | context [snd (_add_on_constraints ?c ?s ?m ?i ?b)] =>
      set (b2 := snd (_add_on_constraints c s m i b)) in *
  end.
  clearbody b2.
  assert (Hp' : forall on_ h, _previous_on_values (with_on self on_ h) (EPSILON cfg) = Ok prev)
    by (intros; exact Hp).
  rewrite Hp' in Hf.
  erewrite bind_run in Hf; [|unfold bind, lift, create_variable, _add_off_constraints,
                              need, emit, modify, ret; cbn; reflexivity].
  apply feasible_before in Hf; [|grows_tac].
  apply feasible_last in Hf as [_ E].
  rewrite Hidx in E.
  apply (fitting_equation_row val (nr_of_time_steps sm) _ t) in E; [| lia | | | exact Ht].
  - unfold rhs, term_value, broadcast_index in E.
    cbn [add_summand add_constant new_equation eq_type summands constants app List.map Qsum
         fold_right s_factor s_var s_as_sum s_indices bnth new_variable var_label] in E.
    match type of E with
    | context [oo_owner (with_on self ?a ?b)] =>
        change (oo_owner (with_on self a b)) with (oo_owner self) in E
    end.
    lra.
  - cbn. repeat apply Forall_cons; try apply Forall_nil; apply term_fits_seq; exact I.
  - apply Exists_cons_hd. apply summand_rows_seq. exact I.
Qed.

(** The boiler on in the first and the last of three hours, off in
    between. *)
Lemma off_is_complement_witness :
  feasible off_val (snd (OnOffModel_do_modeling cfg0 off_model sm3 empty_built)) /\
  forall t, (t < 3)%nat ->
    off_val "Boiler__Q_th__OnOff__off" t == 1 - off_val "Boiler__Q_th__OnOff__on" t.
Proof.
  assert (Hf : feasible off_val
                 (snd (OnOffModel_do_modeling cfg0 off_model sm3 empty_built)))
    by (apply feasible_check_spec; vm_compute; reflexivity).
  split; [exact Hf|].
  exact (off_is_complement cfg0 off_model sm3 off_val
           (conj eq_refl (conj eq_refl eq_refl)) eq_refl eq_refl Hf).
Defined.

(** ** Switches on any horizon *)

Lemma Qsum_scaled (c : Q) (f : nat -> Q) l :
  Qsum (List.map (fun k => c * f k) l) == c * Qsum (List.map f l).
Proof. induction l as [|x l IH]; simpl; [ring | rewrite IH; ring]. Qed.

(** On any horizon, the equations of [_add_switch_constraints] make
    [switch_on - switch_off] the change of [on] from the step before
    (from the last on-value of the previous horizon at the first step),
    never let both be 1 at one step, and make [nr_switch_on] the number
    of steps with [switch_on = 1]. Where [on] and its predecessor are 0
    or 1, [switch_on] is 1 exactly when [on] rises and [switch_off] is
    1 exactly when it falls. *)
Theorem switch_marks_changes (self : OnOffModel) (sm : SystemModel)
    (on_v son soff nr : Variable_) (q : Q) (T : nat) (val : Valuation) :
  nr_of_time_steps sm = T ->
  indices sm = seq 0 T ->
  on self = Some on_v -> switch_on self = Some son ->
  switch_off self = Some soff -> nr_switch_on self = Some nr ->
  var_length son = T -> var_length soff = T -> var_length nr = 1%nat ->
  is_binary son = true -> is_binary soff = true ->
  previous_last on_v = Ok q ->
  Forall (eq_holds val) (emitted (_add_switch_constraints self sm)) ->
  var_ok val son -> var_ok val soff ->
  (forall t, (t < T)%nat ->
     val (var_label son) t - val (var_label soff) t
     == val (var_label on_v) t - on_before val on_v q t) /\
  (forall t, (t < T)%nat ->
     (val (var_label son) t == 0 \/ val (var_label soff) t == 0)) /\
  val (var_label nr) 0%nat == Qsum (List.map (val (var_label son)) (seq 0 T)) /\
  (forall t, (t < T)%nat ->
     (val (var_label on_v) t == 0 \/ val (var_label on_v) t == 1) ->
     (on_before val on_v q t == 0 \/ on_before val on_v q t == 1) ->
     (val (var_label son) t == 1 <->
      on_before val on_v q t == 0 /\ val (var_label on_v) t == 1) /\
     (val (var_label soff) t == 1 <->
      on_before val on_v q t == 1 /\ val (var_label on_v) t == 0)).
Proof.
  intros Hsteps Hidx Hon Hson Hsoff Hnr Lson Lsoff Lnr Bson Bsoff Hq Heqs Vson Vsoff.
  unfold emitted in Heqs.
  rewrite (switch_run self sm on_v son soff nr q) in Heqs by (rewrite ?Hsteps; assumption).
  rewrite Hsteps in Heqs. cbn [snd eqs switch_equations] in Heqs.
  apply Forall_cons_iff in Heqs as [E1 Heqs].
  apply Forall_cons_iff in Heqs as [E2 Heqs].
  apply Forall_cons_iff in Heqs as [E3 Heqs].
  apply Forall_cons_iff in Heqs as [E4 _].
  assert (Hchange : forall t, (t < T)%nat ->
            val (var_label son) t - val (var_label soff) t
            == val (var_label on_v) t - on_before val on_v q t).
  { intros [|t] Ht.
    - change [0%nat] with (seq 0 1) in E2.
      apply (fitting_equation_row val 1 _ 0) in E2; [| lia | | | lia].
      + unfold rhs, term_value, broadcast_index in E2.
        cbn [eq_type summands constants List.map Qsum fold_right s_factor s_var s_as_sum
             s_indices bnth] in E2.
        cbn [on_before]. lra.
      + cbn. repeat apply Forall_cons; try apply Forall_nil; apply term_fits_seq; exact I.
      + apply Exists_cons_hd. apply summand_rows_seq. exact I.
    - unfold eq_holds, eq_rows, row_holds, lhs, rhs in E1.
      cbn [eq_type summands constants List.map fold_right Qsum] in E1.
      rewrite !summand_rows_seq in E1 by exact I.
      specialize (E1 t ltac:(lia)).
      rewrite !summand_value_seq in E1 by lia.
      cbn [bnth Nat.add on_before] in *. lra. }
  assert (Hexcl : forall t, (t < T)%nat ->
            val (var_label son) t + val (var_label soff) t <= 11 # 10).
  { intros t Ht.
    apply (fitting_equation_row val T _ t) in E3; [| lia | | | exact Ht].
    - unfold rhs, term_value in E3.
      cbn [eq_type summands constants List.map Qsum fold_right s_factor s_var s_as_sum bnth]
        in E3.
      rewrite !(broadcast_index_plain T) in E3 by assumption. lra.
    - cbn. repeat apply Forall_cons; try apply Forall_nil; apply term_fits_plain;
        solve [assumption | exact I].
    - apply Exists_cons_hd. apply summand_rows_all; [assumption | exact I]. }
  assert (Hbin : forall t, (t < T)%nat ->
            (val (var_label son) t == 0 \/ val (var_label son) t == 1) /\
            (val (var_label soff) t == 0 \/ val (var_label soff) t == 1)).
  { intros t Ht.
    destruct (Vson t ltac:(lia)) as (_ & _ & _ & B1).
    destruct (Vsoff t ltac:(lia)) as (_ & _ & _ & B2). auto. }
  split; [exact Hchange|]. split; [|split].
  - intros t Ht. specialize (Hexcl t Ht).
    destruct (Hbin t Ht) as [[H1|H1] [H2|H2]]; auto. lra.
  - apply (fitting_equation_row val 1 _ 0) in E4; [| lia | | | lia].
    + unfold rhs, term_value, weighted_sum in E4.
      cbn [eq_type summands constants List.map Qsum fold_right s_factor s_var s_as_sum bnth]
        in E4.
      rewrite (broadcast_index_plain 1) in E4 by (assumption || lia).
      rewrite Lson in E4.
      rewrite (Qsum_scaled (-1) (val (var_label son))) in E4. lra.
    + cbn. repeat apply Forall_cons; try apply Forall_nil.
      * apply term_fits_plain; [assumption | exact I].
      * apply term_fits_sum.
    + apply Exists_cons_hd. apply summand_rows_all; [assumption | exact I].
  - intros t Ht Ho Hp. specialize (Hchange t Ht). specialize (Hexcl t Ht).
    destruct (Hbin t Ht) as [[H1|H1] [H2|H2]], Ho as [Ho|Ho], Hp as [Hp|Hp];
      split; split; intros; try split; lra.
Qed.

(** The boiler over five hours with [on = 0,1,1,0,1]. *)
Lemma switch_marks_changes_witness :
  Forall (eq_holds switch_val) (emitted (_add_switch_constraints switch_model sm5)) /\
  (forall t, (t < 5)%nat ->
     switch_val "Boiler__OnOff__switchOn" t - switch_val "Boiler__OnOff__switchOff" t
     == switch_val "Boiler__OnOff__on" t
        - on_before switch_val
            (new_variable "on" "Boiler__OnOff" 5 None None true None (Some (NArray [0]))) 0 t) /\
  (forall t, (t < 5)%nat ->
     (switch_val "Boiler__OnOff__switchOn" t == 0 \/
      switch_val "Boiler__OnOff__switchOff" t == 0)) /\
  switch_val "Boiler__OnOff__nrSwitchOn" 0%nat
  == Qsum (List.map (switch_val "Boiler__OnOff__switchOn") (seq 0 5)).
Proof.
  assert (He : Forall (eq_holds switch_val)
                 (emitted (_add_switch_constraints switch_model sm5)))
    by (apply Forall_eq_check; vm_compute; reflexivity).
  split; [exact He|].
  destruct (switch_marks_changes switch_model sm5
              (new_variable "on" "Boiler__OnOff" 5 None None true None (Some (NArray [0])))
              (new_variable "switchOn" "Boiler__OnOff" 5 None None true None None)
              (new_variable "switchOff" "Boiler__OnOff" 5 None None true None None)
              (new_variable "nrSwitchOn" "Boiler__OnOff" 1 None None false None None)
              0 5 switch_val eq_refl eq_refl eq_refl eq_refl eq_refl eq_refl eq_refl eq_refl
              eq_refl eq_refl eq_refl eq_refl He
              ltac:(apply var_check_spec; vm_compute; reflexivity)
              ltac:(apply var_check_spec; vm_compute; reflexivity))
    as (H1 & H2 & H3 & _).
  split; [exact H1|]. split; [exact H2 | exact H3].
Defined.

(** ** The share ledger: modelling and adding shares *)

Lemma opt_times_dt_fits o dt T :
  (1 <= T)%nat -> length dt = T -> opt_fits T o ->
  exists r, opt_times_dt o dt = Ok r /\
    match o, r with
    | Some x, Some y => forall t, (t < T)%nat -> bnth y t = bnth x t * nth t dt 0
    | None, None => True
    | _, _ => False
    end.
Proof.
  intros HT Hdt Ho. destruct o as [x|]; [|exists None; split; [reflexivity | exact I]].
  cbn in Ho. unfold opt_times_dt, np_multiply.
  destruct (np_broadcast2_fits Qmult x (NArray dt) T HT Ho Hdt) as (y & -> & _ & Hy).
  exists (Some y). split; [reflexivity|].
  intros t Ht. rewrite (Hy t Ht), bnth_array by lia. reflexivity.
Qed.

(** [ShareAllocationModel.do_modeling] succeeds on every horizon that
    the per-hour limits fit and leaves a ledger that shares can be added
    to, with the shares recorded so far untouched. The total is kept
    within [total_min] and [total_max]; for time-indexed shares the sum
    of each step is kept within the per-hour limits times the duration
    of the step. *)
Theorem ledger_modeling_ready (s : ShareAllocationModel) (sm : SystemModel) :
  horizon_ok sm ->
  (1 <= nr_of_time_steps sm)%nat ->
  opt_fits (nr_of_time_steps sm) (_min_per_hour s) ->
  opt_fits (nr_of_time_steps sm) (_max_per_hour s) ->
  exists s' total,
    ShareAllocationModel_do_modeling s sm = Ok s' /\
    ledger_modelled s' /\
    shares s' = shares s /\ sub_models s' = sub_models s /\
    sum_ s' = Some total /\
    (forall val, var_ok val total ->
       (forall m, _total_min s = Some m -> m <= val (var_label total) 0%nat) /\
       (forall m, _total_max s = Some m -> val (var_label total) 0%nat <= m)) /\
    (_shares_are_time_series s = true ->
     exists per_step,
       sum_TS s' = Some per_step /\
       var_length per_step = nr_of_time_steps sm /\
       forall val, var_ok val per_step ->
         forall t, (t < nr_of_time_steps sm)%nat ->
           (forall x, _min_per_hour s = Some x ->
              bnth x t * nth t (dt_in_hours sm) 0 <= val (var_label per_step) t) /\
           (forall x, _max_per_hour s = Some x ->
              val (var_label per_step) t <= bnth x t * nth t (dt_in_hours sm) 0)).
Proof.
  intros (_ & Hdt & _) HT Hmin Hmax.
  destruct (opt_times_dt_fits _ _ _ HT Hdt Hmin) as (lb & Hlb & Slb).
  destruct (opt_times_dt_fits _ _ _ HT Hdt Hmax) as (ub & Hub & Sub).
  assert (Htotal : forall val lo hi,
            var_ok val (new_variable (String.append (sa_label s) "_sum") (sa_owner s) 1
                          (opt_skalar lo) (opt_skalar hi) false None None) ->
            (forall m, lo = Some m ->
               m <= val (full_label (sa_owner s) (String.append (sa_label s) "_sum")) 0%nat) /\
            (forall m, hi = Some m ->
               val (full_label (sa_owner s) (String.append (sa_label s) "_sum")) 0%nat <= m)).
  { intros val lo hi Hv. destruct (Hv 0%nat ltac:(cbn; lia)) as (Hlo & Hhi & _).
    split; intros m Hm; subst; [exact Hlo | exact Hhi]. }
  unfold ShareAllocationModel_do_modeling.
  destruct (_shares_are_time_series s) eqn:Hts.
  - rewrite Hlb, Hub. eexists _, _. split; [reflexivity|].
    split; [split; reflexivity|].
    split; [reflexivity|]. split; [reflexivity|]. split; [reflexivity|].
    split; [intros val Hv; exact (Htotal val _ _ Hv)|].
    intros _. eexists. split; [reflexivity|]. split; [reflexivity|].
    intros val Hv t Ht. destruct (Hv t ltac:(cbn; exact Ht)) as (Hlo & Hhi & _).
    cbn [new_variable var_label lower_bound upper_bound] in Hlo, Hhi.
    split; intros x Hx; rewrite Hx in *.
    + destruct lb as [y|]; [|contradiction]. cbn in Hlo. rewrite (Slb t Ht) in Hlo. exact Hlo.
    + destruct ub as [y|]; [|contradiction]. cbn in Hhi. rewrite (Sub t Ht) in Hhi. exact Hhi.
  - eexists _, _. split; [reflexivity|].
    split; [split; [reflexivity | cbn; congruence]|].
    split; [reflexivity|]. split; [reflexivity|]. split; [reflexivity|].
    split; [intros val Hv; exact (Htotal val _ _ Hv)|].
    discriminate.
Qed.

(** Costs capped at 5 per hour, over three steps of half an hour. *)
Lemma ledger_modeling_ready_witness :
  exists s' total,
    ShareAllocationModel_do_modeling capped_ledger sm_half = Ok s' /\
    ledger_modelled s' /\
    sum_ s' = Some total /\
    exists per_step,
      sum_TS s' = Some per_step /\
      forall val, var_ok val per_step ->
        forall t, (t < 3)%nat -> val (var_label per_step) t <= 5 * nth t [1 # 2; 1 # 2; 1 # 2] 0.
Proof.
  destruct (ledger_modeling_ready capped_ledger sm_half
              (conj eq_refl (conj eq_refl eq_refl)) ltac:(cbn; lia) I I)
    as (s' & total & Hrun & Hready & _ & _ & Htotal & _ & Hts).
  destruct (Hts eq_refl) as (per_step & Hsum & _ & Hbounds).
  exists s', total. split; [exact Hrun|]. split; [exact Hready|]. split; [exact Htotal|].
  exists per_step. split; [exact Hsum|].
  intros val Hv t Ht. exact (proj2 (Hbounds val Hv t Ht) (Skalar 5) eq_refl).
Defined.

Lemma ledger_modelled_set b e m s :
  ledger_modelled s -> ledger_modelled (append_sub_model m (set_target_eq b e s)).
Proof.
  destruct s as [el lbl ts sm sh ets esum are_ts tmax tmin pmax pmin subs].
  unfold ledger_modelled, append_sub_model, set_target_eq, targets_sum. cbn.
  intros [H1 H2]. destruct b, are_ts; cbn; auto.
Qed.

(** [add_share] keeps a modelled ledger modelled, whether it succeeds
    or not, so shares can be added one after the other. It changes
    nothing at all when the share cannot be constructed, never touches
    the entries of other names, and on success appends exactly one
    sub-model, adds its variable to the target equation and leaves the
    other equation as it was. *)
Theorem add_share_keeps_ledger (sm : SystemModel) (name : string)
    (variable : option Variable_) (factor : Numeric) (share_as_sum : bool)
    (s : ShareAllocationModel) :
  ledger_modelled s ->
  let run := add_share sm name variable factor share_as_sum s in
  ledger_modelled (snd run) /\
  (raises (SingleShareModel_init (sa_element s) name variable factor share_as_sum) ->
   snd run = s) /\
  (forall other, other <> name -> shares (snd run) !! other = shares s !! other) /\
  (fst run = Ok tt ->
   exists m e,
     SingleShareModel_init (sa_element s) name variable factor share_as_sum = Ok m /\
     sub_models (snd run) = sub_models s ++ [m] /\
     target_eq s share_as_sum = Some e /\
     target_eq (snd run) share_as_sum
       = Some (add_summand e (single_share m) (Skalar 1) None false) /\
     (if targets_sum s share_as_sum
      then _eq_time_series (snd run) = _eq_time_series s
      else _eq_sum (snd run) = _eq_sum s)).
Proof.
  intros Hs run. subst run.
  destruct (target_eq_modelled s share_as_sum Hs) as (e & He).
  rewrite (add_share_run sm name variable factor share_as_sum s e He).
  destruct (SingleShareModel_init _ _ _ _ _) as [m|x]; cbn [raises].
  - destruct (is_some (shares s !! name)) eqn:Hname; cbn [fst snd].
    + split; [now apply ledger_modelled_set|]. split; [intros []|].
      split; [reflexivity | discriminate].
    + split; [exact (ledger_modelled_set _ _ _ _ Hs)|]. split; [intros []|].
      split.
      * intros other Hother. cbn. now rewrite lookup_insert_ne.
      * intros _. exists m, e. split; [reflexivity|]. split; [reflexivity|].
        split; [exact He|]. split; [apply target_eq_set|].
        cbn. destruct (targets_sum s share_as_sum); reflexivity.
  - cbn [fst snd]. split; [exact Hs|]. split; [reflexivity|].
    split; [reflexivity | discriminate].
Qed.

(** A share for electricity after the share for fuel. *)
Lemma add_share_keeps_ledger_witness :
  let run := add_share sm3 "power" (Some fuel_flow) (Skalar 3) false cost_ledger_with_fuel in
  ledger_modelled (snd run) /\
  shares (snd run) !! "fuel" = shares cost_ledger_with_fuel !! "fuel" /\
  length (sub_models (snd run)) = 2%nat.
Proof.
  assert (Hs : ledger_modelled cost_ledger_with_fuel) by (split; reflexivity).
  destruct (add_share_keeps_ledger sm3 "power" (Some fuel_flow) (Skalar 3) false
              cost_ledger_with_fuel Hs) as (Hkeeps & _ & Hothers & Hok).
  split; [exact Hkeeps|].
  split; [apply Hothers; discriminate|].
  destruct (Hok eq_refl) as (m & e & _ & Hsub & _). rewrite Hsub, length_app. reflexivity.
Defined.

(** A share's own variable carries the share: the constant for a share
    without variable (the sum of the factor when summed), the weighted
    sum over all steps when the variable is summed, and else the factor
    times the variable at every step. *)
Theorem single_share_value (element name : string) (variable : option Variable_)
    (factor : Numeric) (share_as_sum : bool) (m : SingleShareModel) (val : Valuation) :
  SingleShareModel_init element name variable factor share_as_sum = Ok m ->
  match variable with
  | Some v => fits (var_length v) factor /\ (1 <= var_length v)%nat
  | None => True
  end ->
  eq_holds val (single_equation m) ->
  let share := val (full_label element name) in
  match variable with
  | None => share 0%nat == (if share_as_sum then np_sum factor else bnth factor 0)
  | Some v =>
      if share_as_sum then share 0%nat == weighted_sum val factor v
      else forall t, (t < var_length v)%nat -> share t == bnth factor t * val (var_label v) t
  end.
Proof.
  intros Hinit Hfits He share. subst share.
  unfold SingleShareModel_init in Hinit.
  destruct variable as [v|].
  - destruct Hfits as [Hf Hlen].
    destruct share_as_sum.
    + destruct (Nat.eqb (var_length v) 1) eqn:Hl; cbn in Hinit; [discriminate|].
      injection Hinit as Hm. rewrite <- Hm in He. cbn [single_equation] in He.
      apply (fitting_equation_row val 1 _ 0) in He; [| lia | | | lia].
      * unfold rhs, term_value in He.
        cbn [add_summand new_equation eq_type summands constants app List.map Qsum fold_right
             s_factor s_var s_as_sum bnth] in He.
        rewrite (broadcast_index_plain 1) in He by (reflexivity || lia).
        cbn [var_label] in He. lra.
      * cbn. repeat apply Forall_cons; try apply Forall_nil.
        -- apply term_fits_plain; [reflexivity | exact I].
        -- apply term_fits_sum.
      * apply Exists_cons_hd. reflexivity.
    + assert (Hm : m = mkSingleShareModel name
                ({| var_label := full_label element name; var_length := var_length v;
                    lower_bound := None; upper_bound := None; is_binary := false;
                    fixed_value := None; previous_values := None |})
                (add_summand
                   (add_summand (new_equation (full_label element name)
                                   (full_label element name) eq_)
                      {| var_label := full_label element name; var_length := var_length v;
                         lower_bound := None; upper_bound := None; is_binary := false;
                         fixed_value := None; previous_values := None |}
                      (Skalar (-1)) None false)
                   v factor None false)).
      { destruct (Nat.eqb (var_length v) 1) eqn:Hl; cbn in Hinit;
          injection Hinit as Hm; rewrite <- Hm; [|reflexivity].
        apply Nat.eqb_eq in Hl. rewrite Hl. reflexivity. }
      rewrite Hm in He. cbn [single_equation] in He. clear Hm Hinit.
      intros t Ht.
      apply (fitting_equation_row val (var_length v) _ t) in He; [| lia | | | exact Ht].
      * unfold rhs, term_value in He.
        cbn [add_summand new_equation eq_type summands constants app List.map Qsum fold_right
             s_factor s_var s_as_sum bnth] in He.
        rewrite !(broadcast_index_plain (var_length v)) in He by (reflexivity || exact Ht).
        cbn [var_label] in He. lra.
      * cbn. repeat apply Forall_cons; try apply Forall_nil.
        -- apply term_fits_plain; [reflexivity | exact I].
        -- apply term_fits_plain; [reflexivity | exact Hf].
      * apply Exists_cons_hd. apply summand_rows_all; [reflexivity | exact I].
  - assert (Hm : exists c, m = mkSingleShareModel name
                (mkVariable (full_label element name) 1 None None false None None)
                (add_constant
                   (add_summand (new_equation (full_label element name)
                                   (full_label element name) eq_)
                      (mkVariable (full_label element name) 1 None None false None None)
                      (Skalar (-1)) None false)
                   (Skalar (-1 * c))) /\
              c = if share_as_sum then np_sum factor else bnth factor 0).
    { destruct share_as_sum; cbn in Hinit.
      - injection Hinit as Hm. eexists. split; [symmetry; exact Hm | reflexivity].
      - destruct factor as [q|l]; cbn in Hinit; [|discriminate].
        injection Hinit as Hm. eexists. split; [symmetry; exact Hm | reflexivity]. }
    destruct Hm as (c & Hm & Hc). rewrite <- Hc. rewrite Hm in He. cbn [single_equation] in He.
    apply (fitting_equation_row val 1 _ 0) in He; [| lia | | | lia].
    + unfold rhs, term_value in He.
      cbn [add_summand add_constant new_equation eq_type summands constants app List.map Qsum
           fold_right s_factor s_var s_as_sum bnth] in He.
      rewrite (broadcast_index_plain 1) in He by (reflexivity || lia).
      cbn [var_label] in He. lra.
    + cbn. repeat apply Forall_cons; try apply Forall_nil.
      apply term_fits_plain; [reflexivity | exact I].
    + apply Exists_cons_hd. reflexivity.
Qed.

(** Fuel at 4, 0 and 10 costs 8, 0 and 20. *)
Lemma single_share_value_witness :
  eq_holds fuel_val (single_equation fuel_share) /\
  forall t, (t < 3)%nat ->
    fuel_val "Effects__fuel" t == 2 * fuel_val "Boiler__Q_fu__flow_rate" t.
Proof.
  assert (He : eq_holds fuel_val (single_equation fuel_share))
    by (apply eq_check_spec; vm_compute; reflexivity).
  split; [exact He|].
  assert (Hv : fits (var_length fuel_flow) (Skalar 2) /\ (1 <= var_length fuel_flow)%nat)
    by (split; [exact I | cbn; lia]).
  exact (single_share_value "Effects" "fuel" (Some fuel_flow) (Skalar 2) false fuel_share
           fuel_val eq_refl Hv He).
Defined.

(** ** One segment with any end points *)

Lemma segment_pair_run (x y : Variable_) px py (as_ts : bool) outside (sm : SystemModel)
    element :
  var_label x <> var_label y ->
  let L := if as_ts then nr_of_time_steps sm else 1%nat in
  let owner := full_label element "MultipleSegments" in
  let run := MultipleSegmentsModel_do_modeling (segment_pair element x y px py outside as_ts)
               sm empty_built in
  exists vs e,
    variables (snd run)
    = [seg0_in element L; seg0_lambda0 element L; seg0_lambda1 element L] ++ vs /\
    eqs (snd run)
    = [mkEquation (full_label (seg0_owner element) "inSegment") eq_
         [mkSummand (seg0_in element L) (Skalar (-1)) None false;
          mkSummand (seg0_lambda0 element L) (Skalar 1) None false;
          mkSummand (seg0_lambda1 element L) (Skalar 1) None false] [];
       mkEquation (full_label owner (String.append "lambda_" (var_label x))) eq_
         [mkSummand x (Skalar (-1)) None false;
          mkSummand (seg0_lambda0 element L) (fst px) None false;
          mkSummand (seg0_lambda1 element L) (snd px) None false] [];
       mkEquation (full_label owner (String.append "lambda_" (var_label y))) eq_
         [mkSummand y (Skalar (-1)) None false;
          mkSummand (seg0_lambda0 element L) (fst py) None false;
          mkSummand (seg0_lambda1 element L) (snd py) None false] [];
       e] /\
    match outside with
    | OutsideVariable v =>
        e = mkEquation (full_label owner "in_single_Segment") eq_
              [mkSummand (seg0_in element L) (Skalar 1) None false;
               mkSummand v (Skalar (-1)) None false] []
    | OutsideBool true =>
        e = mkEquation (full_label owner "in_single_Segment") eq_
              [mkSummand (seg0_in element L) (Skalar 1) None false;
               mkSummand (new_variable "outside_segments" owner L None None true None None)
                 (Skalar (-1)) None false] []
    | _ =>
        e = mkEquation (full_label owner "in_single_Segment") eq_
              [mkSummand (seg0_in element L) (Skalar 1) None false] [Skalar 1]
    end.
Proof.
  intros Hxy L owner run. subst run owner.
  assert (Hyx : String.eqb (var_label x) (var_label y) = false) by now apply String.eqb_neq.
  destruct px as [x0 x1], py as [y0 y1].
  unfold MultipleSegmentsModel_do_modeling, segment_pair, MultipleSegmentsModel_init, bind, lift.
  cbn -[String.eqb full_label pretty String.append points_of].
  unfold points_of. cbn [find fst sample_points].
  rewrite !String.eqb_refl, Hyx.
  destruct outside as [|[|]|v]; cbn -[String.eqb full_label pretty String.append];
    eexists _, _; (split; [reflexivity|]); (split; [reflexivity|]); reflexivity.
Qed.

(** One segment between any end points: at every step the two
    variables are the same mix of their end points, with non-negative
    weights that add up to [inSegment], and [inSegment] is 1 when no
    stay outside is allowed and else equals the variable given (or
    created) for it. So that variable is 1 inside the segment, and 0
    puts both weights to 0. *)
Theorem single_segment_interpolates (element : string) (x y : Variable_)
    (px py : Numeric * Numeric) (as_ts : bool) (outside : CanBeOutside)
    (sm : SystemModel) (val : Valuation) :
  var_label x <> var_label y ->
  let L := if as_ts then nr_of_time_steps sm else 1%nat in
  (1 <= L)%nat ->
  var_length x = L -> var_length y = L ->
  fits L (fst px) -> fits L (snd px) -> fits L (fst py) -> fits L (snd py) ->
  match outside with OutsideVariable v => var_length v = L | _ => True end ->
  feasible val
    (snd (MultipleSegmentsModel_do_modeling (segment_pair element x y px py outside as_ts)
            sm empty_built)) ->
  forall t, (t < L)%nat ->
    let inside := val (full_label (seg0_owner element) "inSegment") t in
    let l0 := val (full_label (seg0_owner element) "lambda0") t in
    let l1 := val (full_label (seg0_owner element) "lambda1") t in
    0 <= l0 /\ 0 <= l1 /\ l0 + l1 == inside /\
    (inside == 0 \/ inside == 1) /\
    inside == segment_switch val element outside t /\
    val (var_label x) t == bnth (fst px) t * l0 + bnth (snd px) t * l1 /\
    val (var_label y) t == bnth (fst py) t * l0 + bnth (snd py) t * l1.
Proof.
  intros Hxy L HL Hx Hy Hx0 Hx1 Hy0 Hy1 Hout [Hvars Heqs] t Ht inside l0 l1.
  subst inside l0 l1.
  destruct (segment_pair_run x y px py as_ts outside sm element Hxy)
    as (vs & e & Ev & Ee & Hlast).
  fold L in Ev, Ee, Hlast. rewrite Ev in Hvars. rewrite Ee in Heqs. clear Ev Ee.
  apply Forall_app in Hvars as [Hvars _].
  apply Forall_cons_iff in Hvars as [Vin Hvars].
  apply Forall_cons_iff in Hvars as [V0 Hvars].
  apply Forall_cons_iff in Hvars as [V1 _].
  destruct (Vin t ltac:(cbn; exact Ht)) as (_ & _ & _ & Hbin). specialize (Hbin eq_refl).
  destruct (V0 t ltac:(cbn; exact Ht)) as (Hl0 & _).
  destruct (V1 t ltac:(cbn; exact Ht)) as (Hl1 & _).
  cbn in Hbin, Hl0, Hl1.
  apply Forall_cons_iff in Heqs as [E1 Heqs].
  apply Forall_cons_iff in Heqs as [E2 Heqs].
  apply Forall_cons_iff in Heqs as [E3 Heqs].
  apply Forall_cons_iff in Heqs as [E4 _].
  apply (plain_equation_row val L _ t) in E1; [| discriminate | plain_terms | assumption].
  apply (plain_equation_row val L _ t) in E2; [| discriminate | plain_terms | assumption].
  apply (plain_equation_row val L _ t) in E3; [| discriminate | plain_terms | assumption].
  unfold term_at, rhs in E1, E2, E3.
  cbn [eq_type summands constants List.map Qsum fold_right s_factor s_var bnth
       seg0_in seg0_lambda0 seg0_lambda1 new_variable var_label] in E1, E2, E3.
  assert (Hswitch : val (full_label (seg0_owner element) "inSegment") t
                    == segment_switch val element outside t).
  { unfold segment_switch. destruct outside as [|[|]|v]; subst e;
      (apply (plain_equation_row val L _ t) in E4; [| discriminate | plain_terms | assumption]);
      unfold term_at, rhs in E4;
      cbn [eq_type summands constants List.map Qsum fold_right s_factor s_var bnth
           seg0_in new_variable var_label] in E4; lra. }
  repeat split; solve [assumption | lra].
Qed.

(** A boiler's fuel and heat on the segment from (2, 10) to (10, 80),
    switched by its on variable: at the lower end, off, and half way. *)
Lemma single_segment_interpolates_witness :
  feasible switched_segment_val
    (snd (MultipleSegmentsModel_do_modeling
            (segment_pair "Boiler" seg_x seg_y (Skalar 2, Skalar 10) (Skalar 10, Skalar 80)
               (OutsideVariable heat_on) true) sm3 empty_built)) /\
  forall t, (t < 3)%nat ->
    switched_segment_val "Boiler__Segment_0__lambda0" t
    + switched_segment_val "Boiler__Segment_0__lambda1" t
    == switched_segment_val "Boiler__Segment_0__inSegment" t /\
    switched_segment_val "Boiler__Segment_0__inSegment" t
    == switched_segment_val "Boiler__Q_th__OnOff__on" t /\
    switched_segment_val "Boiler__Q_th__flow_rate" t
    == 10 * switched_segment_val "Boiler__Segment_0__lambda0" t
       + 80 * switched_segment_val "Boiler__Segment_0__lambda1" t.
Proof.
  assert (Hxy : var_label seg_x <> var_label seg_y) by (vm_compute; discriminate).
  assert (Hf : feasible switched_segment_val
    (snd (MultipleSegmentsModel_do_modeling
            (segment_pair "Boiler" seg_x seg_y (Skalar 2, Skalar 10) (Skalar 10, Skalar 80)
               (OutsideVariable heat_on) true) sm3 empty_built)))
    by (apply feasible_check_spec; vm_compute; reflexivity).
  split; [exact Hf|].
  intros t Ht.
  destruct (single_segment_interpolates "Boiler" seg_x seg_y (Skalar 2, Skalar 10)
              (Skalar 10, Skalar 80) true (OutsideVariable heat_on) sm3 switched_segment_val
              Hxy ltac:(cbn; lia) eq_refl eq_refl I I I I eq_refl Hf t Ht)
    as (_ & _ & Hsum & _ & Hin & _ & Hy).
  split; [exact Hsum|]. split; [exact Hin | exact Hy].
Defined.

(** ** Segments with missing end points *)

Lemma restructure_only_index_error i points e :
  restructure i points = Raise e -> e = IndexError "list index out of range".
Proof.
  revert e. induction points as [|[key values] rest IH]; intros e; simpl; [discriminate|].
  destruct (nth_error values i).
  - destruct (restructure i rest) as [r|e']; [discriminate|].
    intros [= <-]. now apply IH.
  - now intros [= <-].
Qed.

Lemma restructure_raises i points :
  Exists (fun kv => (length (snd kv) <= i)%nat) points ->
  restructure i points = Raise (IndexError "list index out of range").
Proof.
  induction 1 as [[key values] rest Hl | [key values] rest _ IH]; simpl.
  - simpl in Hl. apply nth_error_None in Hl. now rewrite Hl.
  - rewrite IH. now destruct (nth_error values i).
Qed.

Lemma restructure_all_raises idxs points i :
  In i idxs ->
  restructure i points = Raise (IndexError "list index out of range") ->
  restructure_all idxs points = Raise (IndexError "list index out of range").
Proof.
  intros Hin Hi. induction idxs as [|j idxs IH]; [contradiction|]. simpl.
  destruct (restructure j points) as [d|e] eqn:Hj.
  - destruct Hin as [-> | Hin]; [congruence|]. now rewrite IH.
  - now rewrite (restructure_only_index_error _ _ _ Hj).
Qed.

(** The number of segments is read off the first variable. When a
    later variable has fewer pairs of end points,
    [MultipleSegmentsModel.do_modeling] raises an [IndexError] before
    it has created any variable or equation. *)
Theorem segments_need_all_points (ms : MultipleSegmentsModel) (sm : SystemModel)
    (key : Variable_) (first : list (Numeric * Numeric))
    (rest : list (Variable_ * list (Numeric * Numeric))) (b : Built) :
  _sample_points ms = (key, first) :: rest ->
  Exists (fun kv => (length (snd kv) < length first)%nat) rest ->
  MultipleSegmentsModel_do_modeling ms sm b
  = (Raise (IndexError "list index out of range"), b).
Proof.
  intros Hpoints Hex.
  unfold MultipleSegmentsModel_do_modeling, bind, lift, _nr_of_segments.
  rewrite Hpoints. cbn [fst snd].
  apply Exists_exists in Hex as ([k values] & Hin & Hlen). cbn in Hlen.
  rewrite (restructure_all_raises (seq 0 (length first)) _ (length values)).
  - reflexivity.
  - apply in_seq. lia.
  - apply restructure_raises. apply Exists_cons_tl.
    apply Exists_exists. exists (k, values). split; [exact Hin | cbn; lia].
Qed.

(** Two segments of fuel against one of heat. *)
Lemma segments_need_all_points_witness :
  MultipleSegmentsModel_do_modeling ragged_segments sm3 empty_built
  = (Raise (IndexError "list index out of range"), empty_built).
Proof.
  apply (segments_need_all_points ragged_segments sm3 seg_x
           [(Skalar 0, Skalar 5); (Skalar 5, Skalar 10)]
           [(seg_y, [(Skalar 0, Skalar 40)])] empty_built eq_refl).
  apply Exists_cons_hd. cbn. lia.
Defined.

(** ** [FlowModel.do_modeling] for a flow of fixed size without on/off *)

Lemma grows_load_factor element hours inv sm :
  grows (_create_bounds_for_load_factor element hours inv sm).
Proof. unfold _create_bounds_for_load_factor. grows_tac. Qed.

Lemma grows_flow_shares element rate sm : grows (FlowModel_create_shares element rate sm).
Proof. unfold FlowModel_create_shares. grows_tac. Qed.

#[export] Hint Resolve grows_load_factor grows_flow_shares : grows.

Lemma grows_flow cfg element sm : grows (FlowModel_do_modeling cfg element sm).
Proof. unfold FlowModel_do_modeling. grows_tac. Qed.

#[export] Hint Resolve grows_flow : grows.

Lemma bnth_np_times x c n t :
  fits n x -> (t < n)%nat -> bnth (np_times x c) t = bnth x t * c.
Proof. intros Hx Ht. unfold np_times. now rewrite (bnth_np_map _ _ n). Qed.

Lemma load_factor_run_plain element hours sm s b :
  size element = SizeSkalar s ->
  _create_bounds_for_load_factor element hours None sm b
  = (Ok tt,
     mkBuilt (variables b)
       (eqs b ++
        match load_factor_max element with
        | Some lf =>
            [mkEquation (full_label (Flow_label_full element) "load_factor_max") ineq
               [mkSummand hours (Skalar 1) None false]
               [Skalar (s * (dt_in_hours_total sm * lf))]]
        | None => []
        end ++
        match load_factor_min element with
        | Some lf =>
            [mkEquation (full_label (Flow_label_full element) "load_factor_min") ineq
               [mkSummand hours (Skalar (-1)) None false]
               [Skalar (-1 * s * (dt_in_hours_total sm * lf))]]
        | None => []
        end)
       (share_calls b) (warnings b)).
Proof.
  intros Hs. unfold _create_bounds_for_load_factor. rewrite Hs.
  destruct b as [vs es cs ws].
  destruct (load_factor_max element), (load_factor_min element);
    unfold bind, emit, modify, ret; cbn; rewrite <- ?app_assoc, ?app_nil_r; reflexivity.
Qed.

(** A flow of fixed size without on/off parameters: in every feasible
    assignment the flow rate lies between the relative bounds times the
    size at every step (and equals the fixed profile times the size when
    one is given), [sumFlowHours] is the energy of the horizon, the sum
    of rate times duration, kept within the total limits, and the load
    factors bound it against size times total duration. *)
Theorem plain_flow_model (cfg : Config) (element : Flow) (sm : SystemModel) (s : Q)
    (val : Valuation) :
  horizon_ok sm ->
  on_off_parameters element = None ->
  size element = SizeSkalar s ->
  fits (nr_of_time_steps sm) (fst (relative_flow_rate_bounds element)) ->
  fits (nr_of_time_steps sm) (snd (relative_flow_rate_bounds element)) ->
  feasible val (snd (FlowModel_do_modeling cfg element sm empty_built)) ->
  let rate := val (full_label (Flow_label_full element) "flow_rate") in
  let hours := val (full_label (Flow_label_full element) "sumFlowHours") 0%nat in
  (forall t, (t < nr_of_time_steps sm)%nat ->
     bnth (fst (relative_flow_rate_bounds element)) t * s <= rate t
     <= bnth (snd (relative_flow_rate_bounds element)) t * s) /\
  hours == Qsum (List.map (fun t => nth t (dt_in_hours sm) 0 * rate t)
                   (seq 0 (nr_of_time_steps sm))) /\
  (forall m, flow_hours_total_min element = Some m -> m <= hours) /\
  (forall m, flow_hours_total_max element = Some m -> hours <= m) /\
  (forall lf, load_factor_max element = Some lf ->
     hours <= s * (dt_in_hours_total sm * lf)) /\
  (forall lf, load_factor_min element = Some lf ->
     s * (dt_in_hours_total sm * lf) <= hours).
Proof.
  intros (Hidx & Hdt & _) Hon Hsize Hmin Hmax Hf rate hours. subst rate hours.
  unfold FlowModel_do_modeling in Hf. cbv zeta in Hf.
  unfold absolute_flow_rate_bounds in Hf.
  destruct (relative_flow_rate_bounds element) as [rel_min rel_max].
  cbn [fst snd] in *. rewrite Hon, Hsize in Hf. cbn [fst snd] in Hf.
  erewrite bind_run in Hf by reflexivity.
  erewrite bind_run in Hf by reflexivity.
  erewrite bind_run in Hf by reflexivity.
  erewrite bind_run in Hf by reflexivity.
  erewrite bind_run in Hf by reflexivity.
  erewrite bind_run in Hf by (apply load_factor_run_plain; exact Hsize).
  apply feasible_before in Hf; [|grows_tac].
  destruct Hf as [Hvars Heqs].
  cbn [variables eqs empty_built app] in Hvars, Heqs.
  apply Forall_cons_iff in Hvars as [Vrate Hvars].
  apply Forall_cons_iff in Hvars as [Vhours _].
  apply Forall_cons_iff in Heqs as [E Heqs].
  destruct (Vhours 0%nat ltac:(cbn; lia)) as (Hlo & Hhi & _).
  cbn [new_variable var_label var_length lower_bound upper_bound] in Hlo, Hhi.
  apply (fitting_equation_row val 1 _ 0) in E; [| lia | | | lia].
  2:{ cbn. repeat apply Forall_cons; try apply Forall_nil.
      - apply term_fits_sum.
      - apply term_fits_plain; [reflexivity | exact I]. }
  2:{ apply Exists_cons_hd. reflexivity. }
  unfold rhs, term_value in E.
  cbn [add_summand new_equation eq_type summands constants app List.map Qsum fold_right
       s_factor s_var s_as_sum bnth] in E.
  rewrite weighted_sum_steps in E by (cbn; exact Hdt).
  rewrite (broadcast_index_plain 1) in E by (cbn; lia).
  cbn [new_variable var_label var_length] in E.
  split; [|split; [|split; [|split; [|split]]]].
  - intros t Ht. destruct (Vrate t ltac:(cbn; exact Ht)) as (Rlo & Rhi & _).
    cbn [new_variable var_label lower_bound upper_bound opt_bound] in Rlo, Rhi.
    rewrite (bnth_np_times _ _ _ _ Hmin Ht) in Rlo.
    rewrite (bnth_np_times _ _ _ _ Hmax Ht) in Rhi. split; assumption.
  - lra.
  - intros m Hm. rewrite Hm in Hlo. exact Hlo.
  - intros m Hm. rewrite Hm in Hhi. exact Hhi.
  - intros lf Hlf. rewrite Hlf in Heqs. apply Forall_cons_iff in Heqs as [Emax _].
    apply (fitting_equation_row val 1 _ 0) in Emax; [| lia | | | lia].
    + unfold rhs, term_value in Emax.
      cbn [eq_type summands constants List.map Qsum fold_right s_factor s_var s_as_sum bnth]
        in Emax.
      rewrite (broadcast_index_plain 1) in Emax by (cbn; lia).
      cbn [new_variable var_label] in Emax. lra.
    + cbn. repeat apply Forall_cons; try apply Forall_nil.
      apply term_fits_plain; [reflexivity | exact I].
    + apply Exists_cons_hd. reflexivity.
  - intros lf Hlf. rewrite Hlf in Heqs.
    apply Forall_app in Heqs as [_ Heqs]. apply Forall_cons_iff in Heqs as [Emin _].
    apply (fitting_equation_row val 1 _ 0) in Emin; [| lia | | | lia].
    + unfold rhs, term_value in Emin.
      cbn [eq_type summands constants List.map Qsum fold_right s_factor s_var s_as_sum bnth]
        in Emin.
      rewrite (broadcast_index_plain 1) in Emin by (cbn; lia).
      cbn [new_variable var_label] in Emin. lra.
    + cbn. repeat apply Forall_cons; try apply Forall_nil.
      apply term_fits_plain; [reflexivity | exact I].
    + apply Exists_cons_hd. reflexivity.
Qed.

(** The heat flow at 50, 10 and 40: 100 flow hours. *)
Lemma plain_flow_model_witness :
  feasible plain_flow_val (snd (FlowModel_do_modeling cfg0 plain_flow sm3 empty_built)) /\
  (forall t, (t < 3)%nat ->
     (1 # 5) * 50 <= plain_flow_val "Boiler__Q_th__flow_rate" t <= 1 * 50) /\
  plain_flow_val "Boiler__Q_th__sumFlowHours" 0%nat
  == Qsum (List.map (fun t => nth t [1; 1; 1] 0 * plain_flow_val "Boiler__Q_th__flow_rate" t)
             (seq 0 3)) /\
  plain_flow_val "Boiler__Q_th__sumFlowHours" 0%nat <= 50 * (3 * (9 # 10)) /\
  50 * (3 * (1 # 2)) <= plain_flow_val "Boiler__Q_th__sumFlowHours" 0%nat.
Proof.
  assert (Hf : feasible plain_flow_val
                 (snd (FlowModel_do_modeling cfg0 plain_flow sm3 empty_built)))
    by (apply feasible_check_spec; vm_compute; reflexivity).
  split; [exact Hf|].
  destruct (plain_flow_model cfg0 plain_flow sm3 50 plain_flow_val
              (conj eq_refl (conj eq_refl eq_refl)) eq_refl eq_refl I I Hf)
    as (Hrate & Hhours & _ & _ & Hmax & Hmin).
  split; [exact Hrate|]. split; [exact Hhours|].
  split; [exact (Hmax _ eq_refl) | exact (Hmin _ eq_refl)].
Defined.

(** ** [OnOffModel.get_consecutive_duration] *)

Lemma filter_none {A} (f : A -> bool) l :
  (forall x, In x l -> f x = false) -> filter f l = [].
Proof.
  induction l as [|x l IH]; intros H; simpl; [reflexivity|].
  rewrite (H x (or_introl eq_refl)). apply IH. intros y Hy. apply H. now right.
Qed.

Lemma length_of_last_duration_after_zero epsilon front z tail :
  np_isclose0 epsilon z = true ->
  Forall (fun b => np_isclose0 epsilon b = false) tail ->
  length_of_last_duration epsilon (front ++ z :: tail) = S (length front).
Proof.
  intros Hz Htail. unfold length_of_last_duration.
  rewrite length_app. cbn [length].
  replace (length front + S (length tail))%nat with (length front + (1 + length tail))%nat
    by lia.
  rewrite seq_app, filter_app. cbn [Nat.add]. rewrite <- cons_seq. cbn [filter].
  rewrite app_nth2 by lia. rewrite Nat.sub_diag. cbn [nth]. rewrite Hz.
  rewrite (filter_none _ (seq (S (length front)) (length tail))).
  - destruct (filter _ (seq 0 (length front))) as [|i l] eqn:E; [reflexivity|].
    rewrite <- E. set (f := filter _ _).
    assert (Hl : last (f ++ [length front]) 0%nat = length front) by apply last_last.
    destruct (f ++ [length front]) eqn:E'; [now destruct f|]. now rewrite Hl.
  - intros i Hi. apply in_seq in Hi.
    rewrite app_nth2 by lia.
    replace (i - length front)%nat with (S (i - S (length front))) by lia. cbn [nth].
    rewrite Forall_forall in Htail. apply Htail. apply nth_In. lia.
Qed.

(** The duration carried over from the previous horizon, for an array
    of previous values and a scalar step: the position of the last zero,
    counted from the start, decides how many values are summed from the
    end. With the last zero at position [i], the last [i + 1] values
    times the step are summed; a zero in the last place therefore makes
    all values count. *)
Theorem previous_duration_after_zero (cfg : Config) (front tail : list Q) (z dt : Q) :
  np_isclose0 (EPSILON cfg) z = true ->
  Forall (fun b => np_isclose0 (EPSILON cfg) b = false) tail ->
  get_consecutive_duration cfg (Some (NArray (front ++ z :: tail))) (Skalar dt)
  = Ok (Qsum (List.map (fun b => b * dt)
                (skipn (length tail) (front ++ z :: tail)))).
Proof.
  intros Hz Htail. unfold get_consecutive_duration.
  rewrite (length_of_last_duration_after_zero _ _ _ _ Hz Htail).
  unfold py_last_n. cbn [Nat.eqb]. rewrite length_app. cbn [length].
  replace (length front + S (length tail) - S (length front))%nat with (length tail) by lia.
  reflexivity.
Qed.

(** On for two hours, then off, then on for one: the last three values
    are summed. *)
Lemma previous_duration_after_zero_witness :
  get_consecutive_duration cfg0 (Some (NArray ([1; 1] ++ 0 :: [1]))) (Skalar 1)
  = Ok (Qsum (List.map (fun b => b * 1) [1; 0; 1])).
Proof.
  apply (previous_duration_after_zero cfg0 [1; 1] [1] 0 1).
  - reflexivity.
  - repeat constructor.
Defined.

(** Without a zero among the previous values, all of them count: the
    carried duration is the sum of the values times the step. *)
Theorem previous_duration_all_on (cfg : Config) (bs : list Q) (dt : Q) :
  Forall (fun b => np_isclose0 (EPSILON cfg) b = false) bs ->
  get_consecutive_duration cfg (Some (NArray bs)) (Skalar dt)
  = Ok (Qsum (List.map (fun b => b * dt) bs)).
Proof.
  intros Hbs. unfold get_consecutive_duration, length_of_last_duration.
  rewrite filter_none.
  - unfold py_last_n. destruct (Nat.eqb (length bs) 0); [reflexivity|].
    now rewrite Nat.sub_diag.
  - intros i Hi. apply in_seq in Hi. rewrite Forall_forall in Hbs.
    apply Hbs. apply nth_In. lia.
Qed.

(** On in the last three steps of the previous horizon. *)
Lemma previous_duration_all_on_witness :
  get_consecutive_duration cfg0 (Some (NArray [1; 1; 1])) (Skalar 1)
  = Ok (Qsum (List.map (fun b => b * 1) [1; 1; 1])).
Proof.
  apply (previous_duration_all_on cfg0 [1; 1; 1] 1). repeat constructor.
Defined.

(** ** Minimum and maximum durations *)

Lemma limited_duration_run cfg self label bv sm dt0 p dts (mn mx : option Q) :
  nr_of_time_steps sm = S (length dts) ->
  indices sm = seq 0 (S (length dts)) ->
  dt_in_hours sm = dt0 :: dts ->
  get_consecutive_duration cfg (previous_values bv) (previous_dt_in_hours sm) = Ok p ->
  let mega := dt_in_hours_total sm + p in
  let d := new_variable label (oo_owner self) (S (length dts)) (Some (Skalar 0))
             (Some (Skalar (match mx with Some M => M | None => mega end)))
             false None (Some (Skalar p)) in
  _get_duration_in_hours cfg self label (Some bv) (constant_duration mn) (constant_duration mx)
    sm (indices sm) empty_built
  = (Ok d,
     mkBuilt [d]
       (firstn 3 (duration_equations (oo_owner self) d bv mega p dt0 dts)
        ++ match mn with
           | Some m => minimum_duration_equations (oo_owner self) d bv p m (length dts)
           | None => []
           end
        ++ skipn 3 (duration_equations (oo_owner self) d bv mega p dt0 dts))
       []
       match mx with
       | Some M =>
           if Qltb M (p + dt0)
           then ["the maximum duration forces the binary to 0 in the first time step"]
           else []
       | None => []
       end).
Proof.
  intros Hsteps Hidx Hdt Hprev mega d. subst mega d.
  unfold _get_duration_in_hours, bind, lift, need, ret, constant_duration.
  rewrite Hprev, Hidx, Hdt, Hsteps.
  destruct mx as [M|], mn as [m|];
    cbn -[String.append full_label Qmult Qplus seq Qltb];
    rewrite ?slice_from1_seq, ?slice_to_last_seq; simpl Nat.sub; rewrite ?Nat.sub_0_r;
    unfold minimum_duration_equations;
    repeat match goal with
           | |- context [if ?c then _ else _] => destruct c
           end;
    reflexivity.
Qed.

Lemma Qltb_lt a b : Qltb a b = true <-> a < b.
Proof.
  unfold Qltb. destruct (Qle_bool b a) eqn:E; cbn.
  - apply Qle_bool_iff in E. split; [discriminate | intros H; lra].
  - split; [intros _ | reflexivity].
    destruct (Qlt_le_dec a b) as [H|H]; [exact H|].
    apply Qle_bool_iff in H. congruence.
Qed.

(** Limits on a consecutive duration that are the same at every step.
    A maximum caps the duration at every step; when the carried
    duration plus the first step exceeds it, a warning is logged and the
    binary is 0 in the first step. A minimum must have been reached
    before the binary may fall from 1 to 0 (the last step is not
    checked), and a carried duration strictly between 0 and the minimum
    keeps the binary at 1 in the first step. *)
Theorem duration_limits (cfg : Config) (self : OnOffModel) (label : string)
    (bv : Variable_) (sm : SystemModel) (dt0 p : Q) (dts : list Q) (mn mx : option Q) :
  nr_of_time_steps sm = S (length dts) ->
  indices sm = seq 0 (S (length dts)) ->
  dt_in_hours sm = dt0 :: dts ->
  var_length bv = S (length dts) ->
  get_consecutive_duration cfg (previous_values bv) (previous_dt_in_hours sm) = Ok p ->
  let run := _get_duration_in_hours cfg self label (Some bv)
               (constant_duration mn) (constant_duration mx) sm (indices sm) in
  is_ok (fst (run empty_built)) = true /\
  (forall M, mx = Some M ->
     (M < p + dt0 <-> warnings (snd (run empty_built)) <> [])) /\
  forall val,
    feasible val (snd (run empty_built)) ->
    let duration := val (full_label (oo_owner self) label) in
    let binary := val (var_label bv) in
    (forall M, mx = Some M ->
       (forall t, (t <= length dts)%nat -> duration t <= M) /\
       (M < p + dt0 -> binary 0%nat == 0 \/ binary 0%nat == 1 -> binary 0%nat == 0)) /\
    (forall m, mn = Some m ->
       (forall t, (t < length dts)%nat ->
          binary t == 1 -> binary (S t) == 0 -> m <= duration t) /\
       (0 < p -> p < m -> binary 0%nat == 1)).
Proof.
  intros Hsteps Hidx Hdt Hbv Hprev run. subst run.
  rewrite (limited_duration_run cfg self label bv sm dt0 p dts mn mx Hsteps Hidx Hdt Hprev).
  cbn [fst snd is_ok warnings].
  split; [reflexivity|]. split.
  { intros M ->. rewrite <- Qltb_lt. destruct (Qltb M (p + dt0)); split;
      first [discriminate | congruence | reflexivity | intros _; discriminate]. }
  intros val [Hvars Heqs]. cbv zeta.
  cbn [variables eqs] in Hvars, Heqs.
  apply Forall_cons_iff in Hvars as [Vd _].
  apply Forall_app in Heqs as [_ Heqs]. apply Forall_app in Heqs as [Hmin Hlast].
  cbn [skipn duration_equations] in Hlast. apply Forall_cons_iff in Hlast as [Efirst _].
  assert (Hfirst : val (full_label (oo_owner self) label) 0%nat
                   == (dt0 + p) * val (var_label bv) 0%nat).
  { change [0%nat] with (seq 0 1) in Efirst.
    apply (fitting_equation_row val 1 _ 0) in Efirst; [| lia | | | lia].
    - unfold rhs, term_value, broadcast_index in Efirst.
      cbn [eq_type summands constants List.map Qsum fold_right s_factor s_var s_as_sum
           s_indices bnth new_variable var_label] in Efirst. lra.
    - cbn. repeat apply Forall_cons; try apply Forall_nil; apply term_fits_seq; exact I.
    - apply Exists_cons_hd. apply summand_rows_seq. exact I. }
  split.
  - intros M ->. split.
    + intros t Ht. destruct (Vd t ltac:(cbn; lia)) as (_ & Hhi & _). exact Hhi.
    + intros Hover Hbin. destruct (Vd 0%nat ltac:(cbn; lia)) as (_ & Hhi & _).
      cbn in Hhi. destruct Hbin as [H0|H1]; [exact H0|]. rewrite H1 in Hfirst. lra.
  - intros m ->. unfold minimum_duration_equations in Hmin.
    apply Forall_cons_iff in Hmin as [Emin Hinit]. split.
    + intros t Ht H1 H0.
      unfold eq_holds, eq_rows, row_holds, lhs, rhs in Emin.
      cbn [eq_type summands constants List.map fold_right Qsum] in Emin.
      rewrite !summand_rows_seq in Emin by exact I.
      specialize (Emin t ltac:(lia)).
      rewrite !summand_value_seq in Emin by lia.
      cbn [bnth Nat.add new_variable var_label] in Emin.
      rewrite H1, H0 in Emin. lra.
    + intros Hp Hm.
      assert (Hc : Qltb 0 p && Qltb p m = true).
      { apply andb_true_intro. split; now apply Qltb_lt. }
      rewrite Hc in Hinit. apply Forall_cons_iff in Hinit as [Einit _].
      change [0%nat] with (seq 0 1) in Einit.
      apply (fitting_equation_row val 1 _ 0) in Einit; [| lia | | | lia].
      * unfold rhs, term_value, broadcast_index in Einit.
        cbn [eq_type summands constants List.map Qsum fold_right s_factor s_var s_as_sum
             s_indices bnth] in Einit. lra.
      * cbn. repeat apply Forall_cons; try apply Forall_nil; apply term_fits_seq; exact I.
      * apply Exists_cons_hd. apply summand_rows_seq. exact I.
Qed.

(** The boiler kept on between two and four hours in a row. *)
Lemma duration_limits_witness :
  let run := _get_duration_in_hours cfg0 unit_model "consecutiveOnHours" (Some kept_on)
               (constant_duration (Some 2)) (constant_duration (Some 4)) sm11 (indices sm11) in
  feasible kept_on_val (snd (run empty_built)) /\
  (forall t, (t <= 10)%nat -> kept_on_val "Boiler__OnOff__consecutiveOnHours" t <= 4) /\
  (forall t, (t < 10)%nat ->
     kept_on_val "Boiler__OnOff__on" t == 1 -> kept_on_val "Boiler__OnOff__on" (S t) == 0 ->
     2 <= kept_on_val "Boiler__OnOff__consecutiveOnHours" t) /\
  kept_on_val "Boiler__OnOff__on" 0%nat == 1.
Proof.
  intros run.
  assert (Hf : feasible kept_on_val (snd (run empty_built)))
    by (apply feasible_check_spec; vm_compute; reflexivity).
  split; [exact Hf|].
  destruct (duration_limits cfg0 unit_model "consecutiveOnHours" kept_on sm11 1 1
              (repeat 1 10) (Some 2) (Some 4) eq_refl eq_refl eq_refl eq_refl eq_refl)
    as (_ & _ & H).
  destruct (H kept_on_val Hf) as (Hmax & Hmin).
  destruct (Hmax 4 eq_refl) as (Hcap & _).
  destruct (Hmin 2 eq_refl) as (Hfall & Hstart).
  split; [exact Hcap|]. split; [exact Hfall|].
  apply Hstart; reflexivity.
Defined.

(** ** [ComponentModel.do_modeling] *)

(** Naming a single flow in [prevent_simultaneous_flows] never works:
    whatever the flows are, [ComponentModel.do_modeling] ends in an
    exception, at the latest when [PreventSimultaneousUsageModel] asks
    for two variables. *)
Theorem prevent_simultaneous_needs_two (cfg : Config) (element : Component)
    (sm : SystemModel) (b : Built) (label : string) :
  prevent_simultaneous_flows element = [label] ->
  is_ok (fst (ComponentModel_do_modeling cfg element sm b)) = false.
Proof.
  intros Hl. unfold ComponentModel_do_modeling. rewrite Hl. cbv zeta.
  unfold bind at 1.
  destruct (model_flows _ _ _ _) as [[flows|e] b1]; [|reflexivity].
  unfold bind at 1.
  match goal with
  | |- context [match ?m b1 with _ => _ end] => destruct (m b1) as [[on_model|e] b2]
  end; [|reflexivity].
  unfold bind, lift, collect.
  destruct (find_flow flows label) as [f|e]; [|reflexivity].
  destruct (flow_on_variable f) as [v|e]; reflexivity.
Qed.

(** A store with only its charging flow named. *)
Lemma prevent_simultaneous_needs_two_witness :
  is_ok (fst (ComponentModel_do_modeling cfg0 lonely_store sm3 empty_built)) = false.
Proof.
  exact (prevent_simultaneous_needs_two cfg0 lonely_store sm3 empty_built "charge" eq_refl).
Defined.

Lemma bind_inv {S A B} (m : M S A) (k : A -> M S B) s r s' :
  bind m k s = (Ok r, s') -> exists a s1, m s = (Ok a, s1) /\ k a s1 = (Ok r, s').
Proof.
  unfold bind. destruct (m s) as [[a|e] s1]; [eauto | discriminate].
Qed.

Lemma ret_inv {S A} (a r : A) (s s' : S) : ret a s = (Ok r, s') -> a = r /\ s = s'.
Proof. unfold ret. now intros [= -> ->]. Qed.

Ltac invert_run H :=
  repeat match type of H with
         | bind _ _ _ = (Ok _, _) =>
             let a := fresh "a" in
             let s := fresh "s" in
             let Ha := fresh "Ha" in
             apply bind_inv in H; destruct H as (a & s & Ha & H)
         | (if ?c then _ else _) _ = (Ok _, _) => destruct c
         | (let _ := _ in _) _ = (Ok _, _) => cbv zeta in H
         end.

Lemma on_off_modeling_on cfg self sm b m b' :
  OnOffModel_do_modeling cfg self sm b = (Ok m, b') ->
  exists v, on m = Some v /\ is_binary v = true /\
            var_length v = nr_of_time_steps sm /\
            var_label v = full_label (oo_owner self) "on".
Proof.
  intros H. unfold OnOffModel_do_modeling in H. cbv zeta in H.
  apply bind_inv in H. destruct H as (prev & s0 & _ & H).
  apply bind_inv in H. destruct H as (on_v & s1 & Hon & H).
  apply bind_inv in H. destruct H as (toh & s2 & _ & H).
  apply bind_inv in H. destruct H as (? & s3 & _ & H).
  apply bind_inv in H. destruct H as (? & s4 & _ & H).
  apply bind_inv in H. destruct H as (self1 & s5 & H1 & H).
  apply bind_inv in H. destruct H as (self2 & s6 & H2 & H).
  apply bind_inv in H. destruct H as (self3 & s7 & H3 & H).
  apply bind_inv in H. destruct H as (self4 & s8 & H4 & H).
  apply bind_inv in H. destruct H as (? & s9 & _ & H).
  apply ret_inv in H as [<- _].
  unfold create_variable in Hon. injection Hon as <- _.
  assert (E1 : on self1 = on (with_on self
                 (new_variable "on" (oo_owner self) (nr_of_time_steps sm) None None true None
                    (Some prev)) toh)).
  { destruct (use_off _); invert_run H1; [|now apply ret_inv in H1 as [<- _]].
    apply ret_inv in H1 as [<- _]. reflexivity. }
  assert (E2 : on self2 = on self1).
  { destruct (use_consecutive_on_hours _); invert_run H2; [|now apply ret_inv in H2 as [<- _]].
    apply ret_inv in H2 as [<- _]. reflexivity. }
  assert (E3 : on self3 = on self2).
  { destruct (use_consecutive_off_hours _); invert_run H3; [|now apply ret_inv in H3 as [<- _]].
    apply ret_inv in H3 as [<- _]. reflexivity. }
  assert (E4 : on self4 = on self3).
  { destruct (use_switch_on _); invert_run H4; [|now apply ret_inv in H4 as [<- _]].
    apply ret_inv in H4 as [<- _]. reflexivity. }
  eexists. rewrite E4, E3, E2, E1. cbn. repeat split.
Qed.

Lemma flow_modeling_on cfg f sm b m b' :
  FlowModel_do_modeling cfg f sm b = (Ok m, b') ->
  is_some (on_off_parameters f) = true ->
  exists o v, fm_on m = Some o /\ on o = Some v /\ is_binary v = true /\
              var_length v = nr_of_time_steps sm.
Proof.
  intros H Hp. unfold FlowModel_do_modeling in H. cbv zeta in H.
  destruct (on_off_parameters f) as [p|]; [|discriminate].
  apply bind_inv in H. destruct H as (rate & s0 & _ & H).
  apply bind_inv in H. destruct H as (on_model & s1 & Hon & H).
  apply bind_inv in H. destruct H as (inv & s2 & _ & H).
  apply bind_inv in H. destruct H as (hours & s3 & _ & H).
  apply bind_inv in H. destruct H as (? & s4 & _ & H).
  apply bind_inv in H. destruct H as (? & s5 & _ & H).
  apply bind_inv in H. destruct H as (? & s6 & _ & H).
  apply ret_inv in H as [<- _]. cbn [fm_on].
  apply bind_inv in Hon. destruct Hon as (m0 & s7 & _ & Hon).
  apply bind_inv in Hon. destruct Hon as (m1 & s8 & Hrun & Hon).
  apply ret_inv in Hon as [<- _].
  destruct (on_off_modeling_on _ _ _ _ _ _ Hrun) as (v & Hv & Hbin & Hlen & _).
  eauto 6.
Qed.

Lemma model_flows_on cfg flows sm b flows' b' :
  model_flows cfg flows sm b = (Ok flows', b') ->
  List.map flow_label flows' = List.map flow_label flows /\
  (Forall (fun f => is_some (on_off_parameters f) = true) flows ->
   Forall (has_on_variable (nr_of_time_steps sm)) flows').
Proof.
  revert b flows' b'. induction flows as [|f flows IH]; intros b flows' b' H; simpl in H.
  - apply ret_inv in H as [<- _]. split; [reflexivity | constructor].
  - apply bind_inv in H. destruct H as (m & s0 & Hm & H).
    apply bind_inv in H. destruct H as (rest & s1 & Hrest & H).
    apply ret_inv in H as [<- _].
    destruct (IH _ _ _ Hrest) as [Hlabels Hon].
    split; [simpl; now rewrite Hlabels|].
    intros Hall. apply Forall_cons_iff in Hall as [Hf Hall].
    constructor; [|now apply Hon].
    destruct (flow_modeling_on _ _ _ _ _ _ Hm Hf) as (o & v & Ho & Hv & Hbin & Hlen).
    exists v. unfold flow_on_variable. cbn [model with_model]. rewrite Ho, Hv. auto.
Qed.

Lemma ensure_on_off_some f : is_some (on_off_parameters (ensure_on_off f)) = true.
Proof.
  unfold ensure_on_off. destruct (on_off_parameters f) eqn:E; [now rewrite E | reflexivity].
Qed.

Lemma ensure_on_off_label f : flow_label (ensure_on_off f) = flow_label f.
Proof. unfold ensure_on_off. now destruct (on_off_parameters f). Qed.

(** On/off parameters on a component reach all of its flows: when
    [ComponentModel.do_modeling] succeeds, every flow of the component,
    whether it has on/off parameters of its own or not, has been
    modelled with a binary on variable over the horizon, and the
    component has one of its own. *)
Theorem component_on_off_reaches_flows (cfg : Config) (element : Component)
    (sm : SystemModel) (b b' : Built) (cm : ComponentModel) :
  is_some (comp_on_off_parameters element) = true ->
  ComponentModel_do_modeling cfg element sm b = (Ok cm, b') ->
  List.map flow_label (cm_flows cm)
  = List.map flow_label (comp_inputs element ++ comp_outputs element) /\
  Forall (has_on_variable (nr_of_time_steps sm)) (cm_flows cm) /\
  exists o v, cm_on cm = Some o /\ on o = Some v /\ is_binary v = true.
Proof.
  intros Hp H. unfold ComponentModel_do_modeling in H. cbv zeta in H.
  destruct (comp_on_off_parameters element) as [p|]; [|discriminate]. cbn [is_some] in H.
  apply bind_inv in H. destruct H as (flows & s0 & Hflows & H).
  apply bind_inv in H. destruct H as (on_model & s1 & Hon & H).
  apply bind_inv in H. destruct H as (? & s2 & _ & H).
  apply ret_inv in H as [<- _]. cbn [cm_flows cm_on].
  destruct (model_flows_on _ _ _ _ _ _ Hflows) as [Hlabels Hall].
  split; [|split].
  - rewrite Hlabels, !map_map. apply map_ext. intros f.
    destruct (label_in _ _); now rewrite ?ensure_on_off_label.
  - apply Hall. apply Forall_forall. intros f Hf.
    apply in_map_iff in Hf as (g & <- & Hg). apply in_map_iff in Hg as (h & <- & _).
    destruct (label_in _ _); [apply ensure_on_off_some|]. apply ensure_on_off_some.
  - apply bind_inv in Hon. destruct Hon as (rates & s3 & _ & Hon).
    apply bind_inv in Hon. destruct Hon as (m0 & s4 & _ & Hon).
    apply bind_inv in Hon. destruct Hon as (m1 & s5 & Hrun & Hon).
    apply ret_inv in Hon as [<- _].
    destruct (on_off_modeling_on _ _ _ _ _ _ Hrun) as (v & Hv & Hbin & _).
    eauto.
Qed.

(** The CHP unit with on/off parameters and two flows without. *)
Lemma component_on_off_reaches_flows_witness :
  List.map flow_label (cm_flows chp_model) = ["Q_th"; "P_el"] /\
  Forall (has_on_variable 3) (cm_flows chp_model) /\
  exists o v, cm_on chp_model = Some o /\ on o = Some v /\ is_binary v = true.
Proof.
  assert (Hrun : ComponentModel_do_modeling cfg0 chp sm3 empty_built
                 = (Ok chp_model, snd chp_built)) by (vm_compute; reflexivity).
  exact (component_on_off_reaches_flows cfg0 chp sm3 empty_built (snd chp_built) chp_model
           eq_refl Hrun).
Defined.

(** ** [FlowModel.do_modeling] for a flow that can be switched off *)

Lemma on_constraints_appended cfg self0 v on_v h lb ub sm b :
  _defining_variables self0 = [v] ->
  _defining_bounds self0 = [(np_maximum (EPSILON cfg) lb, ub)] ->
  eqs (snd (_add_on_constraints cfg (with_on self0 on_v h) sm (seq 0 (nr_of_time_steps sm)) b))
  = eqs b ++ [on_constraint_1 cfg (oo_owner self0) v on_v lb (nr_of_time_steps sm);
              on_constraint_2 (oo_owner self0) v on_v ub (nr_of_time_steps sm)].
Proof.
  intros Hv Hb.
  unfold _add_on_constraints, on_constraint_1, on_constraint_2, bind, need, assert_, ret.
  cbn [on with_on _defining_variables _defining_bounds fst snd].
  rewrite Hv, Hb. cbn [length Nat.ltb Nat.leb fst snd].
  unfold emit, modify, lift. cbn [fst snd eqs].
  destruct (np_max ub) as [m|e]; cbn [fst snd eqs].
  - destruct (Qltb (BIG_BINARY_BOUND cfg) m); cbn; now rewrite <- app_assoc.
  - now rewrite <- app_assoc.
Qed.

Lemma feasible_bind_first {A B} (m : M Built A) (k : A -> M Built B) val b :
  (forall a, grows (k a)) ->
  feasible val (snd (bind m k b)) -> feasible val (snd (m b)).
Proof.
  intros Hk. unfold bind. destruct (m b) as [[a|e] b1]; cbn [snd]; [|auto].
  now apply feasible_before.
Qed.

(** A flow of fixed size with on/off parameters: when its model is
    built without error, every feasible assignment has a binary [on],
    a flow rate of 0 wherever [on] is 0, and, wherever [on] is 1, a flow
    rate between the relative minimum times the size (raised to
    [EPSILON] where it lies below) and the relative maximum times the
    size. *)
Theorem switched_flow_model (cfg : Config) (element : Flow) (sm : SystemModel) (s : Q)
    (val : Valuation) :
  horizon_ok sm ->
  is_some (on_off_parameters element) = true ->
  size element = SizeSkalar s ->
  fits (nr_of_time_steps sm) (fst (relative_flow_rate_bounds element)) ->
  fits (nr_of_time_steps sm) (snd (relative_flow_rate_bounds element)) ->
  is_ok (fst (FlowModel_do_modeling cfg element sm empty_built)) = true ->
  feasible val (snd (FlowModel_do_modeling cfg element sm empty_built)) ->
  let rate := val (full_label (Flow_label_full element) "flow_rate") in
  let on_ := val (full_label (full_label (Flow_label_full element) "OnOff") "on") in
  forall t, (t < nr_of_time_steps sm)%nat ->
    (on_ t == 0 \/ on_ t == 1) /\
    (on_ t == 0 -> rate t == 0) /\
    (on_ t == 1 ->
     Qmax (EPSILON cfg) (bnth (fst (relative_flow_rate_bounds element)) t * s) <= rate t
     <= bnth (snd (relative_flow_rate_bounds element)) t * s).
Proof.
  intros (Hidx & _ & _) Hp Hsize Hmin Hmax Hok Hf rate on_ t Ht. subst rate on_.
  destruct (on_off_parameters element) as [p|] eqn:Hon; [|discriminate]. clear Hp.
  unfold FlowModel_do_modeling in Hok, Hf. cbv zeta in Hok, Hf.
  unfold absolute_flow_rate_bounds in Hok, Hf.
  destruct (relative_flow_rate_bounds element) as [rel_min rel_max].
  cbn [fst snd] in *. rewrite Hon, Hsize in Hok, Hf. cbn [fst snd] in Hok, Hf.
  erewrite bind_run in Hok by reflexivity. erewrite bind_run in Hf by reflexivity.
  (* the on/off model of the flow *)
  destruct (bind_ok _ _ _ Hok) as (on_model & Hstep & _). clear Hok.
  apply feasible_bind_first in Hf; [|intros; grows_tac].
  unfold OnOffModel_init in Hstep, Hf. cbn [length Nat.eqb List.map] in Hstep, Hf.
  erewrite bind_run in Hstep by reflexivity. erewrite bind_run in Hf by reflexivity.
  assert (Hok : is_ok (fst (bind (OnOffModel_do_modeling cfg
            (mkOnOffModel (Flow_label_full element) "OnOff" None None None None None None
               None None p
               [new_variable "flow_rate" (Flow_label_full element) (nr_of_time_steps sm)
                  (Some (Skalar 0)) None false None (previous_flow_rate element)]
               [(np_maximum (EPSILON cfg) (np_times rel_min s), np_times rel_max s)]) sm)
            (fun m => ret (Some m))
            (mkBuilt
               (variables empty_built ++
                [new_variable "flow_rate" (Flow_label_full element) (nr_of_time_steps sm)
                   (Some (Skalar 0)) None false None (previous_flow_rate element)])
               (eqs empty_built) (share_calls empty_built) (warnings empty_built)))) = true)
    by (rewrite Hstep; reflexivity).
  clear Hstep.
  destruct (bind_ok _ _ _ Hok) as (m1 & Hrun & _). clear Hok.
  apply feasible_bind_first in Hf; [|intros; grows_tac].
  assert (Hok : is_ok (fst (OnOffModel_do_modeling cfg
            (mkOnOffModel (Flow_label_full element) "OnOff" None None None None None None
               None None p
               [new_variable "flow_rate" (Flow_label_full element) (nr_of_time_steps sm)
                  (Some (Skalar 0)) None false None (previous_flow_rate element)]
               [(np_maximum (EPSILON cfg) (np_times rel_min s), np_times rel_max s)]) sm
            (mkBuilt
               (variables empty_built ++
                [new_variable "flow_rate" (Flow_label_full element) (nr_of_time_steps sm)
                   (Some (Skalar 0)) None false None (previous_flow_rate element)])
               (eqs empty_built) (share_calls empty_built) (warnings empty_built)))) = true)
    by (rewrite Hrun; reflexivity).
  clear Hrun.
  unfold OnOffModel_do_modeling in Hok, Hf. cbv zeta in Hok, Hf.
  destruct (_previous_on_values _ (EPSILON cfg)) as [prev|err]; [|discriminate Hok].
  clear Hok.
  erewrite bind_run in Hf by reflexivity.
  erewrite bind_run in Hf by reflexivity.
  erewrite bind_run in Hf by reflexivity.
  erewrite bind_run in Hf by reflexivity.
  apply feasible_bind_first in Hf; [|intros; grows_tac].
  destruct Hf as [Hvars Heqs].
  rewrite Hidx in Hvars, Heqs.
  rewrite (on_constraints_appended cfg _ _ _ _ (np_times rel_min s) (np_times rel_max s))
    in Heqs by reflexivity.
  match type of Hvars with
  | context [snd (_add_on_constraints ?c ?sf ?m ?i ?b)] =>
      destruct (grows_on_constraints c sf m i b) as (vs & es & Ev & _)
  end.
  rewrite Ev in Hvars. clear Ev.
  cbn [variables eqs empty_built app] in Hvars, Heqs.
  apply Forall_cons_iff in Hvars as [Vrate Hvars].
  apply Forall_cons_iff in Hvars as [Von _].
  apply Forall_cons_iff in Heqs as [_ Heqs].
  apply Forall_cons_iff in Heqs as [C1 Heqs].
  apply Forall_cons_iff in Heqs as [C2 _].
  pose proof (proj1 (on_constraint_1_holds _ _ _ _ _ _ val (fits_np_map _ _ _ Hmin)) C1 t Ht)
    as H1.
  pose proof (proj1 (on_constraint_2_holds _ _ _ _ _ val (fits_np_map _ _ _ Hmax)) C2 t Ht)
    as H2.
  destruct (Von t ltac:(cbn; exact Ht)) as (_ & _ & _ & Hbin). specialize (Hbin eq_refl).
  rewrite (bnth_np_map _ _ _ _ Hmin Ht) in H1.
  rewrite (bnth_np_map _ _ _ _ Hmax Ht) in H2.
  cbn [new_variable var_label oo_owner oo_element oo_label] in H1, H2, Hbin.
  split; [exact Hbin|]. split.
  - intros H0. rewrite H0 in H1, H2. lra.
  - intros Hone. rewrite Hone in H1, H2. lra.
Qed.

(** The heat flow at full load, off, and at its minimum. *)
Lemma switched_flow_model_witness :
  feasible switched_flow_val
    (snd (FlowModel_do_modeling cfg0 switched_flow sm3 empty_built)) /\
  forall t, (t < 3)%nat ->
    (switched_flow_val "Boiler__Q_th__OnOff__on" t == 0 \/
     switched_flow_val "Boiler__Q_th__OnOff__on" t == 1) /\
    (switched_flow_val "Boiler__Q_th__OnOff__on" t == 0 ->
     switched_flow_val "Boiler__Q_th__flow_rate" t == 0) /\
    (switched_flow_val "Boiler__Q_th__OnOff__on" t == 1 ->
     Qmax (EPSILON cfg0) ((1 # 5) * 50) <= switched_flow_val "Boiler__Q_th__flow_rate" t
     <= 1 * 50).
Proof.
  assert (Hf : feasible switched_flow_val
                 (snd (FlowModel_do_modeling cfg0 switched_flow sm3 empty_built)))
    by (apply feasible_check_spec; vm_compute; reflexivity).
  split; [exact Hf|].
  exact (switched_flow_model cfg0 switched_flow sm3 50 switched_flow_val
           (conj eq_refl (conj eq_refl eq_refl)) eq_refl eq_refl I I eq_refl Hf).
Defined.

(** ** Registering the flows of a component in their buses *)

Lemma fold_alter_lookup (g : Flow -> Bus -> Bus) flows (buses : gmap string Bus) l b :
  buses !! l = Some b ->
  fold_left (fun bs flow => alter (g flow) (flow_bus flow) bs) flows buses !! l
  = Some (fold_left (fun b flow => g flow b) (filter (on_bus l) flows) b).
Proof.
  revert buses b. induction flows as [|f flows IH]; intros buses b Hb; simpl; [exact Hb|].
  unfold on_bus at 1. destruct (String.eqb (flow_bus f) l) eqn:E.
  - apply String.eqb_eq in E. subst l. simpl. apply IH.
    rewrite lookup_alter_eq, Hb. reflexivity.
  - apply String.eqb_neq in E. apply IH. rewrite lookup_alter_ne by exact E. exact Hb.
Qed.

Lemma fold_alter_none (g : Flow -> Bus -> Bus) flows (buses : gmap string Bus) l :
  buses !! l = None ->
  fold_left (fun bs flow => alter (g flow) (flow_bus flow) bs) flows buses !! l = None.
Proof.
  revert buses. induction flows as [|f flows IH]; intros buses Hb; simpl; [exact Hb|].
  apply IH. destruct (decide (flow_bus f = l)) as [<-|Hne].
  - rewrite lookup_alter_eq, Hb. reflexivity.
  - rewrite lookup_alter_ne by exact Hne. exact Hb.
Qed.

Lemma fold_add_output flows b :
  fold_left (fun b flow => add_output flow b) flows b
  = mkBus (bus_label b) (excess_penalty_per_flow_hour b) (inputs b) (outputs b ++ flows).
Proof.
  revert b. induction flows as [|f flows IH]; intros b; simpl.
  - rewrite app_nil_r. now destruct b.
  - rewrite IH. cbn. now rewrite <- app_assoc.
Qed.

Lemma fold_add_input flows b :
  fold_left (fun b flow => add_input flow b) flows b
  = mkBus (bus_label b) (excess_penalty_per_flow_hour b) (inputs b ++ flows) (outputs b).
Proof.
  revert b. induction flows as [|f flows IH]; intros b; simpl.
  - rewrite app_nil_r. now destruct b.
  - rewrite IH. cbn. now rewrite <- app_assoc.
Qed.

(** [register_flows_in_bus] swaps the sides: the inputs of the
    component that refer to a bus are appended, in their order, to the
    outputs of that bus, and the outputs of the component to its
    inputs. Nothing else of the bus changes, and no bus is added to the
    store. *)
Theorem register_flows_swaps_sides (c : Component) (buses : gmap string Bus) (l : string) :
  match buses !! l with
  | Some b =>
      register_flows_in_bus c buses !! l
      = Some (mkBus (bus_label b) (excess_penalty_per_flow_hour b)
                (inputs b ++ filter (on_bus l) (comp_outputs c))
                (outputs b ++ filter (on_bus l) (comp_inputs c)))
  | None => register_flows_in_bus c buses !! l = None
  end.
Proof.
  unfold register_flows_in_bus. destruct (buses !! l) as [b|] eqn:Hb.
  - erewrite fold_alter_lookup; [|apply fold_alter_lookup; exact Hb].
    rewrite fold_add_output, fold_add_input. reflexivity.
  - apply fold_alter_none, fold_alter_none. exact Hb.
Qed.

(** ** A bus whose flows have not been modelled *)

(** The balance of a bus needs the flow rates of all its flows: when
    the model of one of them has not been built yet,
    [BusModel.do_modeling] raises. It has then created no variable and
    registered no share, but the balance it had created stays in the
    model, filled with the flow rates of the flows that come before the
    first one without a model. *)
Theorem bus_needs_flow_models (bus : Bus) (sm : SystemModel) (b : Built) :
  all_modelled (inputs bus ++ outputs bus) = false ->
  let run := BusModel_do_modeling bus sm b in
  is_ok (fst run) = false /\
  variables (snd run) = variables b /\
  share_calls (snd run) = share_calls b /\
  warnings (snd run) = warnings b /\
  eqs (snd run) = eqs b ++ [half_filled_balance bus].
Proof.
  intros Hex run. subst run.
  unfold all_modelled in Hex. rewrite forallb_app in Hex.
  fold (all_modelled (inputs bus)) in Hex. fold (all_modelled (outputs bus)) in Hex.
  assert (Hrun : exists x,
            BusModel_do_modeling bus sm b
            = (Raise x, mkBuilt (variables b) (eqs b ++ [half_filled_balance bus])
                          (share_calls b) (warnings b))).
  { unfold BusModel_do_modeling, half_filled_balance. cbv zeta.
    erewrite bind_run by reflexivity.
    destruct (add_flow_rates_run (inputs bus) 1 (variables b) (eqs b)
                (new_equation "busBalance" (bus_label bus) eq_) (share_calls b) (warnings b))
      as [Hok Hst].
    unfold bind at 1.
    destruct (add_flow_rates (inputs bus) 1 _) as [[[]|x] b1]; cbn [fst snd is_ok] in Hok, Hst.
    - rewrite <- Hok in Hex |- *. cbn [andb] in Hex. subst b1.
      cbn [eq_label eq_type summands constants new_equation app].
      destruct (add_flow_rates_run (outputs bus) (-1) (variables b) (eqs b)
                  (mkEquation (full_label (bus_label bus) "busBalance") eq_
                     (List.map (fun v => mkSummand v (Skalar 1) None false)
                        (rates_before (inputs bus))) [])
                  (share_calls b) (warnings b))
        as [Hok2 Hst2].
      unfold bind at 1.
      destruct (add_flow_rates (outputs bus) (-1) _) as [[[]|x] b2];
        cbn [fst snd is_ok] in Hok2, Hst2; [congruence|].
      subst b2. cbn [eq_label eq_type summands constants]. eauto.
    - rewrite <- Hok. subst b1.
      cbn [eq_label eq_type summands constants new_equation app]. rewrite app_nil_r. eauto. }
  destruct Hrun as (x & ->). cbn. repeat split.
Qed.

(** The heat bus before its consumer has been modelled: the balance
    holds the boiler alone. *)
Lemma bus_needs_flow_models_witness :
  is_ok (fst (BusModel_do_modeling early_bus sm3 empty_built)) = false /\
  variables (snd (BusModel_do_modeling early_bus sm3 empty_built)) = [] /\
  share_calls (snd (BusModel_do_modeling early_bus sm3 empty_built)) = [] /\
  warnings (snd (BusModel_do_modeling early_bus sm3 empty_built)) = [] /\
  eqs (snd (BusModel_do_modeling early_bus sm3 empty_built)) = [half_filled_balance early_bus].
Proof.
  exact (bus_needs_flow_models early_bus sm3 empty_built eq_refl).
Defined.

(** ** [FlowModel.do_modeling] for a flow with an investment *)

Lemma investment_bounds_reached cfg self sm b val :
  feasible val (snd (InvestmentModel_do_modeling cfg self sm b)) ->
  exists size_v is_inv b',
    var_label size_v = full_label (im_owner self) "size" /\
    var_length size_v = 1%nat /\
    feasible val
      (snd (_create_bounds_for_defining_variable
              (mkInvestmentModel (im_element self) (im_label self) (Some size_v) is_inv
                 (_segments self) (_on_variable self) (_defining_variable self)
                 (_relative_bounds_of_defining_variable self) (_fixed_relative_profile self)
                 (_invest_parameters self)) b')).
Proof.
  intros Hf. unfold InvestmentModel_do_modeling in Hf. cbv zeta in Hf.
  destruct (optional (_invest_parameters self)) eqn:Hopt.
  - assert (Hsize : forall o : option Q,
              match o, true with
              | Some fixed, false =>
                  create_variable "size" (im_owner self) 1 None None false
                                  (Some (Skalar fixed)) None
              | _, _ =>
                  create_variable "size" (im_owner self) 1 (Some (Skalar 0))
                    (Some (Skalar (maximum_size (_invest_parameters self)))) false None None
              end
              = create_variable "size" (im_owner self) 1 (Some (Skalar 0))
                  (Some (Skalar (maximum_size (_invest_parameters self)))) false None None)
      by (intros [?|]; reflexivity).
    rewrite Hsize in Hf.
    erewrite bind_run in Hf by reflexivity.
    erewrite bind_run in Hf by reflexivity.
    erewrite bind_run in Hf by (apply optional_bounds_run; reflexivity).
    apply feasible_bind_first in Hf; [|intros; grows_tac].
    eexists _, _, _. split; [|split; [|exact Hf]]; reflexivity.
  - destruct (fixed_size_truthy (_invest_parameters self)) as [fixed|].
    + erewrite bind_run in Hf by reflexivity.
      erewrite bind_run in Hf by reflexivity.
      erewrite bind_run in Hf by reflexivity.
      apply feasible_bind_first in Hf; [|intros; grows_tac].
      eexists _, _, _. split; [|split; [|exact Hf]]; reflexivity.
    + erewrite bind_run in Hf by reflexivity.
      erewrite bind_run in Hf by reflexivity.
      erewrite bind_run in Hf by reflexivity.
      apply feasible_bind_first in Hf; [|intros; grows_tac].
      eexists _, _, _. split; [|split; [|exact Hf]]; reflexivity.
Qed.

Lemma defining_bounds_appended self b :
  eqs (snd (_create_bounds_for_defining_variable self b))
  = eqs b ++ emitted (_create_bounds_for_defining_variable self).
Proof.
  unfold emitted, _create_bounds_for_defining_variable.
  destruct (_fixed_relative_profile self) as [pr|].
  - destruct (im_size self) as [s|]; cbn; [reflexivity | now rewrite app_nil_r].
  - destruct (_relative_bounds_of_defining_variable self) as [rmin rmax].
    destruct (im_size self) as [s|]; [|cbn; now rewrite app_nil_r].
    destruct (_on_variable self) as [o|]; cbn; now rewrite <- app_assoc.
Qed.

(** A flow whose size is an investment, without on/off parameters: in
    every feasible assignment the flow rate lies, at every step,
    between the relative minimum and the relative maximum times the
    size that is invested (and equals the fixed profile times that size
    when a profile is given). *)
Theorem invested_flow_model (cfg : Config) (element : Flow) (sm : SystemModel)
    (parameters : InvestParameters) (val : Valuation) :
  (1 <= nr_of_time_steps sm)%nat ->
  on_off_parameters element = None ->
  size element = SizeInvest parameters ->
  fits (nr_of_time_steps sm) (fst (relative_flow_rate_bounds element)) ->
  fits (nr_of_time_steps sm) (snd (relative_flow_rate_bounds element)) ->
  feasible val (snd (FlowModel_do_modeling cfg element sm empty_built)) ->
  let rate := val (full_label (Flow_label_full element) "flow_rate") in
  let invested :=
    val (full_label (full_label (Flow_label_full element) "Investment") "size") 0%nat in
  forall t, (t < nr_of_time_steps sm)%nat ->
    bnth (fst (relative_flow_rate_bounds element)) t * invested <= rate t
    <= bnth (snd (relative_flow_rate_bounds element)) t * invested.
Proof.
  intros HT Hon Hsize Hmin Hmax Hf rate invested t Ht. subst rate invested.
  unfold FlowModel_do_modeling in Hf. cbv zeta in Hf.
  rewrite Hon, Hsize in Hf.
  erewrite bind_run in Hf by reflexivity.
  erewrite bind_run in Hf by reflexivity.
  apply feasible_bind_first in Hf; [|intros; grows_tac].
  apply feasible_bind_first in Hf; [|intros; grows_tac].
  apply investment_bounds_reached in Hf as (size_v & is_inv & b' & Hlabel & Hlen & Hf).
  destruct Hf as [_ Heqs]. rewrite defining_bounds_appended in Heqs.
  apply Forall_app in Heqs as [_ Heqs].
  unfold emitted, _create_bounds_for_defining_variable, InvestmentModel_init in Heqs.
  cbn [_fixed_relative_profile im_size _on_variable _defining_variable
       _relative_bounds_of_defining_variable im_owner im_element im_label] in Heqs.
  unfold relative_flow_rate_bounds in *.
  change (full_label (full_label (Flow_label_full element) "Investment") "size")
    with (full_label (im_owner (InvestmentModel_init (Flow_label_full element) parameters
            (new_variable "flow_rate" (Flow_label_full element) (nr_of_time_steps sm)
               (Some (fst (absolute_flow_rate_bounds element)))
               (Some (snd (absolute_flow_rate_bounds element))) false None
               (previous_flow_rate element))
            (match fixed_relative_profile element with
             | Some fixed_profile => (fixed_profile, fixed_profile)
             | None => (relative_minimum element, relative_maximum element)
             end)
            (fixed_relative_profile element) "Investment" None)) "size").
  rewrite <- Hlabel.
  destruct (fixed_relative_profile element) as [pr|]; cbn [fst snd] in *.
  - cbn in Heqs. apply Forall_cons_iff in Heqs as [E _].
    apply (fitting_equation_row val (nr_of_time_steps sm) _ t) in E;
      [| exact HT | | | exact Ht].
    + unfold term_value, rhs in E.
      cbn [add_summand add_constant new_equation eq_type summands constants app List.map
           Qsum fold_right s_factor s_var s_as_sum bnth] in E.
      rewrite (broadcast_index_scalar size_v) in E by exact Hlen.
      rewrite (broadcast_index_plain (nr_of_time_steps sm)) in E by (reflexivity || exact Ht).
      unfold np_scale in E.
      rewrite (bnth_np_map _ _ (nr_of_time_steps sm)) in E by assumption.
      cbn [new_variable var_label] in E. split; lra.
    + cbn. repeat apply Forall_cons; try apply Forall_nil.
      * apply term_fits_plain; [reflexivity | exact I].
      * apply term_fits_scalar; auto with fits.
    + apply Exists_cons_hd. apply summand_rows_all; [reflexivity | exact I].
  - cbn in Heqs. apply Forall_cons_iff in Heqs as [E1 Heqs].
    apply Forall_cons_iff in Heqs as [E2 _].
    apply (fitting_equation_row val (nr_of_time_steps sm) _ t) in E1;
      [| exact HT | | | exact Ht].
    apply (fitting_equation_row val (nr_of_time_steps sm) _ t) in E2;
      [| exact HT | | | exact Ht].
    + unfold term_value, rhs in E1, E2.
      cbn [add_summand add_constant new_equation eq_type summands constants app List.map
           Qsum fold_right s_factor s_var s_as_sum bnth] in E1, E2.
      rewrite (broadcast_index_scalar size_v) in E1, E2 by exact Hlen.
      rewrite !(broadcast_index_plain (nr_of_time_steps sm)) in E1
        by (reflexivity || exact Ht).
      rewrite !(broadcast_index_plain (nr_of_time_steps sm)) in E2
        by (reflexivity || exact Ht).
      unfold np_scale in E1.
      rewrite (bnth_np_map _ _ (nr_of_time_steps sm)) in E1 by assumption.
      cbn [new_variable var_label] in E1, E2. split; lra.
    + cbn. repeat apply Forall_cons; try apply Forall_nil.
      * apply term_fits_plain; [reflexivity | exact I].
      * apply term_fits_scalar; auto with fits.
    + apply Exists_cons_hd. apply summand_rows_all; [reflexivity | exact I].
    + cbn. repeat apply Forall_cons; try apply Forall_nil.
      * apply term_fits_plain; [reflexivity | exact I].
      * apply term_fits_scalar; auto with fits.
    + apply Exists_cons_hd. apply summand_rows_all; [reflexivity | exact I].
Qed.

(** The heat flow with an invested size of 40. *)
Lemma invested_flow_model_witness :
  feasible invested_flow_val
    (snd (FlowModel_do_modeling cfg0 invested_flow sm3 empty_built)) /\
  forall t, (t < 3)%nat ->
    (1 # 4) * invested_flow_val "Boiler__Q_th__Investment__size" 0%nat
    <= invested_flow_val "Boiler__Q_th__flow_rate" t
    <= 1 * invested_flow_val "Boiler__Q_th__Investment__size" 0%nat.
Proof.
  assert (Hf : feasible invested_flow_val
                 (snd (FlowModel_do_modeling cfg0 invested_flow sm3 empty_built)))
    by (apply feasible_check_spec; vm_compute; reflexivity).
  split; [exact Hf|].
  assert (HT : (1 <= nr_of_time_steps sm3)%nat) by (cbn; lia).
  exact (invested_flow_model cfg0 invested_flow sm3 (mandatory_parameters None)
           invested_flow_val HT eq_refl eq_refl I I Hf).
Defined.
